(** * genstrokes.py: stroke order diagrams from KanjiVG

    A shallow embedding of [genstrokes.py] and the properties of its path
    translation ([shift_path]), label translation ([shift_transform]),
    diagram composition ([make_diagram]) and loop over the files
    ([gen_strokes]).

    Python values are modelled as follows.
    - [str] is [string], read as a sequence of ASCII characters;
    - [int] is [Z];
    - [float] is IEEE 754 binary64, as [spec_float] with precision 53 and
      maximal exponent 1024 (module [PyFloat]);
    - [None] or a value is [option];
    - an exception is a value of [exn], and a computation that may raise
      is a [result]. Only the class of an exception is modelled, not its
      message. *)

From Stdlib Require Import ZArith List String Ascii Bool Arith Lia.
From Stdlib Require Import Floats.SpecFloat.
From Stdlib Require Import Decimal DecimalString.
From Stdlib Require Import DecimalPos DecimalZ.
Import ListNotations.

Open Scope string_scope.
Open Scope Z_scope.

(** ** Exceptions *)

Inductive exn : Type :=
| ValueError
| IndexError
| KeyError
| OverflowError.

Inductive result (A : Type) : Type :=
| Ok (a : A)
| Raise (e : exn).

Arguments Ok {A} a.
Arguments Raise {A} e.

Definition bind {A B : Type} (m : result A) (k : A -> result B) : result B :=
  match m with
  | Ok a => k a
  | Raise e => Raise e
  end.

Notation "x <- m ;; k" := (bind m (fun x => k))
  (at level 61, m at next level, right associativity).
Notation "' p <- m ;; k" := (bind m (fun x => match x with p => k end))
  (at level 61, p pattern, m at next level, right associativity).

(** A list comprehension whose element expression may raise: the elements
    are evaluated left to right and the first exception is propagated. *)
Fixpoint mapM {A B : Type} (f : A -> result B) (l : list A) : result (list B) :=
  match l with
  | [] => Ok []
  | a :: l' => b <- f a ;; bs <- mapM f l' ;; Ok (b :: bs)
  end.

(** [for a in l: body], threading the variables the body assigns. *)
Fixpoint for_each {A S : Type} (l : list A) (body : A -> S -> result S) (s : S)
  : result S :=
  match l with
  | [] => Ok s
  | a :: l' => s' <- body a s ;; for_each l' body s'
  end.

(** [l[i]] for a non-negative index. *)
Definition index {A : Type} (l : list A) (i : nat) : result A :=
  match nth_error l i with
  | Some a => Ok a
  | None => Raise IndexError
  end.

(** ** Strings *)

Module PyStr.

Definition len (s : string) : Z := Z.of_nat (String.length s).

(** Python's normalisation of a slice bound against a length. *)
Definition norm_index (n i : Z) : Z :=
  if i <? 0 then Z.max (i + n) 0 else Z.min i n.

(** [s[start:stop]]; an omitted bound is [None]. *)
Definition slice (s : string) (start stop : option Z) : string :=
  let n := len s in
  let a := match start with None => 0 | Some i => norm_index n i end in
  let b := match stop with None => n | Some j => norm_index n j end in
  substring (Z.to_nat a) (Z.to_nat (b - a)) s.

(** [s.split(sep)] for a one-character separator. *)
Fixpoint split (sep : ascii) (s : string) : list string :=
  match s with
  | EmptyString => [EmptyString]
  | String c r =>
      if Ascii.eqb c sep then EmptyString :: split sep r
      else
        match split sep r with
        | h :: t => String c h :: t
        | [] => [String c EmptyString]
        end
  end.

(** [str(n)] for an int. *)
Definition str_of_int (n : Z) : string := NilZero.string_of_int (Z.to_int n).

(** The longest prefix of characters satisfying [p], and the rest. *)
Fixpoint span (p : ascii -> bool) (s : string) : string * string :=
  match s with
  | EmptyString => (EmptyString, EmptyString)
  | String c r =>
      if p c then let '(a, b) := span p r in (String c a, b)
      else (EmptyString, s)
  end.

Fixpoint forallb (p : ascii -> bool) (s : string) : bool :=
  match s with
  | EmptyString => true
  | String c r => p c && forallb p r
  end.

Definition in_range (lo hi : nat) (c : ascii) : bool :=
  let n := nat_of_ascii c in (lo <=? n)%nat && (n <=? hi)%nat.

Definition is_digit (c : ascii) : bool := in_range 48 57 c.
Definition is_upper (c : ascii) : bool := in_range 65 90 c.
Definition is_lower (c : ascii) : bool := in_range 97 122 c.

Definition to_lower (c : ascii) : ascii :=
  if is_upper c then ascii_of_nat (nat_of_ascii c + 32) else c.

Fixpoint lower (s : string) : string :=
  match s with
  | EmptyString => EmptyString
  | String c r => String (to_lower c) (lower r)
  end.

(** The whitespace [float] strips from the ends of an ASCII string: tab,
    line feed, vertical tab, form feed, carriage return and space. The
    separators of codes 28 to 31, which [str.isspace] accepts, are not
    stripped. *)
Definition is_space (c : ascii) : bool :=
  in_range 9 13 c || in_range 32 32 c.

Fixpoint lstrip (s : string) : string :=
  match s with
  | String c r => if is_space c then lstrip r else s
  | EmptyString => EmptyString
  end.

Fixpoint rstrip (s : string) : string :=
  match s with
  | EmptyString => EmptyString
  | String c r =>
      match rstrip r with
      | EmptyString => if is_space c then EmptyString else String c EmptyString
      | r' => String c r'
      end
  end.

End PyStr.

(** ** Floats *)

Module PyFloat.

Import PyStr.

Definition prec : Z := 53.
Definition emax : Z := 1024.
Definition float : Type := spec_float.

(** Conversion of an int operand in [float + int]; [None] is the
    OverflowError of an int too large for a float. *)
Definition of_int (n : Z) : option float :=
  match binary_normalize prec emax n 0 false with
  | S754_infinity _ => None
  | x => Some x
  end.

Definition add (x y : float) : float := SFadd prec emax x y.

(** The float nearest to [m * 10 ^ e] (ties to even), negated if [neg]. *)
Definition of_decimal (neg : bool) (m : N) (e : Z) : float :=
  match m with
  | N0 => S754_zero neg
  | Npos p =>
      if 0 <=? e
      then binary_normalize prec emax (cond_Zopp neg (Zpos p * 10 ^ e)) 0 neg
      else
        let '(mz, ez, lz) :=
          SFdiv_core_binary prec emax (Zpos p) 0 (10 ^ (- e)) 0 in
        binary_round_aux prec emax neg mz ez lz
  end.

Definition digit_val (c : ascii) : N := N_of_ascii c - 48.

Fixpoint digits_to_N (acc : N) (s : string) : N :=
  match s with
  | EmptyString => acc
  | String c r => digits_to_N (acc * 10 + digit_val c)%N r
  end.

(** Underscores are allowed between two digits only. [prev] is the
    character before [s]. *)
Fixpoint strip_underscores (prev : ascii) (s : string) : option string :=
  match s with
  | EmptyString => if Ascii.eqb prev "_" then None else Some EmptyString
  | String c r =>
      if Ascii.eqb c "_" then
        if is_digit prev then strip_underscores c r else None
      else if Ascii.eqb prev "_" && negb (is_digit c) then None
      else option_map (String c) (strip_underscores c r)
  end.

Definition split_sign (s : string) : bool * string :=
  match s with
  | String "-" r => (true, r)
  | String "+" r => (false, r)
  | _ => (false, s)
  end.

(** An optional exponent part: [""] is exponent 0, [e] or [E] must be
    followed by an optional sign and at least one digit. *)
Definition parse_exponent (s : string) : option Z :=
  match s with
  | EmptyString => Some 0
  | String c r =>
      if Ascii.eqb (to_lower c) "e" then
        let '(neg, r1) := split_sign r in
        match r1 with
        | EmptyString => None
        | _ =>
            if forallb is_digit r1
            then Some (cond_Zopp neg (Z.of_N (digits_to_N 0 r1)))
            else None
        end
      else None
  end.

(** A signed decimal number, [inf], [infinity] or [nan]. *)
Definition parse_number (s : string) : option float :=
  let '(neg, s1) := split_sign s in
  let w := lower s1 in
  if String.eqb w "inf" || String.eqb w "infinity" then Some (S754_infinity neg)
  else if String.eqb w "nan" then Some S754_nan
  else
    let '(ip, s2) := span is_digit s1 in
    let '(fp, s3) :=
      match s2 with
      | String "." r => span is_digit r
      | _ => (EmptyString, s2)
      end in
    match ip ++ fp with
    | EmptyString => None
    | ds =>
        match parse_exponent s3 with
        | Some e =>
            Some (of_decimal neg (digits_to_N 0 ds)
                    (e - Z.of_nat (String.length fp)))
        | None => None
        end
    end.

(** [float(s)]; [None] is the ValueError of a string that is no number. *)
Definition of_string (s : string) : option float :=
  match strip_underscores "000" s with
  | None => None
  | Some s1 =>
      match rstrip (lstrip s1) with
      | EmptyString => None
      | s2 => parse_number s2
      end
  end.

Definition sign_str (neg : bool) : string := if neg then "-" else "".

Definition str_of_nonneg (n : Z) : string :=
  NilZero.string_of_uint (N.to_uint (Z.to_N n)).

Definition digit_char (n : Z) : ascii := ascii_of_N (48 + Z.to_N n).

(** The [p] lowest decimal digits of [n], in front of [acc]. *)
Fixpoint fixed_digits (p : nat) (n : Z) (acc : string) : string :=
  match p with
  | O => acc
  | S p' => fixed_digits p' (n / 10) (String (digit_char (n mod 10)) acc)
  end.

Fixpoint zeros (n : nat) : string :=
  match n with
  | O => EmptyString
  | S n' => String "0" (zeros n')
  end.

(** [num / den] rounded to the nearest integer, ties to even. *)
Definition round_half_even (num den : Z) : Z :=
  let q := num / den in
  let r := num mod den in
  match 2 * r ?= den with
  | Lt => q
  | Gt => q + 1
  | Eq => if Z.even q then q else q + 1
  end.

(** [m * 2 ^ e] as a fraction. *)
Definition ratio (m : positive) (e : Z) : Z * Z :=
  if 0 <=? e then (Zpos m * 2 ^ e, 1) else (Zpos m, 2 ^ (- e)).

(** [format(x, '.pf')]: the exact value rounded to [p] decimals. *)
Definition format_f (p : nat) (x : float) : string :=
  match x with
  | S754_nan => "nan"
  | S754_infinity s => sign_str s ++ "inf"
  | S754_zero s =>
      sign_str s ++ "0" ++
      match p with
      | O => ""
      | _ => "." ++ zeros p
      end
  | S754_finite s m e =>
      let '(num, den) := ratio m e in
      let n := round_half_even (num * 10 ^ Z.of_nat p) den in
      sign_str s ++ str_of_nonneg (n / 10 ^ Z.of_nat p) ++
      match p with
      | O => ""
      | _ => "." ++ fixed_digits p n ""
      end
  end.

Definition eqb (x y : float) : bool :=
  match x, y with
  | S754_zero a, S754_zero b => Bool.eqb a b
  | S754_infinity a, S754_infinity b => Bool.eqb a b
  | S754_nan, S754_nan => true
  | S754_finite a m e, S754_finite b n f =>
      Bool.eqb a b && Pos.eqb m n && Z.eqb e f
  | _, _ => false
  end.

Fixpoint find_scale (fuel : nat) (num den : Z) (j : Z) : Z :=
  match fuel with
  | O => j
  | S fuel' =>
      if den <=? num * 10 ^ j then j else find_scale fuel' num den (j + 1)
  end.

(** The decimal exponent [k] of [num / den]: [10 ^ (k - 1) <= num / den <
    10 ^ k]. A positive binary64 is at least [2 ^ -1074], so 400 steps
    are enough. *)
Definition decpt_of (num den : Z) : Z :=
  if den <=? num
  then Z.of_nat (String.length (str_of_nonneg (num / den)))
  else 1 - find_scale 400 num den 1.

(** The [p]-digit decimal [c * 10 ^ (k - p)] nearest to [num / den] among
    those that [float] reads back as [x], if there is one. *)
Definition candidate (x : float) (num den k p : Z) : option Z :=
  let '(n, d) :=
    if 0 <=? p - k then (num * 10 ^ (p - k), den)
    else (num, den * 10 ^ (k - p)) in
  let lo := n / d in
  let r := n mod d in
  let ok c := eqb (of_decimal false (Z.to_N c) (k - p)) x in
  if r =? 0 then Some lo
  else
    match ok lo, ok (lo + 1) with
    | true, true => Some (round_half_even n d)
    | true, false => Some lo
    | false, true => Some (lo + 1)
    | false, false => None
    end.

(** The shortest decimal that reads back as [x]; 17 digits always do. *)
Fixpoint shortest (fuel : nat) (x : float) (num den k p : Z) : Z * Z :=
  match fuel with
  | O => (round_half_even (num * 10 ^ (17 - k)) den, 17)
  | S fuel' =>
      match candidate x num den k p with
      | Some c => (c, p)
      | None => shortest fuel' x num den k (p + 1)
      end
  end.

Definition repr_digits (m : positive) (e : Z) : string * Z :=
  let '(num, den) := ratio m e in
  let k := decpt_of num den in
  let '(c, p) := shortest 17 (S754_finite false m e) num den k 1 in
  if c =? 10 ^ p then ("1", k + 1) else (str_of_nonneg c, k).

Definition exp_str (e : Z) : string :=
  let a := str_of_nonneg (Z.abs e) in
  (if e <? 0 then "-" else "+") ++ (if Z.abs e <? 10 then "0" ++ a else a).

(** [repr(x)], which is also [str(x)] and ['{0}'.format(x)]. *)
Definition repr (x : float) : string :=
  match x with
  | S754_nan => "nan"
  | S754_infinity s => sign_str s ++ "inf"
  | S754_zero s => sign_str s ++ "0.0"
  | S754_finite s m e =>
      let '(ds, decpt) := repr_digits m e in
      let nd := Z.of_nat (String.length ds) in
      sign_str s ++
      if (decpt <=? -4) || (16 <? decpt) then
        match ds with
        | EmptyString => EmptyString
        | String c EmptyString => String c EmptyString
        | String c r => String c ("." ++ r)
        end ++ "e" ++ exp_str (decpt - 1)
      else if decpt <=? 0 then
        "0." ++ zeros (Z.to_nat (- decpt)) ++ ds
      else if nd <=? decpt then
        ds ++ zeros (Z.to_nat (decpt - nd)) ++ ".0"
      else
        substring 0 (Z.to_nat decpt) ds ++ "." ++
        substring (Z.to_nat decpt) (Z.to_nat (nd - decpt)) ds
  end.

Definition is_finite (x : float) : bool :=
  match x with
  | S754_zero _ | S754_finite _ _ _ => true
  | _ => false
  end.

End PyFloat.

(** [float(s)] and [x + n] for a float [x] and an int [n]. *)
Definition float_of_str (s : string) : result PyFloat.float :=
  match PyFloat.of_string s with
  | Some x => Ok x
  | None => Raise ValueError
  end.

Definition add_int (x : PyFloat.float) (n : Z) : result PyFloat.float :=
  match PyFloat.of_int n with
  | Some y => Ok (PyFloat.add x y)
  | None => Raise OverflowError
  end.

(** [str(x)] for a float or [None]. *)
Definition str_of_coord (x : option PyFloat.float) : string :=
  match x with
  | Some v => PyFloat.repr v
  | None => "None"
  end.

(** ** Configuration *)

Definition boxes_per_line : Z := 6.
Definition circle_radius : string := "3".
Definition circle_sw : string := "0".
Definition circle_fill : string := "red".
Definition kanjivg_width : Z := 109.
Definition kanjivg_height : Z := 109.

(** ** Regular expression matches

    [caps_re] matches one character of [A-Z] and then, greedily, any
    number of characters of [0-9.,-]; this is its group. The lookahead
    for a letter that follows is optional: it consumes nothing and never
    makes a match fail. *)

Record Match : Type := {
  m_start : Z;
  m_end : Z;
  m_group : string
}.

Definition is_payload (c : ascii) : bool :=
  PyStr.is_digit c || Ascii.eqb c "." || Ascii.eqb c "," || Ascii.eqb c "-".

(** [caps_re.finditer] on the text [s] that begins at offset [pos];
    [skip] is the number of characters of [s] still inside the previous
    match, where the scan does not look for a new one. *)
Fixpoint finditer_from (pos : Z) (skip : nat) (s : string) : list Match :=
  match s with
  | EmptyString => []
  | String c r =>
      match skip with
      | S k => finditer_from (pos + 1) k r
      | O =>
          if PyStr.is_upper c then
            let payload := fst (PyStr.span is_payload r) in
            {| m_start := pos;
               m_end := pos + 1 + PyStr.len payload;
               m_group := String c payload |}
            :: finditer_from (pos + 1) (String.length payload) r
          else finditer_from (pos + 1) O r
      end
  end.

Definition caps_finditer (d : string) : list Match := finditer_from 0 O d.

(** ** Elements *)

Definition attribs : Type := list (string * string).

Record Element : Type := {
  tag : string;
  attrib : attribs;
  text : option string
}.

Fixpoint lookup (k : string) (a : attribs) : option string :=
  match a with
  | [] => None
  | (k', v) :: a' => if String.eqb k k' then Some v else lookup k a'
  end.

(** [a[k] = v]: an attribute that is present keeps its place. *)
Fixpoint set_attr (k v : string) (a : attribs) : attribs :=
  match a with
  | [] => [(k, v)]
  | (k', v') :: a' =>
      if String.eqb k k' then (k, v) :: a' else (k', v') :: set_attr k v a'
  end.

(** [e.attrib[k]] *)
Definition attrib_get (e : Element) (k : string) : result string :=
  match lookup k (attrib e) with
  | Some v => Ok v
  | None => Raise KeyError
  end.

Definition circle (x y : option PyFloat.float) : Element :=
  {| tag := "circle";
     attrib := [("cx", str_of_coord x); ("cy", str_of_coord y);
                ("r", circle_radius); ("stroke-width", circle_sw);
                ("fill", circle_fill)];
     text := None |}.

(** ** shift_path *)

(** [[float(x) for x in payload.split(',')]] *)
Definition floats_of (payload : string) : result (list PyFloat.float) :=
  mapM float_of_str (PyStr.split "," payload).

Definition fmt2 : PyFloat.float -> string := PyFloat.format_f 2.
Definition fmt3 : PyFloat.float -> string := PyFloat.format_f 3.

(** The loop over the sextuples of a [C] run. [len(parts) % 6 == 0] has
    been checked, so taking six elements at a time visits the same
    elements as the indices [range(0, len(parts), 6)]. *)
Fixpoint shift_cubic (x_shift y_shift : Z) (parts : list PyFloat.float)
  (tmp_d : string) : result string :=
  match parts with
  | p0 :: p1 :: p2 :: p3 :: p4 :: p5 :: rest =>
      q0 <- add_int p0 x_shift ;;
      q1 <- add_int p1 y_shift ;;
      q2 <- add_int p2 x_shift ;;
      q3 <- add_int p3 y_shift ;;
      q4 <- add_int p4 x_shift ;;
      q5 <- add_int p5 y_shift ;;
      shift_cubic x_shift y_shift rest
        (tmp_d ++ fmt2 q0 ++ "," ++ fmt2 q1 ++ "," ++ fmt2 q2 ++ "," ++
         fmt2 q3 ++ "," ++ fmt2 q4 ++ "," ++ fmt2 q5)
  | _ => Ok tmp_d
  end.

(** The loop over the quadruples of an [S] run. *)
Fixpoint shift_smooth (x_shift y_shift : Z) (parts : list PyFloat.float)
  (tmp_d : string) : result string :=
  match parts with
  | p0 :: p1 :: p2 :: p3 :: rest =>
      q0 <- add_int p0 x_shift ;;
      q1 <- add_int p1 y_shift ;;
      q2 <- add_int p2 x_shift ;;
      q3 <- add_int p3 y_shift ;;
      shift_smooth x_shift y_shift rest
        (tmp_d ++ fmt2 q0 ++ "," ++ fmt2 q1 ++ "," ++ fmt2 q2 ++ "," ++
         fmt3 q3)
  | _ => Ok tmp_d
  end.

(** The variables the loop of [shift_path] assigns. *)
Record sp_state : Type := {
  sp_d : string;
  first_x : option PyFloat.float;
  first_y : option PyFloat.float;
  pos_shift : Z
}.

(** [d[0:start] + new + d[end:]] *)
Definition splice (d : string) (start end_ : Z) (new : string) : string :=
  PyStr.slice d (Some 0) (Some start) ++ new ++ PyStr.slice d (Some end_) None.

(** One iteration of the loop of [shift_path], for the match [m]. *)
Definition shift_run (x_shift y_shift orig_len : Z) (m : Match) (st : sp_state)
  : result sp_state :=
  let d := sp_d st in
  let start := m_start m + pos_shift st in
  let end_ := m_end m + pos_shift st in
  match m_group m with
  | EmptyString => Raise IndexError
  | String c payload =>
      if Ascii.eqb c "M" then
        parts <- floats_of payload ;;
        match parts with
        | [sx; sy] =>
            start_x <- add_int sx x_shift ;;
            start_y <- add_int sy y_shift ;;
            let d' :=
              splice d start end_
                ("M" ++ PyFloat.repr start_x ++ "," ++ PyFloat.repr start_y) in
            Ok {| sp_d := d';
                  first_x := match first_x st with
                             | None => Some start_x
                             | Some _ => first_x st
                             end;
                  first_y := match first_x st with
                             | None => Some start_y
                             | Some _ => first_y st
                             end;
                  pos_shift := PyStr.len d' - orig_len |}
        | _ => Raise ValueError
        end
      else if Ascii.eqb c "C" then
        parts <- floats_of payload ;;
        if negb (Z.of_nat (List.length parts) mod 6 =? 0) then Raise ValueError
        else
          tmp_d <- shift_cubic x_shift y_shift parts "C" ;;
          let d' := splice d start end_ tmp_d in
          Ok {| sp_d := d';
                first_x := first_x st;
                first_y := first_y st;
                pos_shift := PyStr.len d' - orig_len |}
      else if Ascii.eqb c "S" then
        parts <- floats_of payload ;;
        if negb (Z.of_nat (List.length parts) mod 4 =? 0) then Raise ValueError
        else
          tmp_d <- shift_smooth x_shift y_shift parts "S" ;;
          let d' := splice d start end_ tmp_d in
          Ok {| sp_d := d';
                first_x := first_x st;
                first_y := first_y st;
                pos_shift := PyStr.len d' - orig_len |}
      else Raise ValueError
  end.

Definition shift_path (d : string) (row col : Z)
  : result (string * option PyFloat.float * option PyFloat.float) :=
  let x_shift := col * kanjivg_width in
  let y_shift := row * kanjivg_height in
  let orig_len := PyStr.len d in
  st <- for_each (caps_finditer d) (shift_run x_shift y_shift orig_len)
          {| sp_d := d; first_x := None; first_y := None; pos_shift := 0 |} ;;
  Ok (sp_d st, first_x st, first_y st).

(** ** shift_transform *)

Definition shift_transform (mat : string) (row col : Z) : result string :=
  let parts := PyStr.split " " (PyStr.slice mat (Some 7) (Some (-1))) in
  p4 <- index parts 4 ;;
  x4 <- float_of_str p4 ;;
  e <- add_int x4 (col * kanjivg_width) ;;
  p5 <- index parts 5 ;;
  x5 <- float_of_str p5 ;;
  f <- add_int x5 (row * kanjivg_width) ;;
  Ok ("matrix(1 0 0 1 " ++ fmt2 e ++ " " ++ fmt2 f ++ ")").

(** ** make_diagram *)

(** What [make_diagram] reads of the document [kanji]: the attributes of
    the root and of [base = kanji[0][0]], the path elements under [base]
    and the text elements under [sn_base = kanji[1]], in document order. *)
Record Kanji : Type := {
  root_attrib : attribs;
  base_attrib : attribs;
  paths : list Element;
  numbers : list Element
}.

(** The document after [make_diagram]: the attributes of the root and the
    children of [base] and of [sn_base]. The children they had are removed
    before the frames are drawn. *)
Record Diagram : Type := {
  d_attrib : attribs;
  d_base : list Element;
  d_numbers : list Element
}.

(** The variables the loops of [make_diagram] assign, with the children
    appended to [base] and [sn_base] so far. *)
Record md_state : Type := {
  base : list Element;
  sn_base : list Element;
  cur_row : Z;
  cur_col : Z
}.

Definition path_id (id_base : string) (j : nat) (row col : Z) : string :=
  id_base ++ "-s" ++ PyStr.str_of_int (Z.of_nat j) ++
  "-" ++ PyStr.str_of_int row ++ "-" ++ PyStr.str_of_int col.

Definition path_element (id d : string) : Element :=
  {| tag := "path"; attrib := [("id", id); ("d", d)]; text := None |}.

Definition text_element (mat : string) (j : nat) : Element :=
  {| tag := "text";
     attrib := [("transform", mat)];
     text := Some (PyStr.str_of_int (Z.of_nat j)) |}.

(** The body of the inner loop, for the stroke [j]. *)
Definition draw_stroke (k : Kanji) (id_base : string) (j : nat) (st : md_state)
  : result md_state :=
  p <- index (paths k) j ;;
  d <- attrib_get p "d" ;;
  '(new_d, _, _) <- shift_path d (cur_row st) (cur_col st) ;;
  let path :=
    path_element (path_id id_base j (cur_row st) (cur_col st)) new_d in
  n <- index (numbers k) j ;;
  t <- attrib_get n "transform" ;;
  mat <- shift_transform t (cur_row st) (cur_col st) ;;
  Ok {| base := (base st ++ [path])%list;
        sn_base := (sn_base st ++ [text_element mat j])%list;
        cur_row := cur_row st;
        cur_col := cur_col st |}.

(** The body of the outer loop, for the frame [i]. After the inner loop
    [j] is [i]. *)
Definition draw_frame (k : Kanji) (id_base : string) (i : nat) (st : md_state)
  : result md_state :=
  st1 <- for_each (seq 0 (i + 1)) (draw_stroke k id_base) st ;;
  p <- index (paths k) i ;;
  d <- attrib_get p "d" ;;
  '(_, x, y) <- shift_path d (cur_row st1) (cur_col st1) ;;
  let base' := (base st1 ++ [circle x y])%list in
  let col' := cur_col st1 + 1 in
  if boxes_per_line <=? col' then
    Ok {| base := base'; sn_base := sn_base st1;
          cur_row := cur_row st1 + 1; cur_col := 0 |}
  else
    Ok {| base := base'; sn_base := sn_base st1;
          cur_row := cur_row st1; cur_col := col' |}.

Definition make_diagram (kanji : Kanji) : result Diagram :=
  id_base <- match lookup "id" (base_attrib kanji) with
             | Some v => Ok v
             | None => Raise KeyError
             end ;;
  st <- for_each (seq 0 (List.length (paths kanji))) (draw_frame kanji id_base)
          {| base := []; sn_base := []; cur_row := 0; cur_col := 0 |} ;;
  let vheight := kanjivg_height * (cur_row st + 1) in
  let '(a1, vwidth) :=
    if cur_row st =? 0 then
      (set_attr "width"
         (PyStr.str_of_int (kanjivg_width * (cur_col st + 1)))
         (root_attrib kanji),
       kanjivg_width * (cur_col st + 1))
    else
      (set_attr "width"
         (PyStr.str_of_int (kanjivg_width * boxes_per_line))
         (root_attrib kanji),
       kanjivg_width * boxes_per_line) in
  let a2 :=
    set_attr "height"
      (PyStr.str_of_int (kanjivg_height * (cur_row st + 1))) a1 in
  let a3 :=
    set_attr "viewBox"
      ("0 0 " ++ PyStr.str_of_int vwidth ++ " " ++ PyStr.str_of_int vheight)
      a2 in
  Ok {| d_attrib := a3; d_base := base st; d_numbers := sn_base st |}.

(** ** gen_strokes

    What the loop of [gen_strokes] does with one parsed file: [except
    ValueError] skips the file, any other exception leaves the loop. The
    licence comment and the file written are not modelled. *)

Inductive outcome : Type :=
| Written (doc : Diagram)
| Skipped
| Uncaught (e : exn).

Definition caught (e : exn) : bool :=
  match e with
  | ValueError => true
  | _ => false
  end.

Definition gen_strokes_file (kanji : Kanji) : outcome :=
  match make_diagram kanji with
  | Ok doc => Written doc
  | Raise e => if caught e then Skipped else Uncaught e
  end.

(** ** The loop of gen_strokes

    The directory [kanjivg] is taken to exist; its listing is a list of
    entries, each the name [os.listdir] gives with the root [etree.parse]
    reads from that file (looked at only when the name ends in [.svg]).
    Parsing and writing are taken to succeed. What the loop does to the
    outside is recorded as a list of events, oldest first. *)

Definition kanjivg : string := "kanjivg/kanji".
Definition output_dir : string := "strokes".

Inductive event : Type :=
| Printed (line : string)
| PrintedError (e : exn)
| Stored (path : string) (doc : Diagram).

(** [b.startswith('/')]. *)
Definition is_absolute (b : string) : bool :=
  match b with
  | String c _ => Ascii.eqb c "/"
  | EmptyString => false
  end.

(** [os.path.join(a, b)] of posixpath. *)
Definition path_join (a b : string) : string :=
  if is_absolute b then b
  else if String.eqb a "" || String.eqb (PyStr.slice a (Some (-1)) None) "/"
       then a ++ b
       else a ++ "/" ++ b.

(** [f[-4:] == '.svg']. *)
Definition is_svg (f : string) : bool :=
  String.eqb (PyStr.slice f (Some (-4)) None) ".svg".

(** [f[:-4] + '-strokes.svg']. *)
Definition strokes_name (f : string) : string :=
  PyStr.slice f None (Some (-4)) ++ "-strokes.svg".

Record gs_state : Type := {
  cur : Z;
  events : list event
}.

(** One iteration of the loop over the listing; the second component is
    the exception that leaves the loop, if any. The document stored has
    the licence comment inserted as the first child of its root. *)
Definition gen_strokes_entry (st : gs_state) (entry : string * Kanji)
  : gs_state * option exn :=
  let (f, kanji) := entry in
  let cur := cur st + 1 in
  let events :=
    if cur mod 200 =? 0
    then (events st ++ [Printed ("Processed " ++ PyStr.str_of_int cur ++ "...")])%list
    else events st in
  if is_svg f then
    match gen_strokes_file kanji with
    | Written doc =>
        ({| cur := cur;
            events :=
              (events ++ [Stored (path_join output_dir (strokes_name f)) doc])%list |},
         None)
    | Skipped =>
        ({| cur := cur;
            events :=
              (events ++ [Printed ("Error in parsing " ++ f);
                          PrintedError ValueError])%list |},
         None)
    | Uncaught e => ({| cur := cur; events := events |}, Some e)
    end
  else ({| cur := cur; events := events |}, None).

Fixpoint gen_strokes_loop (entries : list (string * Kanji)) (st : gs_state)
  : gs_state * option exn :=
  match entries with
  | [] => (st, None)
  | entry :: rest =>
      match gen_strokes_entry st entry with
      | (st', None) => gen_strokes_loop rest st'
      | (st', Some e) => (st', Some e)
      end
  end.

Definition gen_strokes (entries : list (string * Kanji))
  : list event * option exn :=
  match gen_strokes_loop entries {| cur := 0; events := [] |} with
  | (st, None) =>
      ((events st
        ++ [Printed ("Generated " ++ PyStr.str_of_int (cur st)
                     ++ " stroke documents.")])%list,
       None)
  | (st, Some e) => (events st, Some e)
  end.

(** * Vocabulary of the properties *)

(** [float(t)] returns. *)
Definition numeric (t : string) : bool :=
  match PyFloat.of_string t with
  | Some _ => true
  | None => false
  end.

(** The number of numeric tokens of a payload. *)
Definition numeric_count (sep : ascii) (payload : string) : nat :=
  List.length (filter numeric (PyStr.split sep payload)).

(** An int that [float + int] converts to a float. *)
Definition fits_float (n : Z) : Prop := PyFloat.of_int n <> None.

(** The offsets of the cell at [row], [col] fit a float. *)
Definition offsets_fit (row col : Z) : Prop :=
  fits_float (col * kanjivg_width) /\ fits_float (row * kanjivg_height).

(** The command runs of a path: the groups [caps_re] matches. *)
Definition runs (d : string) : list string := map m_group (caps_finditer d).

(** The character [c] occurs in [s]. *)
Definition occurs (c : ascii) (s : string) : Prop :=
  In c (list_ascii_of_string s).

(** A well formed run: M with two numbers, C with a multiple of six
    numbers, S with a multiple of four; a payload always has one token
    at least. *)
Definition run_ok (s : string) : bool :=
  match s with
  | EmptyString => false
  | String c payload =>
      let ts := PyStr.split "," payload in
      List.forallb numeric ts &&
      (if Ascii.eqb c "M" then (List.length ts =? 2)%nat
       else if Ascii.eqb c "C" then (Z.of_nat (List.length ts) mod 6 =? 0)
       else if Ascii.eqb c "S" then (Z.of_nat (List.length ts) mod 4 =? 0)
       else false)
  end.

(** An M run. *)
Definition is_move (s : string) : bool :=
  match s with
  | String c _ => Ascii.eqb c "M"
  | EmptyString => false
  end.

(** [n] is [k], [2 * k], [3 * k], ... *)
Definition positive_multiple (k n : nat) : Prop :=
  (0 < n)%nat /\ (n mod k = 0)%nat.

(** The tokens [shift_transform] splits a transform into. *)
Definition transform_tokens (mat : string) : list string :=
  PyStr.split " " (PyStr.slice mat (Some 7) (Some (-1))).

(** The token [i] is present and numeric. *)
Definition token_numeric (tokens : list string) (i : nat) : bool :=
  match nth_error tokens i with
  | Some t => numeric t
  | None => false
  end.

(** Fewer than six tokens, or a fifth or sixth token that is no number. *)
Definition malformed_tokens (tokens : list string) : bool :=
  (List.length tokens <? 6)%nat ||
  negb (token_numeric tokens 4) || negb (token_numeric tokens 5).

(** The first token that [shift_transform] cannot use is present. *)
Definition unparsable (tokens : list string) : bool :=
  match nth_error tokens 4 with
  | None => false
  | Some t4 =>
      if numeric t4 then
        match nth_error tokens 5 with
        | None => false
        | Some t5 => negb (numeric t5)
        end
      else true
  end.

(** A token: a text without space. *)
Definition no_space (s : string) : bool :=
  PyStr.forallb (fun c => negb (Ascii.eqb c " ")) s.

(** A sign, digits, a point and [p] digits. *)
Definition decimals (p : nat) (s : string) : Prop :=
  exists sign ip fp,
    s = sign ++ ip ++ "." ++ fp /\
    (sign = "" \/ sign = "-") /\
    ip <> "" /\
    PyStr.forallb PyStr.is_digit ip = true /\
    PyStr.forallb PyStr.is_digit fp = true /\
    String.length fp = p.

(** The cell of the frame [i] in the grid. *)
Definition frame_row (i : nat) : Z := Z.of_nat i / boxes_per_line.
Definition frame_col (i : nat) : Z := Z.of_nat i mod boxes_per_line.

(** The path element drawn for the stroke [j] in the cell at [row],
    [col]. *)
Definition is_stroke_copy (k : Kanji) (id_base : string) (row col : Z)
  (j : nat) (e : Element) : Prop :=
  exists p d new_d x y,
    nth_error (paths k) j = Some p /\
    attrib_get p "d" = Ok d /\
    shift_path d row col = Ok (new_d, x, y) /\
    e = path_element (path_id id_base j row col) new_d.

(** The text element drawn for the number of the stroke [j]. *)
Definition is_label (k : Kanji) (row col : Z) (j : nat) (e : Element) : Prop :=
  exists n t mat,
    nth_error (numbers k) j = Some n /\
    attrib_get n "transform" = Ok t /\
    shift_transform t row col = Ok mat /\
    e = text_element mat j.

(** The circle at the start point of the stroke [i]. *)
Definition is_marker (k : Kanji) (row col : Z) (i : nat) (e : Element) : Prop :=
  exists p d new_d x y,
    nth_error (paths k) i = Some p /\
    attrib_get p "d" = Ok d /\
    shift_path d row col = Ok (new_d, x, y) /\
    e = circle x y.

(** The children of [base] for the frame [i] drawn at [row], [col]: the
    strokes 0 to [i], then the marker of the stroke [i]. *)
Definition is_frame_at (k : Kanji) (id_base : string) (row col : Z) (i : nat)
  (els : list Element) : Prop :=
  exists copies marker,
    els = (copies ++ [marker])%list /\
    Forall2 (is_stroke_copy k id_base row col) (seq 0 (i + 1)) copies /\
    is_marker k row col i marker.

(** The frame [i] in its cell of the grid. *)
Definition is_frame (k : Kanji) (id_base : string) (i : nat)
  (els : list Element) : Prop :=
  is_frame_at k id_base (frame_row i) (frame_col i) i els.

(** The children of [sn_base] for the frame [i]. *)
Definition is_frame_labels (k : Kanji) (i : nat) (els : list Element) : Prop :=
  Forall2 (is_label k (frame_row i) (frame_col i)) (seq 0 (i + 1)) els.

(** The number of elements with the tag [t]. *)
Definition count_tag (t : string) (els : list Element) : nat :=
  List.length (filter (fun e => String.eqb (tag e) t) els).



(** The width and height [make_diagram] sets for [n] strokes. *)
Definition canvas_width (n : nat) : Z :=
  if frame_row n =? 0 then kanjivg_width * (frame_col n + 1)
  else kanjivg_width * boxes_per_line.

Definition canvas_height (n : nat) : Z := kanjivg_height * (frame_row n + 1).

(** The index, among the children of [base], of the marker of frame [i]. *)
Definition marker_index (i : nat) : nat := (i * (i + 3) / 2 + i + 1)%nat.

(** The state after appending [es] to [base] and [ls] to [sn_base]. *)
Definition drawn (st : md_state) (es ls : list Element) : md_state :=
  {| base := (base st ++ es)%list;
     sn_base := (sn_base st ++ ls)%list;
     cur_row := cur_row st;
     cur_col := cur_col st |}.

(** The cell after the one at [row], [col]. *)
Definition next_row (row col : Z) : Z :=
  if boxes_per_line <=? col + 1 then row + 1 else row.

Definition next_col (col : Z) : Z :=
  if boxes_per_line <=? col + 1 then 0 else col + 1.

(** The attributes of the root after [make_diagram], for [n] strokes. *)
Definition canvas_attribs (n : nat) (a : attribs) : attribs :=
  set_attr "viewBox"
    ("0 0 " ++ PyStr.str_of_int (canvas_width n) ++ " " ++
     PyStr.str_of_int (canvas_height n))
    (set_attr "height" (PyStr.str_of_int (canvas_height n))
       (set_attr "width" (PyStr.str_of_int (canvas_width n)) a)).

(** Sample glyphs, in the format of KanjiVG. *)
Definition kvg_path (id d : string) : Element :=
  {| tag := "path"; attrib := [("id", id); ("d", d)]; text := None |}.

Definition kvg_text (mat t : string) : Element :=
  {| tag := "text"; attrib := [("transform", mat)]; text := Some t |}.

Definition kvg_root : attribs :=
  [("width", "109"); ("height", "109"); ("viewBox", "0 0 109 109")].

Definition three_strokes : Kanji :=
  {| root_attrib := kvg_root;
     base_attrib := [("id", "kvg:04e09")];
     paths :=
       [kvg_path "kvg:04e09-s1" "M31.5,30.25c1.59,0.54,4.5,0.75,6.08,0.54";
        kvg_path "kvg:04e09-s2" "M35.25,55.5C36.5,56,38.75,56.25,40.5,56";
        kvg_path "kvg:04e09-s3" "M15.75,87.25c2.5,0.75,5.25,0.5,7.5,0.25"];
     numbers :=
       [kvg_text "matrix(1 0 0 1 23.50 30.50)" "1";
        kvg_text "matrix(1 0 0 1 27.50 55.50)" "2";
        kvg_text "matrix(1 0 0 1 7.25 87.50)" "3"] |}.

Definition eight_strokes : Kanji :=
  {| root_attrib := kvg_root;
     base_attrib := [("id", "kvg:056fd")];
     paths :=
       [kvg_path "kvg:056fd-s1" "M20,20c0.5,2,1,4,1,6";
        kvg_path "kvg:056fd-s2" "M22,22C30,21,60,18,80,17";
        kvg_path "kvg:056fd-s3" "M35,36c2,0.5,4,0.5,6,0";
        kvg_path "kvg:056fd-s4" "M54,37c0.5,2,0.5,20,0.5,40";
        kvg_path "kvg:056fd-s5" "M38,54S50,53,70,52.5";
        kvg_path "kvg:056fd-s6" "M33,77c2,0.5,5,0.5,8,0";
        kvg_path "kvg:056fd-s7" "M64,61c2,1,5,4,6,6";
        kvg_path "kvg:056fd-s8" "M21,92C40,91,75,90,88,90"];
     numbers :=
       [kvg_text "matrix(1 0 0 1 12.5 30.5)" "1";
        kvg_text "matrix(1 0 0 1 24.5 16.5)" "2";
        kvg_text "matrix(1 0 0 1 28.5 35.5)" "3";
        kvg_text "matrix(1 0 0 1 46.5 45.5)" "4";
        kvg_text "matrix(1 0 0 1 31.5 54.5)" "5";
        kvg_text "matrix(1 0 0 1 26.5 77.5)" "6";
        kvg_text "matrix(1 0 0 1 70.5 60.5)" "7";
        kvg_text "matrix(1 0 0 1 13.5 92.5)" "8"] |}.

(** The diagram of a glyph that [make_diagram] accepts. *)
Definition diagram_of (k : Kanji) : Diagram :=
  match make_diagram k with
  | Ok out => out
  | Raise _ => {| d_attrib := []; d_base := []; d_numbers := [] |}
  end.

(** A glyph whose label holds five numbers. *)
Definition short_label_glyph : Kanji :=
  {| root_attrib := kvg_root;
     base_attrib := [("id", "kvg:04e00")];
     paths := [kvg_path "kvg:04e00-s1" "M11,54.25c3.19,0.62,6.25,0.75,9.73,0.5"];
     numbers := [kvg_text "matrix(1 0 0 1 5)" "1"] |}.

(** A glyph whose path holds an unsupported command. *)
Definition bad_path_glyph : Kanji :=
  {| root_attrib := kvg_root;
     base_attrib := [("id", "kvg:04e00")];
     paths := [kvg_path "kvg:04e00-s1" "M11,54.25L20,54Z"];
     numbers := [kvg_text "matrix(1 0 0 1 4.25 54.13)" "1"] |}.

(** A glyph whose second stroke has no M run. *)
Definition no_move_glyph : Kanji :=
  {| root_attrib := kvg_root;
     base_attrib := [("id", "kvg:04e8c")];
     paths :=
       [kvg_path "kvg:04e8c-s1" "M31.5,30.25c1.59,0.54,4.5,0.75,6.08,0.54";
        kvg_path "kvg:04e8c-s2" "C36.5,56,38.75,56.25,40.5,56S50,57,60,58"];
     numbers :=
       [kvg_text "matrix(1 0 0 1 23.50 30.50)" "1";
        kvg_text "matrix(1 0 0 1 27.50 55.50)" "2"] |}.

(** ** One pass over a path *)

(** The text [shift_path] writes in place of the run [s]. *)
Definition run_text (x_shift y_shift : Z) (s : string) : result string :=
  match s with
  | EmptyString => Raise IndexError
  | String c payload =>
      if Ascii.eqb c "M" then
        parts <- floats_of payload ;;
        match parts with
        | [sx; sy] =>
            start_x <- add_int sx x_shift ;;
            start_y <- add_int sy y_shift ;;
            Ok ("M" ++ PyFloat.repr start_x ++ "," ++ PyFloat.repr start_y)
        | _ => Raise ValueError
        end
      else if Ascii.eqb c "C" then
        parts <- floats_of payload ;;
        if negb (Z.of_nat (List.length parts) mod 6 =? 0) then Raise ValueError
        else shift_cubic x_shift y_shift parts "C"
      else if Ascii.eqb c "S" then
        parts <- floats_of payload ;;
        if negb (Z.of_nat (List.length parts) mod 4 =? 0) then Raise ValueError
        else shift_smooth x_shift y_shift parts "S"
      else Raise ValueError
  end.

(** The path rewritten in one pass from left to right, with no position
    to keep: a run is replaced by its text, any other character is
    copied. [skip] characters of [s] are inside the run before. *)
Fixpoint rewrite_from (x_shift y_shift : Z) (skip : nat) (s : string)
  : result string :=
  match s with
  | EmptyString => Ok EmptyString
  | String c r =>
      match skip with
      | S k => rewrite_from x_shift y_shift k r
      | O =>
          if PyStr.is_upper c then
            let payload := fst (PyStr.span is_payload r) in
            t <- run_text x_shift y_shift (String c payload) ;;
            rest <- rewrite_from x_shift y_shift (String.length payload) r ;;
            Ok (t ++ rest)
          else
            rest <- rewrite_from x_shift y_shift O r ;;
            Ok (String c rest)
      end
  end.

(** The pass over the path [d] for the cell of [row] and [col]. *)
Definition rewrite_path (d : string) (row col : Z) : result string :=
  rewrite_from (col * kanjivg_width) (row * kanjivg_height) O d.

(** [s[n:]]. *)
Fixpoint string_drop (n : nat) (s : string) : string :=
  match n, s with
  | O, _ => s
  | S k, String _ r => string_drop k r
  | S _, EmptyString => EmptyString
  end.

(** ** Numbers as they are written *)

(** A character of a plain number: neither a space nor an underscore. *)
Definition plain_char (c : ascii) : bool :=
  negb (PyStr.is_space c) && negb (Ascii.eqb c "_").

(** ** Identifiers *)

(** The [id] attributes of the path elements among [els]. *)
Definition path_ids (els : list Element) : list string :=
  flat_map
    (fun e =>
       if String.eqb (tag e) "path" then
         match lookup "id" (attrib e) with
         | Some i => [i]
         | None => []
         end
       else [])
    els.

(** ** Events of gen_strokes *)

(** The files an event list stores, with their documents. *)
Definition stored (evs : list event) : list (string * Diagram) :=
  flat_map
    (fun ev => match ev with Stored p doc => [(p, doc)] | _ => [] end) evs.

(** The file a directory entry gives rise to, if any. *)
Definition written (entry : string * Kanji) : list (string * Diagram) :=
  if is_svg (fst entry) then
    match make_diagram (snd entry) with
    | Ok doc => [(path_join output_dir (strokes_name (fst entry)), doc)]
    | Raise _ => []
    end
  else [].

(** The only exception [make_diagram] may raise on the entry, if its name
    ends in [.svg], is a [ValueError]. *)
Definition passes (entry : string * Kanji) : Prop :=
  is_svg (fst entry) = true ->
  forall e, make_diagram (snd entry) = Raise e -> e = ValueError.

(** [s.startswith(p)]. *)
Fixpoint starts_with (p s : string) : bool :=
  match p, s with
  | EmptyString, _ => true
  | String a p', String b s' => Ascii.eqb a b && starts_with p' s'
  | String _ _, EmptyString => false
  end.

(** A progress line. *)
Definition is_progress (ev : event) : bool :=
  match ev with
  | Printed line => starts_with "Processed " line
  | _ => false
  end.



(** ** Further samples *)

(** A glyph whose root has an attribute besides those of the canvas. *)
Definition versioned_glyph : Kanji :=
  {| root_attrib := ("version", "1.1") :: kvg_root;
     base_attrib := [("id", "kvg:04e00")];
     paths := [kvg_path "kvg:04e00-s1" "M11,54.25c3.19,0.62,6.25,0.75,9.73,0.5"];
     numbers := [kvg_text "matrix(1 0 0 1 4.25 54.13)" "1"] |}.

(** A listing with a file that is not a drawing, a glyph that is skipped
    and a glyph that is drawn. *)
Definition sample_listing : list (string * Kanji) :=
  [("README", bad_path_glyph);
   ("04e00.svg", bad_path_glyph);
   ("04e09.svg", three_strokes)].

(** * Properties *)

(** ** Exceptions and parsing *)

Lemma bind_ok {A B : Type} (m : result A) (k : A -> result B) (b : B) :
  bind m k = Ok b -> exists a, m = Ok a /\ k a = Ok b.
Proof. destruct m as [a|e]; simpl; intros H; [eauto | discriminate]. Qed.

Lemma bind_raise {A B : Type} (m : result A) (k : A -> result B) (e : exn) :
  bind m k = Raise e -> m = Raise e \/ exists a, m = Ok a /\ k a = Raise e.
Proof.
  destruct m as [a|e']; simpl; intros H; [right; eauto | left; congruence].
Qed.

(** A loop one of whose iterations raises [e] in every state, and whose
    iterations raise nothing else, raises [e]. *)
Lemma for_each_raises {A S : Type} (l : list A) (body : A -> S -> result S)
  (e : exn) (a : A) :
  In a l ->
  (forall s, body a s = Raise e) ->
  (forall b s e', In b l -> body b s = Raise e' -> e' = e) ->
  forall s, for_each l body s = Raise e.
Proof.
  induction l as [|b l IH]; simpl; intros Hin Ha Hall s; [contradiction|].
  destruct (body b s) as [s'|e'] eqn:Hb; simpl.
  - destruct Hin as [->|Hin]; [rewrite Ha in Hb; discriminate|].
    apply IH; [exact Hin | exact Ha |].
    intros b' s0 e' Hb' He'. eapply Hall; [right; exact Hb' | exact He'].
  - f_equal. eapply Hall; [left; reflexivity | exact Hb].
Qed.

Lemma mapM_ok_length {A B : Type} (f : A -> result B) (l : list A) (bs : list B) :
  mapM f l = Ok bs -> List.length bs = List.length l.
Proof.
  revert bs; induction l as [|a l IH]; simpl; intros bs H.
  - injection H as <-. reflexivity.
  - apply bind_ok in H as (b & _ & H). apply bind_ok in H as (bs' & Hbs & H).
    injection H as <-. simpl. f_equal. auto.
Qed.

Lemma float_of_str_raise (s : string) (e : exn) :
  float_of_str s = Raise e -> e = ValueError.
Proof. unfold float_of_str. destruct (PyFloat.of_string s); congruence. Qed.

Lemma float_of_str_ok (s : string) (x : PyFloat.float) :
  float_of_str s = Ok x <-> PyFloat.of_string s = Some x.
Proof. unfold float_of_str. destruct (PyFloat.of_string s); split; congruence. Qed.

Lemma float_of_str_numeric (s : string) :
  numeric s = true <-> exists x, float_of_str s = Ok x.
Proof.
  unfold numeric, float_of_str. destruct (PyFloat.of_string s); split;
    try congruence; eauto. intros [x H]; discriminate.
Qed.

Lemma floats_of_raise (p : string) (e : exn) :
  floats_of p = Raise e -> e = ValueError.
Proof.
  unfold floats_of. induction (PyStr.split "," p) as [|t ts IH]; simpl; [discriminate|].
  intros H. apply bind_raise in H as [H|(x & _ & H)].
  - eapply float_of_str_raise; eauto.
  - apply bind_raise in H as [H|(xs & _ & H)]; [auto | discriminate].
Qed.

Lemma mapM_float_ok_iff (ts : list string) :
  (exists xs, mapM float_of_str ts = Ok xs) <-> List.forallb numeric ts = true.
Proof.
  induction ts as [|t ts IH]; simpl.
  - split; eauto.
  - rewrite andb_true_iff, float_of_str_numeric, <- IH. split.
    + intros [xs H]. apply bind_ok in H as (x & Hx & H).
      apply bind_ok in H as (xs' & Hxs & _). eauto.
    + intros [[x Hx] [xs Hxs]]. rewrite Hx, Hxs. simpl. eauto.
Qed.

Lemma floats_of_ok_iff (p : string) :
  (exists xs, floats_of p = Ok xs) <-> List.forallb numeric (PyStr.split "," p) = true.
Proof. apply mapM_float_ok_iff. Qed.

Lemma floats_of_length (p : string) (xs : list PyFloat.float) :
  floats_of p = Ok xs -> List.length xs = List.length (PyStr.split "," p).
Proof. apply mapM_ok_length. Qed.

Lemma split_nonempty (sep : ascii) (s : string) : PyStr.split sep s <> [].
Proof.
  destruct s as [|c r]; simpl; [discriminate|].
  destruct (Ascii.eqb c sep); [discriminate|].
  destruct (PyStr.split sep r); discriminate.
Qed.

Lemma filter_all {A : Type} (f : A -> bool) (l : list A) :
  List.forallb f l = true -> filter f l = l.
Proof.
  induction l as [|a l IH]; simpl; [reflexivity|].
  rewrite andb_true_iff. intros [-> H]. f_equal; auto.
Qed.

Lemma numeric_count_ok (p : string) (xs : list PyFloat.float) :
  floats_of p = Ok xs ->
  numeric_count "," p = List.length xs /\ (0 < List.length xs)%nat.
Proof.
  intros H. pose proof (floats_of_length _ _ H) as Hl.
  assert (Hall : List.forallb numeric (PyStr.split "," p) = true)
    by (apply floats_of_ok_iff; eauto).
  unfold numeric_count. rewrite (filter_all _ _ Hall), Hl. split; [reflexivity|].
  pose proof (split_nonempty "," p). destruct (PyStr.split "," p); simpl; [congruence | lia].
Qed.

Lemma add_int_raise (x : PyFloat.float) (n : Z) (e : exn) :
  fits_float n -> add_int x n = Raise e -> False.
Proof. unfold fits_float, add_int. destruct (PyFloat.of_int n); congruence. Qed.

Lemma add_int_ok (x : PyFloat.float) (n : Z) :
  fits_float n -> exists c, PyFloat.of_int n = Some c /\ add_int x n = Ok (PyFloat.add x c).
Proof.
  unfold fits_float, add_int. destruct (PyFloat.of_int n) as [c|]; [eauto | congruence].
Qed.

Lemma shift_cubic_ok (xs ys : Z) (parts : list PyFloat.float) :
  fits_float xs -> fits_float ys ->
  forall n tmp, (List.length parts <= n)%nat ->
  exists r, shift_cubic xs ys parts tmp = Ok r.
Proof.
  intros Hx Hy n. revert parts.
  induction n as [|n IH]; intros parts tmp Hn.
  - destruct parts; simpl in *; [eauto | lia].
  - destruct parts as [|p0 [|p1 [|p2 [|p3 [|p4 [|p5 rest]]]]]]; simpl; eauto.
    destruct (add_int_ok p0 xs Hx) as (c & Hc & ->).
    destruct (add_int_ok p1 ys Hy) as (c' & Hc' & ->).
    simpl.
    destruct (add_int_ok p2 xs Hx) as (? & ? & ->).
    destruct (add_int_ok p3 ys Hy) as (? & ? & ->).
    destruct (add_int_ok p4 xs Hx) as (? & ? & ->).
    destruct (add_int_ok p5 ys Hy) as (? & ? & ->).
    simpl. apply IH. simpl in Hn. lia.
Qed.

Lemma shift_smooth_ok (xs ys : Z) (parts : list PyFloat.float) :
  fits_float xs -> fits_float ys ->
  forall n tmp, (List.length parts <= n)%nat ->
  exists r, shift_smooth xs ys parts tmp = Ok r.
Proof.
  intros Hx Hy n. revert parts.
  induction n as [|n IH]; intros parts tmp Hn.
  - destruct parts; simpl in *; [eauto | lia].
  - destruct parts as [|p0 [|p1 [|p2 [|p3 rest]]]]; simpl; eauto.
    destruct (add_int_ok p0 xs Hx) as (? & ? & ->).
    destruct (add_int_ok p1 ys Hy) as (? & ? & ->).
    simpl.
    destruct (add_int_ok p2 xs Hx) as (? & ? & ->).
    destruct (add_int_ok p3 ys Hy) as (? & ? & ->).
    simpl. apply IH. simpl in Hn. lia.
Qed.

(** ** Loops *)

Lemma for_each_ok {A S : Type} (l : list A) (body : A -> S -> result S) :
  (forall a s, In a l -> exists s', body a s = Ok s') ->
  forall s, exists s', for_each l body s = Ok s'.
Proof.
  induction l as [|a l IH]; simpl; intros H s; [eauto|].
  destruct (H a s (or_introl eq_refl)) as [s1 ->]. simpl.
  apply IH. intros b s0 Hb. apply H. right; exact Hb.
Qed.

Lemma for_each_invariant {A S : Type} (I : S -> Prop) (l : list A)
  (body : A -> S -> result S) :
  (forall a s s', In a l -> I s -> body a s = Ok s' -> I s') ->
  forall s s', I s -> for_each l body s = Ok s' -> I s'.
Proof.
  induction l as [|a l IH]; simpl; intros H s s' Hs Hrun.
  - injection Hrun as <-. exact Hs.
  - apply bind_ok in Hrun as (s1 & H1 & Hrun).
    eapply IH; [| | exact Hrun].
    + intros b t t' Hb. apply H. right; exact Hb.
    + eapply H; [left; reflexivity | exact Hs | exact H1].
Qed.

Lemma for_each_raise_class {A S : Type} (P : exn -> Prop) (l : list A)
  (body : A -> S -> result S) :
  (forall a s e, In a l -> body a s = Raise e -> P e) ->
  forall s e, for_each l body s = Raise e -> P e.
Proof.
  induction l as [|a l IH]; simpl; intros H s e Hrun; [discriminate|].
  apply bind_raise in Hrun as [Hrun|(s1 & _ & Hrun)].
  - eapply H; [left; reflexivity | exact Hrun].
  - eapply IH; [|exact Hrun]. intros b t e' Hb. apply H. right; exact Hb.
Qed.

Lemma for_each_ok_all {A S : Type} (l : list A) (body : A -> S -> result S)
  (P : A -> Prop) :
  (forall a s s', body a s = Ok s' -> P a) ->
  forall s s', for_each l body s = Ok s' -> Forall P l.
Proof.
  intros H. induction l as [|a l IH]; simpl; intros s s' Hrun; [constructor|].
  apply bind_ok in Hrun as (s1 & H1 & Hrun).
  constructor; [eapply H; exact H1 | eapply IH; exact Hrun].
Qed.

(** ** The matches of [caps_re] *)

Lemma upper_not_payload (c : ascii) :
  PyStr.is_upper c = true -> is_payload c = false.
Proof.
  destruct c as [[] [] [] [] [] [] [] []]; vm_compute; congruence.
Qed.

Lemma finditer_group_nonempty (s : string) :
  forall pos skip m, In m (finditer_from pos skip s) -> m_group m <> EmptyString.
Proof.
  induction s as [|c r IH]; simpl; intros pos skip m Hin; [contradiction|].
  destruct skip as [|k]; [|eapply IH; exact Hin].
  destruct (PyStr.is_upper c).
  - destruct Hin as [<-|Hin]; [simpl; discriminate | eapply IH; exact Hin].
  - eapply IH; exact Hin.
Qed.

Lemma span_cons_payload (c : ascii) (r : string) (k : nat) :
  (S k <= String.length (fst (PyStr.span is_payload (String c r))))%nat ->
  is_payload c = true /\
  (k <= String.length (fst (PyStr.span is_payload r)))%nat.
Proof.
  simpl. destruct (is_payload c); simpl.
  - destruct (PyStr.span is_payload r) as [a b]; simpl. intros H. split; [reflexivity | lia].
  - intros H. lia.
Qed.

(** Every uppercase letter of the text begins a match: the characters
    the scan passes over inside a match are payload characters. *)
Lemma finditer_upper (s : string) :
  forall pos skip c,
    (skip <= String.length (fst (PyStr.span is_payload s)))%nat ->
    In c (list_ascii_of_string s) ->
    PyStr.is_upper c = true ->
    exists m p, In m (finditer_from pos skip s) /\ m_group m = String c p.
Proof.
  induction s as [|a r IH]; intros pos skip c Hskip Hin Hup; [contradiction|].
  simpl in Hin. cbn [finditer_from].
  destruct skip as [|k].
  - destruct (PyStr.is_upper a) eqn:Ha.
    + destruct Hin as [->|Hin].
      * eexists _, _. split; [left; reflexivity | reflexivity].
      * destruct (IH (pos + 1) (String.length (fst (PyStr.span is_payload r))) c
                    (Nat.le_refl _) Hin Hup) as (m & p & Hm & Hg).
        exists m, p. split; [right; exact Hm | exact Hg].
    + destruct Hin as [->|Hin]; [congruence|].
      apply IH; [lia | exact Hin | exact Hup].
  - apply span_cons_payload in Hskip as [Hpay Hk].
    destruct Hin as [->|Hin].
    + apply upper_not_payload in Hup. congruence.
    + apply IH; [exact Hk | exact Hin | exact Hup].
Qed.

Lemma runs_upper (d : string) (c : ascii) :
  occurs c d -> PyStr.is_upper c = true ->
  exists p, In (String c p) (runs d).
Proof.
  intros Hin Hup.
  destruct (finditer_upper d 0 O c (Nat.le_0_l _) Hin Hup) as (m & p & Hm & Hg).
  exists p. rewrite <- Hg. unfold runs. apply in_map. exact Hm.
Qed.

(** Every run begins with an uppercase letter. *)
Lemma finditer_group_upper (s : string) :
  forall pos skip m, In m (finditer_from pos skip s) ->
  exists c p, m_group m = String c p /\ PyStr.is_upper c = true.
Proof.
  induction s as [|c r IH]; simpl; intros pos skip m Hin; [contradiction|].
  destruct skip as [|k]; [|eapply IH; exact Hin].
  destruct (PyStr.is_upper c) eqn:Hc.
  - destruct Hin as [<-|Hin]; [simpl; eauto | eapply IH; exact Hin].
  - eapply IH; exact Hin.
Qed.

(** ** One iteration of [shift_path] *)

Section ShiftRun.

Variables x_shift y_shift orig_len : Z.
Hypothesis fits_x : fits_float x_shift.
Hypothesis fits_y : fits_float y_shift.

Lemma shift_run_raise (m : Match) (st : sp_state) (e : exn) :
  m_group m <> EmptyString ->
  shift_run x_shift y_shift orig_len m st = Raise e -> e = ValueError.
Proof.
  unfold shift_run. destruct (m_group m) as [|c p]; [congruence|]. intros _.
  destruct (Ascii.eqb c "M").
  { intros H. apply bind_raise in H as [H|(parts & _ & H)];
      [eapply floats_of_raise; exact H|].
    destruct parts as [|sx [|sy [|]]]; try congruence.
    apply bind_raise in H as [H|(a & _ & H)];
      [exfalso; eapply add_int_raise; [exact fits_x | exact H]|].
    apply bind_raise in H as [H|(b & _ & H)];
      [exfalso; eapply add_int_raise; [exact fits_y | exact H] | discriminate]. }
  destruct (Ascii.eqb c "C").
  { intros H. apply bind_raise in H as [H|(parts & _ & H)];
      [eapply floats_of_raise; exact H|].
    destruct (negb _); [congruence|].
    apply bind_raise in H as [H|(t & _ & H)]; [|discriminate].
    destruct (shift_cubic_ok x_shift y_shift parts fits_x fits_y _ "C" (Nat.le_refl _))
      as [r Hr]. congruence. }
  destruct (Ascii.eqb c "S").
  { intros H. apply bind_raise in H as [H|(parts & _ & H)];
      [eapply floats_of_raise; exact H|].
    destruct (negb _); [congruence|].
    apply bind_raise in H as [H|(t & _ & H)]; [|discriminate].
    destruct (shift_smooth_ok x_shift y_shift parts fits_x fits_y _ "S" (Nat.le_refl _))
      as [r Hr]. congruence. }
  congruence.
Qed.

Lemma shift_run_accepts (m : Match) (st : sp_state) :
  run_ok (m_group m) = true ->
  exists st', shift_run x_shift y_shift orig_len m st = Ok st'.
Proof.
  unfold shift_run, run_ok. destruct (m_group m) as [|c p]; [discriminate|].
  rewrite andb_true_iff. intros [Hnum Hlen].
  apply floats_of_ok_iff in Hnum as [parts Hparts].
  rewrite <- (floats_of_length _ _ Hparts) in Hlen. rewrite Hparts. simpl.
  destruct (Ascii.eqb c "M").
  { destruct parts as [|sx [|sy [|]]]; try discriminate.
    destruct (add_int_ok sx x_shift fits_x) as (? & ? & ->).
    destruct (add_int_ok sy y_shift fits_y) as (? & ? & ->). simpl. eauto. }
  destruct (Ascii.eqb c "C").
  { rewrite Hlen. simpl.
    destruct (shift_cubic_ok x_shift y_shift parts fits_x fits_y _ "C" (Nat.le_refl _))
      as [r ->]. simpl. eauto. }
  destruct (Ascii.eqb c "S").
  { rewrite Hlen. simpl.
    destruct (shift_smooth_ok x_shift y_shift parts fits_x fits_y _ "S" (Nat.le_refl _))
      as [r ->]. simpl. eauto. }
  discriminate.
Qed.

End ShiftRun.

(** An accepted run is well formed, whatever the offsets. *)
Lemma shift_run_ok_run (xs ys ol : Z) (m : Match) (st st' : sp_state) :
  shift_run xs ys ol m st = Ok st' -> run_ok (m_group m) = true.
Proof.
  unfold shift_run, run_ok. destruct (m_group m) as [|c p]; [discriminate|].
  intros H.
  assert (Hp : exists parts, floats_of p = Ok parts /\
            (if Ascii.eqb c "M" then (List.length parts =? 2)%nat
             else if Ascii.eqb c "C" then Z.of_nat (List.length parts) mod 6 =? 0
             else if Ascii.eqb c "S" then Z.of_nat (List.length parts) mod 4 =? 0
             else false) = true).
  { destruct (Ascii.eqb c "M").
    { apply bind_ok in H as (parts & Hp & H). exists parts. split; [exact Hp|].
      destruct parts as [|sx [|sy [|]]]; try discriminate. reflexivity. }
    destruct (Ascii.eqb c "C").
    { apply bind_ok in H as (parts & Hp & H). exists parts. split; [exact Hp|].
      destruct (Z.of_nat (List.length parts) mod 6 =? 0); [reflexivity | discriminate]. }
    destruct (Ascii.eqb c "S").
    { apply bind_ok in H as (parts & Hp & H). exists parts. split; [exact Hp|].
      destruct (Z.of_nat (List.length parts) mod 4 =? 0); [reflexivity | discriminate]. }
    discriminate. }
  destruct Hp as (parts & Hp & Hlen).
  rewrite <- (floats_of_length _ _ Hp), Hlen, andb_true_r.
  apply floats_of_ok_iff. eauto.
Qed.

Lemma shift_run_keeps (xs ys ol : Z) (m : Match) (st st' : sp_state)
  (a b : PyFloat.float) :
  first_x st = Some a -> first_y st = Some b ->
  shift_run xs ys ol m st = Ok st' ->
  first_x st' = Some a /\ first_y st' = Some b.
Proof.
  unfold shift_run. intros Ha Hb. destruct (m_group m) as [|c p]; [discriminate|].
  destruct (Ascii.eqb c "M").
  { intros H. apply bind_ok in H as (parts & _ & H).
    destruct parts as [|sx [|sy [|]]]; try discriminate.
    apply bind_ok in H as (u & _ & H). apply bind_ok in H as (v & _ & H).
    injection H as <-. simpl. rewrite Ha. auto. }
  destruct (Ascii.eqb c "C").
  { intros H. apply bind_ok in H as (parts & _ & H).
    destruct (negb _); [discriminate|].
    apply bind_ok in H as (t & _ & H). injection H as <-. simpl. auto. }
  destruct (Ascii.eqb c "S").
  { intros H. apply bind_ok in H as (parts & _ & H).
    destruct (negb _); [discriminate|].
    apply bind_ok in H as (t & _ & H). injection H as <-. simpl. auto. }
  discriminate.
Qed.

Lemma shift_run_no_move (xs ys ol : Z) (m : Match) (st st' : sp_state) :
  is_move (m_group m) = false ->
  shift_run xs ys ol m st = Ok st' ->
  first_x st' = first_x st /\ first_y st' = first_y st.
Proof.
  unfold shift_run, is_move. destruct (m_group m) as [|c p]; [discriminate|].
  intros ->.
  destruct (Ascii.eqb c "C").
  { intros H. apply bind_ok in H as (parts & _ & H).
    destruct (negb _); [discriminate|].
    apply bind_ok in H as (t & _ & H). injection H as <-. simpl. auto. }
  destruct (Ascii.eqb c "S").
  { intros H. apply bind_ok in H as (parts & _ & H).
    destruct (negb _); [discriminate|].
    apply bind_ok in H as (t & _ & H). injection H as <-. simpl. auto. }
  discriminate.
Qed.

Lemma shift_run_move (xs ys ol : Z) (m : Match) (st st' : sp_state)
  (payload tx ty : string) (x y : PyFloat.float) :
  m_group m = String "M" payload ->
  PyStr.split "," payload = [tx; ty] ->
  PyFloat.of_string tx = Some x -> PyFloat.of_string ty = Some y ->
  first_x st = None ->
  shift_run xs ys ol m st = Ok st' ->
  exists cx cy, PyFloat.of_int xs = Some cx /\ PyFloat.of_int ys = Some cy /\
    first_x st' = Some (PyFloat.add x cx) /\
    first_y st' = Some (PyFloat.add y cy).
Proof.
  unfold shift_run. intros -> Hsplit Hx Hy Hnone. simpl.
  unfold floats_of. rewrite Hsplit. simpl.
  rewrite (proj2 (float_of_str_ok tx x) Hx), (proj2 (float_of_str_ok ty y) Hy).
  simpl. unfold add_int.
  destruct (PyFloat.of_int xs) as [cx|]; [|discriminate].
  destruct (PyFloat.of_int ys) as [cy|]; [|discriminate].
  simpl. intros H. injection H as <-. simpl. rewrite Hnone. eauto 6.
Qed.

(** ** shift_path *)

Lemma shift_path_raise (d : string) (row col : Z) (e : exn) :
  offsets_fit row col -> shift_path d row col = Raise e -> e = ValueError.
Proof.
  intros [Hx Hy]. unfold shift_path. intros H.
  apply bind_raise in H as [H|(st & _ & H)]; [|discriminate].
  apply (for_each_raise_class (fun e0 => e0 = ValueError) _ _) in H; [exact H|].
  intros m st e' Hm He'.
  eapply shift_run_raise; [exact Hx | exact Hy | | exact He'].
  eapply finditer_group_nonempty. exact Hm.
Qed.

Lemma shift_path_rejects_run (d : string) (row col : Z) (s : string) :
  offsets_fit row col ->
  In s (runs d) ->
  (forall m st, m_group m = s ->
     shift_run (col * kanjivg_width) (row * kanjivg_height) (PyStr.len d) m st
     = Raise ValueError) ->
  shift_path d row col = Raise ValueError.
Proof.
  intros [Hx Hy] Hin Hbad. unfold runs in Hin. apply in_map_iff in Hin as (m & Hg & Hm).
  unfold shift_path.
  assert (Hr : forall st,
             for_each (caps_finditer d)
               (shift_run (col * kanjivg_width) (row * kanjivg_height) (PyStr.len d))
               st = Raise ValueError).
  { apply (for_each_raises _ _ ValueError m Hm).
    - intros st. apply Hbad. exact Hg.
    - intros b st e' Hb He'.
      eapply shift_run_raise; [exact Hx | exact Hy | | exact He'].
      eapply finditer_group_nonempty. exact Hb. }
  rewrite Hr. reflexivity.
Qed.

Lemma shift_path_ok_runs (d : string) (row col : Z)
  (r : string * option PyFloat.float * option PyFloat.float) :
  shift_path d row col = Ok r -> Forall (fun s => run_ok s = true) (runs d).
Proof.
  unfold shift_path. intros H. apply bind_ok in H as (st & H & _).
  unfold runs. apply Forall_map.
  eapply for_each_ok_all; [|exact H].
  intros m s s' Hs. eapply shift_run_ok_run. exact Hs.
Qed.

Lemma shift_path_accepts (d : string) (row col : Z) :
  offsets_fit row col ->
  Forall (fun s => run_ok s = true) (runs d) ->
  exists r, shift_path d row col = Ok r.
Proof.
  intros [Hx Hy] Hall. unfold shift_path.
  edestruct (for_each_ok (caps_finditer d)
               (shift_run (col * kanjivg_width) (row * kanjivg_height) (PyStr.len d)))
    as [st ->]; [|simpl; eauto].
  intros m st Hm. apply shift_run_accepts; [exact Hx | exact Hy|].
  unfold runs in Hall. rewrite Forall_map, Forall_forall in Hall. apply Hall. exact Hm.
Qed.

(** The paths [shift_path] accepts are those whose runs are well formed. *)
Lemma shift_path_accepts_iff (d : string) (row col : Z) :
  offsets_fit row col ->
  (exists r, shift_path d row col = Ok r) <->
  Forall (fun s => run_ok s = true) (runs d).
Proof.
  intros Hfit. split.
  - intros [r Hr]. eapply shift_path_ok_runs. exact Hr.
  - apply shift_path_accepts. exact Hfit.
Qed.

Lemma fits_float_0 : fits_float 0.
Proof. unfold fits_float. vm_compute. discriminate. Qed.

Lemma offsets_fit_0 : offsets_fit 0 0.
Proof. split; exact fits_float_0. Qed.

(** C4 (as amended). A path in which an uppercase letter other than M, C
    and S occurs is rejected: [shift_path] raises ValueError, for all
    offsets that a float can hold. *)
Theorem shift_path_unsupported_command (d : string) (row col : Z) (c : ascii) :
  offsets_fit row col ->
  occurs c d ->
  PyStr.is_upper c = true ->
  c <> "M"%char -> c <> "C"%char -> c <> "S"%char ->
  shift_path d row col = Raise ValueError.
Proof.
  intros Hfit Hin Hup HM HC HS.
  destruct (runs_upper d c Hin Hup) as [p Hp].
  apply (shift_path_rejects_run d row col (String c p) Hfit Hp).
  intros m st Hg. unfold shift_run. rewrite Hg.
  apply Ascii.eqb_neq in HM, HC, HS. rewrite HM, HC, HS. reflexivity.
Qed.

Lemma shift_path_unsupported_command_witness :
  shift_path "Z10,20" 0 0 = Raise ValueError.
Proof.
  apply (shift_path_unsupported_command "Z10,20" 0 0 "Z"%char).
  - exact offsets_fit_0.
  - unfold occurs. simpl. left. reflexivity.
  - reflexivity.
  - discriminate.
  - discriminate.
  - discriminate.
Defined.

(** C4 (as stated) fails: lowercase [c] and [z] are command letters other
    than M, C and S, and the path is accepted; the text after a lowercase
    letter is left as it is. *)
Lemma shift_path_lowercase_accepted :
  occurs "c"%char "M10,20c1,2,3,4,5,6z" /\
  occurs "z"%char "M10,20c1,2,3,4,5,6z" /\
  shift_path "M10,20c1,2,3,4,5,6z" 0 0
  = Ok ("M10.0,20.0c1,2,3,4,5,6z", PyFloat.of_string "10", PyFloat.of_string "20").
Proof.
  split; [|split].
  - unfold occurs. simpl. tauto.
  - unfold occurs. simpl. tauto.
  - vm_compute. reflexivity.
Qed.

(** C7. A C run whose number of numeric values is not a positive multiple
    of 6, or an S run whose number is not a positive multiple of 4, makes
    [shift_path] raise ValueError. *)
Theorem shift_path_rejects_payload_count (d : string) (row col : Z)
  (payload : string) :
  offsets_fit row col ->
  (In (String "C" payload) (runs d) /\
   ~ positive_multiple 6 (numeric_count "," payload)) \/
  (In (String "S" payload) (runs d) /\
   ~ positive_multiple 4 (numeric_count "," payload)) ->
  shift_path d row col = Raise ValueError.
Proof.
  intros Hfit [[Hin Hcount]|[Hin Hcount]];
    apply (shift_path_rejects_run d row col _ Hfit Hin);
    intros m st Hg; unfold shift_run; rewrite Hg; simpl;
    destruct (floats_of payload) as [parts|e] eqn:Hparts; simpl;
    try (f_equal; eapply floats_of_raise; exact Hparts);
    destruct (numeric_count_ok _ _ Hparts) as [Hn Hpos];
    rewrite Hn in Hcount; unfold positive_multiple in Hcount.
  - destruct (Z.of_nat (List.length parts) mod 6 =? 0) eqn:Hmod; [|reflexivity].
    exfalso. apply Hcount. split; [exact Hpos|].
    apply Z.eqb_eq in Hmod. apply Nat2Z.inj. rewrite Nat2Z.inj_mod. exact Hmod.
  - destruct (Z.of_nat (List.length parts) mod 4 =? 0) eqn:Hmod; [|reflexivity].
    exfalso. apply Hcount. split; [exact Hpos|].
    apply Z.eqb_eq in Hmod. apply Nat2Z.inj. rewrite Nat2Z.inj_mod. exact Hmod.
Qed.

Lemma shift_path_rejects_payload_count_witness :
  shift_path "M10,20C1,2,3,4,5" 0 0 = Raise ValueError.
Proof.
  apply (shift_path_rejects_payload_count "M10,20C1,2,3,4,5" 0 0 "1,2,3,4,5").
  - exact offsets_fit_0.
  - left. split.
    + vm_compute. right. left. reflexivity.
    + unfold positive_multiple. vm_compute. intros [_ H]. discriminate H.
Defined.

Lemma run_ok_move (payload tx ty : string) (x y : PyFloat.float) :
  PyStr.split "," payload = [tx; ty] ->
  PyFloat.of_string tx = Some x -> PyFloat.of_string ty = Some y ->
  run_ok (String "M" payload) = true.
Proof.
  intros Hs Hx Hy. unfold run_ok. rewrite Hs. simpl. unfold numeric.
  rewrite Hx, Hy. reflexivity.
Qed.

(** C5. When the first run of a path is [M x,y] and the runs after it are
    well formed, [shift_path] returns the start point [(x + col *
    kanjivg_width, y + row * kanjivg_height)], whatever runs follow, later
    M runs included. *)
Theorem shift_path_start_point (d : string) (row col : Z)
  (payload : string) (rest : list string) (tx ty : string)
  (x y : PyFloat.float) :
  runs d = String "M" payload :: rest ->
  PyStr.split "," payload = [tx; ty] ->
  PyFloat.of_string tx = Some x ->
  PyFloat.of_string ty = Some y ->
  Forall (fun s => run_ok s = true) rest ->
  offsets_fit row col ->
  exists d' cx cy,
    PyFloat.of_int (col * kanjivg_width) = Some cx /\
    PyFloat.of_int (row * kanjivg_height) = Some cy /\
    shift_path d row col
    = Ok (d', Some (PyFloat.add x cx), Some (PyFloat.add y cy)).
Proof.
  intros Hruns Hsplit Hx Hy Hrest [Hfx Hfy].
  unfold runs in Hruns. unfold shift_path.
  destruct (caps_finditer d) as [|m ms]; [discriminate|].
  simpl in Hruns. injection Hruns as Hg Hms. subst rest.
  cbn [for_each].
  set (body := shift_run (col * kanjivg_width) (row * kanjivg_height) (PyStr.len d)).
  set (st0 := Build_sp_state d None None 0).
  assert (Hok : run_ok (m_group m) = true)
    by (rewrite Hg; eapply run_ok_move; eauto).
  destruct (shift_run_accepts _ _ (PyStr.len d) Hfx Hfy m st0 Hok) as [st1 H1].
  fold body in H1. rewrite H1. cbn [bind].
  destruct (shift_run_move _ _ _ m st0 st1 payload tx ty x y Hg Hsplit Hx Hy
              eq_refl H1) as (cx & cy & Hcx & Hcy & Hx1 & Hy1).
  destruct (for_each_ok ms body) with (s := st1) as [st2 H2].
  { intros a s Ha. apply shift_run_accepts; [exact Hfx | exact Hfy|].
    rewrite Forall_map, Forall_forall in Hrest. apply Hrest. exact Ha. }
  rewrite H2. cbn [bind].
  assert (Hinv : first_x st2 = Some (PyFloat.add x cx) /\
                 first_y st2 = Some (PyFloat.add y cy)).
  { apply (for_each_invariant
             (fun s => first_x s = Some (PyFloat.add x cx) /\
                       first_y s = Some (PyFloat.add y cy)) ms body)
      with (s := st1); [|split; assumption | exact H2].
    intros a s s' _ [Ha Hb] Hs. eapply shift_run_keeps; eauto. }
  destruct Hinv as [-> ->]. eauto 6.
Qed.

Lemma shift_path_start_point_witness :
  exists d' cx cy,
    PyFloat.of_int (2 * kanjivg_width) = Some cx /\
    PyFloat.of_int (1 * kanjivg_height) = Some cy /\
    shift_path "M10,20C1,2,3,4,5,6S7,8,9,10M50,60c1,1,1,1,1,1" 1 2
    = Ok (d', Some (PyFloat.add (PyFloat.of_decimal false 10 0) cx),
              Some (PyFloat.add (PyFloat.of_decimal false 20 0) cy)).
Proof.
  apply (shift_path_start_point
           "M10,20C1,2,3,4,5,6S7,8,9,10M50,60c1,1,1,1,1,1" 1 2 "10,20"
           ["C1,2,3,4,5,6"; "S7,8,9,10"; "M50,60"] "10" "20").
  - vm_compute. reflexivity.
  - reflexivity.
  - vm_compute. reflexivity.
  - vm_compute. reflexivity.
  - repeat constructor.
  - split; unfold fits_float; vm_compute; discriminate.
Defined.


(** C8. Poly-Bezier groups are written one after the other with no comma
    between them, so the path [shift_path] returns is not a path it
    accepts: translating in two steps raises ValueError where one
    translation by the sum of the offsets returns a path. *)
Theorem shift_path_twice_rejected :
  shift_path "M10,20C1,2,3,4,5,6,7,8,9,10,11,12" 0 1
  = Ok ("M119.0,20.0C110.00,2.00,112.00,4.00,114.00,6.00116.00,8.00,118.00,10.00,120.00,12.00",
        PyFloat.of_string "119", PyFloat.of_string "20") /\
  shift_path
    "M119.0,20.0C110.00,2.00,112.00,4.00,114.00,6.00116.00,8.00,118.00,10.00,120.00,12.00"
    1 0
  = Raise ValueError /\
  shift_path "M10,20C1,2,3,4,5,6,7,8,9,10,11,12" (0 + 1) (1 + 0)
  = Ok ("M119.0,129.0C110.00,111.00,112.00,113.00,114.00,115.00116.00,117.00,118.00,119.00,120.00,121.00",
        PyFloat.of_string "119", PyFloat.of_string "129").
Proof. repeat split; vm_compute; reflexivity. Qed.

(** ** shift_transform *)

Lemma numeric_false (t : string) :
  numeric t = false -> float_of_str t = Raise ValueError.
Proof. unfold numeric, float_of_str. destruct (PyFloat.of_string t); congruence. Qed.

Lemma numeric_true (t : string) :
  numeric t = true -> exists x, PyFloat.of_string t = Some x /\ float_of_str t = Ok x.
Proof.
  unfold numeric, float_of_str. destruct (PyFloat.of_string t); [eauto | discriminate].
Qed.

(** C3 (as amended). A transform whose payload has fewer than six tokens,
    or whose fifth or sixth token is no number, is rejected. The exception
    is the ValueError that [gen_strokes] catches when the offending token
    is present. *)
Theorem shift_transform_rejects (mat : string) (row col : Z) :
  offsets_fit row col ->
  malformed_tokens (transform_tokens mat) = true ->
  exists e, shift_transform mat row col = Raise e /\
    (unparsable (transform_tokens mat) = true ->
     e = ValueError /\ caught e = true).
Proof.
  intros [Hfx Hfy]. unfold shift_transform, malformed_tokens, unparsable, token_numeric.
  fold (transform_tokens mat). set (tokens := transform_tokens mat).
  unfold index.
  intros Hbad.
  destruct (nth_error tokens 4) as [t4|] eqn:H4; cbn [bind].
  2:{ eexists. split; [reflexivity | discriminate]. }
  destruct (numeric t4) eqn:Hn4.
  2:{ rewrite (numeric_false _ Hn4). cbn [bind]. eexists. split; [reflexivity|].
      intros _. split; reflexivity. }
  destruct (numeric_true _ Hn4) as (x4 & _ & ->). cbn [bind].
  destruct (add_int_ok x4 _ Hfx) as (ce & _ & ->). cbn [bind].
  destruct (nth_error tokens 5) as [t5|] eqn:H5; cbn [bind].
  2:{ eexists. split; [reflexivity | discriminate]. }
  destruct (numeric t5) eqn:Hn5.
  2:{ rewrite (numeric_false _ Hn5). cbn [bind]. eexists. split; [reflexivity|].
      intros _. split; reflexivity. }
  exfalso. simpl in Hbad. rewrite !orb_false_r in Hbad.
  apply Nat.ltb_lt in Hbad.
  assert (5 < List.length tokens)%nat by (apply nth_error_Some; congruence). lia.
Qed.

Lemma shift_transform_rejects_witness :
  exists e, shift_transform "matrix(1 0 0 1 x)" 0 0 = Raise e /\
    (unparsable (transform_tokens "matrix(1 0 0 1 x)") = true ->
     e = ValueError /\ caught e = true).
Proof.
  apply (shift_transform_rejects "matrix(1 0 0 1 x)" 0 0).
  - exact offsets_fit_0.
  - vm_compute. reflexivity.
Defined.

(** C3 (as stated) fails. The first four tokens are not read, so a payload
    with two numeric tokens is accepted; and with five numbers the sixth
    token is missing and the exception is an IndexError, which
    [gen_strokes] does not catch. *)
Lemma shift_transform_fewer_than_six :
  (numeric_count " " "a b c d 1 2" = 2%nat /\
   shift_transform "matrix(a b c d 1 2)" 0 0 = Ok "matrix(1 0 0 1 1.00 2.00)") /\
  (numeric_count " " "1 0 0 1 5" = 5%nat /\
   shift_transform "matrix(1 0 0 1 5)" 0 0 = Raise IndexError /\
   caught IndexError = false).
Proof. repeat split; vm_compute; reflexivity. Qed.

(** [gen_strokes] skips a glyph on a ValueError and on nothing else. *)
Lemma gen_strokes_file_skipped (k : Kanji) :
  gen_strokes_file k = Skipped <-> make_diagram k = Raise ValueError.
Proof.
  unfold gen_strokes_file. destruct (make_diagram k) as [out|[]]; simpl;
    split; congruence.
Qed.

Example gen_strokes_bad_path : gen_strokes_file bad_path_glyph = Skipped.
Proof. vm_compute. reflexivity. Qed.

Example gen_strokes_short_label :
  gen_strokes_file short_label_glyph = Uncaught IndexError.
Proof. vm_compute. reflexivity. Qed.

(** ** Strings *)

Lemma length_append (a b : string) :
  String.length (a ++ b) = (String.length a + String.length b)%nat.
Proof. induction a as [|c a IH]; simpl; [reflexivity | rewrite IH; reflexivity]. Qed.

Lemma append_assoc (a b c : string) : (a ++ b) ++ c = a ++ b ++ c.
Proof. induction a as [|x a IH]; simpl; [reflexivity | rewrite IH; reflexivity]. Qed.

Lemma substring_prefix (p r : string) :
  substring 0 (String.length p) (p ++ r) = p.
Proof.
  induction p as [|c p IH]; simpl.
  - destruct r; reflexivity.
  - rewrite IH. reflexivity.
Qed.

Lemma slice_matrix (p : string) :
  PyStr.slice ("matrix(" ++ p ++ ")") (Some 7) (Some (-1)) = p.
Proof.
  unfold PyStr.slice, PyStr.len, PyStr.norm_index.
  rewrite !length_append.
  change (String.length "matrix(") with 7%nat.
  change (String.length ")") with 1%nat.
  change (7 <? 0) with false. change (-1 <? 0) with true. cbv iota.
  replace (Z.to_nat (Z.min 7 (Z.of_nat (7 + (String.length p + 1))))) with 7%nat by lia.
  replace (Z.to_nat (Z.max (-1 + Z.of_nat (7 + (String.length p + 1))) 0 -
                     Z.min 7 (Z.of_nat (7 + (String.length p + 1)))))
    with (String.length p) by lia.
  cbn [append substring]. apply substring_prefix.
Qed.

Lemma split_token (a r : string) :
  no_space a = true ->
  PyStr.split " " (a ++ String " " r) = a :: PyStr.split " " r.
Proof.
  unfold no_space. induction a as [|c a IH]; simpl; intros H; [reflexivity|].
  apply andb_true_iff in H as [Hc Ha]. apply negb_true_iff in Hc.
  rewrite Hc, (IH Ha). reflexivity.
Qed.

Lemma split_last (a : string) :
  no_space a = true -> PyStr.split " " a = [a].
Proof.
  unfold no_space. induction a as [|c a IH]; simpl; intros H; [reflexivity|].
  apply andb_true_iff in H as [Hc Ha]. apply negb_true_iff in Hc.
  rewrite Hc, (IH Ha). reflexivity.
Qed.

Lemma digit_char_is_digit (n : Z) :
  PyStr.is_digit (PyFloat.digit_char (n mod 10)) = true.
Proof.
  assert (H : 0 <= n mod 10 < 10) by (apply Z.mod_pos_bound; lia).
  assert (Hc : n mod 10 = 0 \/ n mod 10 = 1 \/ n mod 10 = 2 \/ n mod 10 = 3 \/
               n mod 10 = 4 \/ n mod 10 = 5 \/ n mod 10 = 6 \/ n mod 10 = 7 \/
               n mod 10 = 8 \/ n mod 10 = 9) by lia.
  repeat destruct Hc as [Hc|Hc]; rewrite Hc; reflexivity.
Qed.

Lemma fixed_digits_spec (p : nat) :
  forall n acc,
    PyStr.forallb PyStr.is_digit acc = true ->
    PyStr.forallb PyStr.is_digit (PyFloat.fixed_digits p n acc) = true /\
    String.length (PyFloat.fixed_digits p n acc) = (p + String.length acc)%nat.
Proof.
  induction p as [|p IH]; simpl; intros n acc Hacc; [split; [exact Hacc | reflexivity]|].
  destruct (IH (n / 10) (String (PyFloat.digit_char (n mod 10)) acc)) as [Hd Hl].
  { simpl. rewrite digit_char_is_digit. exact Hacc. }
  split; [exact Hd|]. rewrite Hl. simpl. lia.
Qed.

Lemma zeros_spec (p : nat) :
  PyStr.forallb PyStr.is_digit (PyFloat.zeros p) = true /\
  String.length (PyFloat.zeros p) = p.
Proof.
  induction p as [|p [IH1 IH2]]; simpl; [split; reflexivity|].
  rewrite IH1, IH2. split; reflexivity.
Qed.

Lemma string_of_uint_digits (u : Decimal.uint) :
  PyStr.forallb PyStr.is_digit (NilEmpty.string_of_uint u) = true.
Proof. induction u; simpl; auto. Qed.

Lemma str_of_nonneg_digits (n : Z) :
  PyFloat.str_of_nonneg n <> "" /\
  PyStr.forallb PyStr.is_digit (PyFloat.str_of_nonneg n) = true.
Proof.
  unfold PyFloat.str_of_nonneg, NilZero.string_of_uint.
  destruct (N.to_uint (Z.to_N n)) eqn:Hu;
    (split; [simpl; discriminate | try reflexivity; apply string_of_uint_digits]).
Qed.

Lemma sign_str_cases (s : bool) :
  PyFloat.sign_str s = "" \/ PyFloat.sign_str s = "-".
Proof. destruct s; simpl; auto. Qed.

(** A finite float is formatted with exactly [p] decimals. *)
Lemma format_f_decimals (p : nat) (x : PyFloat.float) :
  PyFloat.is_finite x = true -> (0 < p)%nat ->
  decimals p (PyFloat.format_f p x).
Proof.
  intros Hfin Hp. destruct p as [|p]; [lia|].
  destruct x as [s|s| |s m e]; try discriminate; unfold PyFloat.format_f.
  - exists (PyFloat.sign_str s), "0", (PyFloat.zeros (S p)).
    destruct (zeros_spec (S p)) as [Hz Hl].
    repeat split; auto using sign_str_cases. discriminate.
  - destruct (PyFloat.ratio m e) as [num den].
    set (n := PyFloat.round_half_even _ _).
    exists (PyFloat.sign_str s), (PyFloat.str_of_nonneg (n / 10 ^ Z.of_nat (S p))),
      (PyFloat.fixed_digits (S p) n "").
    destruct (fixed_digits_spec (S p) n "" eq_refl) as [Hd Hl].
    destruct (str_of_nonneg_digits (n / 10 ^ Z.of_nat (S p))) as [Hne Hdig].
    repeat split; auto using sign_str_cases.
    rewrite Hl. simpl. lia.
Qed.

Lemma transform_tokens_matrix (a b c d e f : string) :
  no_space a = true -> no_space b = true -> no_space c = true ->
  no_space d = true -> no_space e = true -> no_space f = true ->
  transform_tokens
    ("matrix(" ++ a ++ " " ++ b ++ " " ++ c ++ " " ++ d ++ " " ++ e ++ " " ++ f ++ ")")
  = [a; b; c; d; e; f].
Proof.
  intros Ha Hb Hc Hd He Hf. unfold transform_tokens.
  replace ("matrix(" ++ a ++ " " ++ b ++ " " ++ c ++ " " ++ d ++ " " ++ e ++ " " ++ f ++ ")")
    with ("matrix(" ++ (a ++ " " ++ b ++ " " ++ c ++ " " ++ d ++ " " ++ e ++ " " ++ f) ++ ")").
  - rewrite slice_matrix.
    change (a ++ " " ++ b ++ " " ++ c ++ " " ++ d ++ " " ++ e ++ " " ++ f)
      with (a ++ String " " (b ++ String " " (c ++ String " "
              (d ++ String " " (e ++ String " " f))))).
    rewrite !split_token by assumption. rewrite split_last by assumption. reflexivity.
  - f_equal. rewrite !append_assoc. reflexivity.
Qed.



Example shift_transform_example :
  shift_transform "matrix(0.5 2 -2 0.5 4.25 8.5)" 1 2
  = Ok "matrix(1 0 0 1 222.25 117.50)".
Proof. vm_compute. reflexivity. Qed.

(** ** Frames *)

(** *** The inner loop *)

Lemma drawn_nil (st : md_state) : drawn st [] [] = st.
Proof. destruct st. unfold drawn. simpl. rewrite !app_nil_r. reflexivity. Qed.

Lemma drawn_drawn (st : md_state) (es es' ls ls' : list Element) :
  drawn (drawn st es ls) es' ls' = drawn st (es ++ es') (ls ++ ls').
Proof. unfold drawn. simpl. rewrite !app_assoc. reflexivity. Qed.

Lemma index_ok {A : Type} (l : list A) (i : nat) (a : A) :
  index l i = Ok a <-> nth_error l i = Some a.
Proof. unfold index. destruct (nth_error l i); split; congruence. Qed.

Lemma draw_stroke_ok (k : Kanji) (id_base : string) (j : nat) (st st' : md_state) :
  draw_stroke k id_base j st = Ok st' <->
  exists e l,
    is_stroke_copy k id_base (cur_row st) (cur_col st) j e /\
    is_label k (cur_row st) (cur_col st) j l /\
    st' = drawn st [e] [l].
Proof.
  unfold draw_stroke, is_stroke_copy, is_label. split.
  - intros H.
    apply bind_ok in H as (p & Hp & H). apply index_ok in Hp.
    apply bind_ok in H as (d & Hd & H).
    apply bind_ok in H as ([[new_d x] y] & Hs & H).
    apply bind_ok in H as (n & Hn & H). apply index_ok in Hn.
    apply bind_ok in H as (t & Ht & H).
    apply bind_ok in H as (mat & Hm & H).
    injection H as <-.
    eexists _, _. split; [|split]; [| |reflexivity].
    + exists p, d, new_d, x, y. auto.
    + exists n, t, mat. auto.
  - intros (e & l & (p & d & new_d & x & y & Hp & Hd & Hs & ->) &
            (n & t & mat & Hn & Ht & Hm & ->) & ->).
    apply index_ok in Hp, Hn. rewrite Hp. cbn [bind]. rewrite Hd. cbn [bind].
    rewrite Hs. cbn [bind]. rewrite Hn. cbn [bind]. rewrite Ht. cbn [bind].
    rewrite Hm. reflexivity.
Qed.

Lemma draw_strokes_ok (k : Kanji) (id_base : string) (n : nat) :
  forall a st st',
    for_each (seq a n) (draw_stroke k id_base) st = Ok st' <->
    exists es ls,
      Forall2 (is_stroke_copy k id_base (cur_row st) (cur_col st)) (seq a n) es /\
      Forall2 (is_label k (cur_row st) (cur_col st)) (seq a n) ls /\
      st' = drawn st es ls.
Proof.
  induction n as [|n IH]; intros a st st'; cbn [seq for_each].
  - split.
    + intros H. injection H as <-. exists [], []. rewrite drawn_nil. auto.
    + intros (es & ls & He & Hl & ->). inversion He. inversion Hl.
      rewrite drawn_nil. reflexivity.
  - split.
    + intros H. apply bind_ok in H as (st1 & H1 & H).
      apply draw_stroke_ok in H1 as (e & l & He & Hl & ->).
      apply IH in H as (es & ls & Hes & Hls & ->).
      exists (e :: es), (l :: ls). rewrite drawn_drawn. auto.
    + intros (es & ls & He & Hl & ->).
      inversion He as [|? e ? es' He1 Hes]; subst.
      inversion Hl as [|? l ? ls' Hl1 Hls]; subst.
      rewrite (proj2 (draw_stroke_ok k id_base a st (drawn st [e] [l]))) by eauto.
      cbn [bind]. apply IH. exists es', ls'. rewrite drawn_drawn. auto.
Qed.

(** *** The outer loop *)

Lemma frame_next (a : nat) :
  next_row (frame_row a) (frame_col a) = frame_row (S a) /\
  next_col (frame_col a) = frame_col (S a).
Proof.
  unfold next_row, next_col, frame_row, frame_col, boxes_per_line.
  rewrite Nat2Z.inj_succ.
  destruct (Z.leb_spec 6 (Z.of_nat a mod 6 + 1)); split;
    Z.div_mod_to_equations; lia.
Qed.

Lemma draw_frame_ok (k : Kanji) (id_base : string) (i : nat) (st st' : md_state) :
  draw_frame k id_base i st = Ok st' <->
  exists els ls,
    is_frame_at k id_base (cur_row st) (cur_col st) i els /\
    Forall2 (is_label k (cur_row st) (cur_col st)) (seq 0 (i + 1)) ls /\
    st' = {| base := (base st ++ els)%list;
             sn_base := (sn_base st ++ ls)%list;
             cur_row := next_row (cur_row st) (cur_col st);
             cur_col := next_col (cur_col st) |}.
Proof.
  unfold draw_frame, is_frame_at, is_marker, next_row, next_col. split.
  - intros H. apply bind_ok in H as (st1 & H1 & H).
    apply draw_strokes_ok in H1 as (es & ls & Hes & Hls & ->).
    cbn [drawn cur_row cur_col base sn_base] in H.
    apply bind_ok in H as (p & Hp & H). apply index_ok in Hp.
    apply bind_ok in H as (d & Hd & H).
    apply bind_ok in H as ([[new_d x] y] & Hs & H).
    exists (es ++ [circle x y])%list, ls. split; [|split].
    + exists es, (circle x y). split; [reflexivity|]. split; [exact Hes|].
      exists p, d, new_d, x, y. auto.
    + exact Hls.
    + rewrite app_assoc.
      destruct (boxes_per_line <=? cur_col st + 1); injection H as <-; reflexivity.
  - intros (els & ls & (es & marker & -> & Hes &
                        (p & d & new_d & x & y & Hp & Hd & Hs & ->)) & Hls & ->).
    rewrite (proj2 (draw_strokes_ok k id_base (i + 1) 0 st (drawn st es ls)))
      by eauto.
    cbn [bind drawn cur_row cur_col base sn_base].
    apply index_ok in Hp. rewrite Hp. cbn [bind]. rewrite Hd. cbn [bind].
    rewrite Hs. cbn [bind]. rewrite app_assoc.
    destruct (boxes_per_line <=? cur_col st + 1); reflexivity.
Qed.

Lemma draw_frames_ok (k : Kanji) (id_base : string) (n : nat) :
  forall a st st',
    cur_row st = frame_row a -> cur_col st = frame_col a ->
    (for_each (seq a n) (draw_frame k id_base) st = Ok st' <->
     exists frames labels,
       Forall2 (is_frame k id_base) (seq a n) frames /\
       Forall2 (is_frame_labels k) (seq a n) labels /\
       st' = {| base := (base st ++ List.concat frames)%list;
                sn_base := (sn_base st ++ List.concat labels)%list;
                cur_row := frame_row (a + n);
                cur_col := frame_col (a + n) |}).
Proof.
  induction n as [|n IH]; intros a st st' Hrow Hcol; cbn [seq for_each].
  - rewrite Nat.add_0_r, <- Hrow, <- Hcol. split.
    + intros H. injection H as <-. exists [], []. simpl. rewrite !app_nil_r.
      destruct st; auto.
    + intros (fs & ls & Hf & Hl & ->). inversion Hf. inversion Hl. simpl.
      rewrite !app_nil_r. destruct st; reflexivity.
  - destruct (frame_next a) as [Hnr Hnc].
    replace (a + S n)%nat with (S a + n)%nat by lia. split.
    + intros H. apply bind_ok in H as (st1 & H1 & H).
      apply draw_frame_ok in H1 as (els & ls & Hels & Hls & ->).
      rewrite Hrow, Hcol in Hels, Hls.
      apply IH in H; cbn [cur_row cur_col];
        [|rewrite Hrow, Hcol; exact Hnr | rewrite Hcol; exact Hnc].
      destruct H as (frames & labels & Hfs & Hlbs & ->).
      exists (els :: frames), (ls :: labels). cbn [base sn_base List.concat].
      rewrite !app_assoc. auto.
    + intros (frames & labels & Hfs & Hlbs & ->).
      inversion Hfs as [|? els ? frames' Hels Hfs']; subst.
      inversion Hlbs as [|? ls ? labels' Hls Hlbs']; subst.
      rewrite (proj2 (draw_frame_ok k id_base a st
                 {| base := (base st ++ els)%list;
                    sn_base := (sn_base st ++ ls)%list;
                    cur_row := next_row (cur_row st) (cur_col st);
                    cur_col := next_col (cur_col st) |})).
      * cbn [bind]. apply IH; cbn [cur_row cur_col];
          [rewrite Hrow, Hcol; exact Hnr | rewrite Hcol; exact Hnc|].
        exists frames', labels'. cbn [base sn_base List.concat].
        rewrite !app_assoc. auto.
      * exists els, ls. rewrite Hrow, Hcol. auto.
Qed.

(** *** make_diagram *)

Lemma lookup_set_same (k v : string) (a : attribs) :
  lookup k (set_attr k v a) = Some v.
Proof.
  induction a as [|[k' v'] a IH]; simpl.
  - rewrite String.eqb_refl. reflexivity.
  - destruct (String.eqb k k') eqn:E; simpl.
    + rewrite String.eqb_refl. reflexivity.
    + rewrite E. exact IH.
Qed.

Lemma lookup_set_other (k k' v : string) (a : attribs) :
  k <> k' -> lookup k (set_attr k' v a) = lookup k a.
Proof.
  intros Hne. induction a as [|[k0 v0] a IH]; simpl.
  - apply String.eqb_neq in Hne. rewrite Hne. reflexivity.
  - destruct (String.eqb k' k0) eqn:E; simpl.
    + apply String.eqb_eq in E. subst k0.
      apply String.eqb_neq in Hne. rewrite Hne. reflexivity.
    + destruct (String.eqb k k0); [reflexivity | exact IH].
Qed.

Lemma canvas_attribs_lookup (n : nat) (a : attribs) :
  lookup "width" (canvas_attribs n a) = Some (PyStr.str_of_int (canvas_width n)) /\
  lookup "height" (canvas_attribs n a) = Some (PyStr.str_of_int (canvas_height n)) /\
  lookup "viewBox" (canvas_attribs n a)
  = Some ("0 0 " ++ PyStr.str_of_int (canvas_width n) ++ " " ++
          PyStr.str_of_int (canvas_height n)).
Proof.
  unfold canvas_attribs. repeat split.
  - rewrite !lookup_set_other by discriminate. apply lookup_set_same.
  - rewrite lookup_set_other by discriminate. apply lookup_set_same.
  - apply lookup_set_same.
Qed.

Lemma make_diagram_ok (k : Kanji) (out : Diagram) :
  make_diagram k = Ok out <->
  exists id_base frames labels,
    lookup "id" (base_attrib k) = Some id_base /\
    Forall2 (is_frame k id_base) (seq 0 (List.length (paths k))) frames /\
    Forall2 (is_frame_labels k) (seq 0 (List.length (paths k))) labels /\
    out = {| d_attrib := canvas_attribs (List.length (paths k)) (root_attrib k);
             d_base := List.concat frames;
             d_numbers := List.concat labels |}.
Proof.
  unfold make_diagram. set (n := List.length (paths k)).
  set (st0 := Build_md_state [] [] 0 0).
  assert (Hst : forall id_base st,
             for_each (seq 0 n) (draw_frame k id_base) st0 = Ok st <->
             exists frames labels,
               Forall2 (is_frame k id_base) (seq 0 n) frames /\
               Forall2 (is_frame_labels k) (seq 0 n) labels /\
               st = {| base := List.concat frames;
                       sn_base := List.concat labels;
                       cur_row := frame_row n;
                       cur_col := frame_col n |}).
  { intros id_base st. apply (draw_frames_ok k id_base n 0 st0 st); reflexivity. }
  split.
  - intros H. apply bind_ok in H as (id_base & Hid & H).
    apply bind_ok in H as (st & Hrun & H).
    apply Hst in Hrun as (frames & labels & Hf & Hl & ->).
    exists id_base, frames, labels.
    split; [destruct (lookup "id" (base_attrib k)); congruence|].
    split; [exact Hf|]. split; [exact Hl|].
    cbn [cur_row cur_col base sn_base] in H.
    unfold canvas_attribs, canvas_width, canvas_height.
    destruct (frame_row n =? 0); injection H as <-; reflexivity.
  - intros (id_base & frames & labels & Hid & Hf & Hl & ->).
    rewrite Hid. cbn [bind].
    rewrite (proj2 (Hst id_base _) (ex_intro _ frames (ex_intro _ labels
               (conj Hf (conj Hl eq_refl))))).
    cbn [bind cur_row cur_col base sn_base].
    unfold canvas_attribs, canvas_width, canvas_height.
    destruct (frame_row n =? 0); reflexivity.
Qed.

(** The canvas [make_diagram] sets. *)
Lemma make_diagram_canvas (k : Kanji) (out : Diagram) :
  make_diagram k = Ok out ->
  let n := List.length (paths k) in
  lookup "width" (d_attrib out) = Some (PyStr.str_of_int (canvas_width n)) /\
  lookup "height" (d_attrib out) = Some (PyStr.str_of_int (canvas_height n)) /\
  lookup "viewBox" (d_attrib out)
  = Some ("0 0 " ++ PyStr.str_of_int (canvas_width n) ++ " " ++
          PyStr.str_of_int (canvas_height n)).
Proof.
  intros H. apply make_diagram_ok in H as (id_base & frames & labels & _ & _ & _ & ->).
  apply canvas_attribs_lookup.
Qed.



(** *** Counting *)

Lemma count_tag_app (t : string) (a b : list Element) :
  count_tag t (a ++ b) = (count_tag t a + count_tag t b)%nat.
Proof. unfold count_tag. rewrite filter_app, length_app. reflexivity. Qed.

Lemma count_copies (k : Kanji) (id_base : string) (row col : Z)
  (l : list nat) (es : list Element) :
  Forall2 (is_stroke_copy k id_base row col) l es ->
  count_tag "path" es = List.length l /\ count_tag "circle" es = O /\
  List.length es = List.length l.
Proof.
  induction 1 as [|j e l es (p & d & new_d & x & y & _ & _ & _ & ->) _ (IH1 & IH2 & IH3)].
  - repeat split.
  - unfold count_tag in *. simpl. rewrite IH1, IH2, IH3. repeat split.
Qed.

Lemma count_frame (k : Kanji) (id_base : string) (row col : Z) (i : nat)
  (els : list Element) :
  is_frame_at k id_base row col i els ->
  count_tag "path" els = (i + 1)%nat /\ count_tag "circle" els = 1%nat /\
  List.length els = (i + 2)%nat.
Proof.
  intros (copies & marker & -> & Hc & (p & d & new_d & x & y & _ & _ & _ & ->)).
  destruct (count_copies _ _ _ _ _ _ Hc) as (H1 & H2 & H3).
  rewrite length_seq in H1, H3.
  rewrite !count_tag_app, length_app, H1, H2, H3. unfold count_tag. simpl.
  repeat split; lia.
Qed.


Lemma Forall2_nth_error {A B : Type} (R : A -> B -> Prop) (l : list A) (bs : list B) :
  Forall2 R l bs ->
  forall i b, nth_error bs i = Some b -> exists a, nth_error l i = Some a /\ R a b.
Proof.
  induction 1 as [|a b l bs Hab _ IH]; intros i b' Hi.
  - destruct i; discriminate.
  - destruct i as [|i]; simpl in *; [injection Hi as <-; eauto | apply IH; exact Hi].
Qed.

Lemma Forall2_nth_error_l {A B : Type} (R : A -> B -> Prop) (l : list A) (bs : list B) :
  Forall2 R l bs ->
  forall i a, nth_error l i = Some a -> exists b, nth_error bs i = Some b /\ R a b.
Proof.
  induction 1 as [|a b l bs Hab _ IH]; intros i a' Hi.
  - destruct i; discriminate.
  - destruct i as [|i]; simpl in *; [injection Hi as <-; eauto | apply IH; exact Hi].
Qed.

Lemma nth_error_seq (a n i : nat) :
  (i < n)%nat -> nth_error (seq a n) i = Some (a + i)%nat.
Proof.
  revert a i. induction n as [|n IH]; intros a i Hi; [lia|].
  destruct i as [|i]; simpl; [f_equal; lia|].
  rewrite IH by lia. f_equal. lia.
Qed.

Lemma nth_error_seq_some (a n i j : nat) :
  nth_error (seq a n) i = Some j -> j = (a + i)%nat /\ (i < n)%nat.
Proof.
  intros H. assert (Hi : (i < n)%nat).
  { rewrite <- (length_seq n a). apply nth_error_Some. congruence. }
  rewrite nth_error_seq in H by exact Hi. injection H as <-. auto.
Qed.

(** The element at offset [j] of the frame [i] in the concatenation. *)
Lemma nth_error_frames (k : Kanji) (id_base : string) (n : nat) :
  forall a frames i els j,
    Forall2 (is_frame k id_base) (seq a n) frames ->
    nth_error frames i = Some els ->
    (j < List.length els)%nat ->
    exists off,
      (2 * off = i * (2 * a + i + 3))%nat /\
      nth_error (List.concat frames) (off + j) = nth_error els j.
Proof.
  induction n as [|n IH]; intros a frames i els j H Hi Hj; cbn [seq] in H.
  - inversion H; subst. destruct i; discriminate.
  - inversion H as [|? els0 ? frames' Hels Hfs]; subst.
    destruct i as [|i]; simpl in Hi.
    + injection Hi as ->. exists O. split; [lia|]. cbn [List.concat].
      rewrite nth_error_app1 by exact Hj. reflexivity.
    + destruct (IH _ _ _ _ _ Hfs Hi Hj) as (off & Hoff & Hnth).
      destruct (count_frame _ _ _ _ _ _ Hels) as (_ & _ & Hlen).
      exists (List.length els0 + off)%nat. split; [rewrite Hlen; nia|].
      cbn [List.concat]. rewrite nth_error_app2 by lia.
      replace (List.length els0 + off + j - List.length els0)%nat with (off + j)%nat by lia.
      exact Hnth.
Qed.

(** ** The claims on make_diagram *)




Example three_strokes_counts :
  count_tag "path" (d_base (diagram_of three_strokes)) = 6%nat /\
  count_tag "circle" (d_base (diagram_of three_strokes)) = 3%nat.
Proof. split; vm_compute; reflexivity. Qed.

(** The canvas for [n] strokes, by the number of strokes: one cell more
    than the strokes in the first row, one row more than the full rows. *)
Lemma canvas_by_count (n : nat) :
  canvas_width n
  = (if Z.of_nat n <? 6 then kanjivg_width * (Z.of_nat n + 1)
     else kanjivg_width * 6) /\
  canvas_height n = kanjivg_height * (Z.of_nat n / 6 + 1).
Proof.
  unfold canvas_width, canvas_height, frame_row, frame_col, boxes_per_line.
  split; [|reflexivity].
  destruct (Z.ltb_spec (Z.of_nat n) 6) as [Hlt|Hge].
  - rewrite Z.div_small, Z.mod_small by lia. reflexivity.
  - destruct (Z.eqb_spec (Z.of_nat n / 6) 0) as [E|E]; [|reflexivity].
    exfalso. apply Z.div_small_iff in E; lia.
Qed.

(** C9. With eight strokes the last frame, frame 7, is drawn at row 1,
    column 1, and the canvas is 6 cells wide and 2 cells high. *)
Theorem make_diagram_eight_strokes (k : Kanji) (out : Diagram) :
  List.length (paths k) = 8%nat ->
  make_diagram k = Ok out ->
  (exists id_base frames last,
     d_base out = List.concat frames /\
     List.length frames = 8%nat /\
     nth_error frames 7 = Some last /\
     is_frame_at k id_base 1 1 7 last) /\
  lookup "width" (d_attrib out)
  = Some (PyStr.str_of_int (kanjivg_width * 6)) /\
  lookup "height" (d_attrib out)
  = Some (PyStr.str_of_int (kanjivg_height * 2)) /\
  lookup "viewBox" (d_attrib out)
  = Some ("0 0 " ++ PyStr.str_of_int (kanjivg_width * 6) ++ " " ++
          PyStr.str_of_int (kanjivg_height * 2)).
Proof.
  intros H8 Hout.
  destruct (make_diagram_canvas k out Hout) as (Hw & Hh & Hv).
  rewrite H8 in Hw, Hh, Hv.
  split; [|split; [exact Hw | split; [exact Hh | exact Hv]]].
  apply make_diagram_ok in Hout as (id_base & frames & labels & _ & Hf & _ & ->).
  rewrite H8 in Hf.
  destruct (Forall2_nth_error_l _ _ _ Hf 7%nat 7%nat eq_refl) as (last & Hlast & Hfr).
  exists id_base, frames, last. cbn [d_base].
  split; [reflexivity|]. split; [|split; [exact Hlast | exact Hfr]].
  rewrite <- (Forall2_length Hf). reflexivity.
Qed.

Lemma make_diagram_eight_strokes_witness :
  (exists id_base frames last,
     d_base (diagram_of eight_strokes) = List.concat frames /\
     List.length frames = 8%nat /\
     nth_error frames 7 = Some last /\
     is_frame_at eight_strokes id_base 1 1 7 last) /\
  lookup "width" (d_attrib (diagram_of eight_strokes))
  = Some (PyStr.str_of_int (kanjivg_width * 6)) /\
  lookup "height" (d_attrib (diagram_of eight_strokes))
  = Some (PyStr.str_of_int (kanjivg_height * 2)) /\
  lookup "viewBox" (d_attrib (diagram_of eight_strokes))
  = Some ("0 0 " ++ PyStr.str_of_int (kanjivg_width * 6) ++ " " ++
          PyStr.str_of_int (kanjivg_height * 2)).
Proof.
  apply (make_diagram_eight_strokes eight_strokes (diagram_of eight_strokes)).
  - reflexivity.
  - vm_compute. reflexivity.
Defined.

Example eight_strokes_canvas :
  d_attrib (diagram_of eight_strokes)
  = [("width", "654"); ("height", "218"); ("viewBox", "0 0 654 218")].
Proof. vm_compute. reflexivity. Qed.

(** C1. With three strokes the last frame is at row 0, column 2, and the
    width [make_diagram] sets is that of four cells, not of three: after
    the loop [cur_col] is the column of the frame that would come next. *)
Theorem make_diagram_three_strokes_canvas :
  List.length (paths three_strokes) = 3%nat /\
  frame_row 2 = 0 /\ frame_col 2 = 2 /\
  exists out,
    make_diagram three_strokes = Ok out /\
    lookup "width" (d_attrib out)
    = Some (PyStr.str_of_int (kanjivg_width * 4)) /\
    lookup "width" (d_attrib out)
    <> Some (PyStr.str_of_int (kanjivg_width * (frame_col 2 + 1))) /\
    lookup "height" (d_attrib out)
    = Some (PyStr.str_of_int (kanjivg_height * 1)) /\
    lookup "viewBox" (d_attrib out) = Some "0 0 436 109".
Proof.
  split; [reflexivity|]. split; [reflexivity|]. split; [reflexivity|].
  exists (diagram_of three_strokes).
  split; [vm_compute; reflexivity|].
  split; [vm_compute; reflexivity|].
  split; [vm_compute; discriminate|].
  split; vm_compute; reflexivity.
Qed.

(** With six strokes the canvas is two rows high, the second one empty. *)
Example six_strokes_canvas :
  canvas_width 6 = kanjivg_width * 6 /\ canvas_height 6 = kanjivg_height * 2.
Proof. split; reflexivity. Qed.




(** * Further properties *)

(** ** One pass over a path *)

Lemma span_append (p : ascii -> bool) (s : string) :
  s = fst (PyStr.span p s) ++ snd (PyStr.span p s).
Proof.
  induction s as [|c r IH]; simpl; [reflexivity|].
  destruct (p c); [|reflexivity].
  destruct (PyStr.span p r) as [a b]. simpl in *. rewrite <- IH. reflexivity.
Qed.

Lemma string_drop_append (a b : string) :
  string_drop (String.length a) (a ++ b) = b.
Proof. induction a as [|c a IH]; simpl; [destruct b; reflexivity | exact IH]. Qed.

Lemma substring_all (b : string) : substring 0 (String.length b) b = b.
Proof. induction b as [|c b IH]; simpl; [reflexivity | rewrite IH; reflexivity]. Qed.

Lemma substring_suffix (a b : string) :
  substring (String.length a) (String.length b) (a ++ b) = b.
Proof. induction a as [|c a IH]; simpl; [apply substring_all | exact IH]. Qed.

Lemma len_append (a b : string) : PyStr.len (a ++ b) = PyStr.len a + PyStr.len b.
Proof. unfold PyStr.len. rewrite length_append. lia. Qed.

Lemma len_nonneg (a : string) : 0 <= PyStr.len a.
Proof. unfold PyStr.len. lia. Qed.

(** Replacing the middle of three parts. *)
Lemma splice_middle (a g b t : string) :
  splice (a ++ g ++ b) (PyStr.len a) (PyStr.len a + PyStr.len g) t = a ++ t ++ b.
Proof.
  unfold splice, PyStr.slice, PyStr.norm_index.
  pose proof (len_nonneg a). pose proof (len_nonneg g). pose proof (len_nonneg b).
  rewrite !len_append.
  destruct (Z.ltb_spec 0 0); [lia|].
  destruct (Z.ltb_spec (PyStr.len a) 0); [lia|].
  destruct (Z.ltb_spec (PyStr.len a + PyStr.len g) 0); [lia|].
  f_equal; [|f_equal].
  - replace (Z.to_nat (Z.min 0 (PyStr.len a + (PyStr.len g + PyStr.len b)))) with O by lia.
    replace (Z.to_nat (Z.min (PyStr.len a) (PyStr.len a + (PyStr.len g + PyStr.len b)) -
                       Z.min 0 (PyStr.len a + (PyStr.len g + PyStr.len b))))
      with (String.length a) by (unfold PyStr.len in *; lia).
    apply substring_prefix.
  - replace (Z.to_nat (Z.min (PyStr.len a + PyStr.len g)
                         (PyStr.len a + (PyStr.len g + PyStr.len b))))
      with (String.length (a ++ g)) by (rewrite length_append; unfold PyStr.len in *; lia).
    replace (Z.to_nat (PyStr.len a + (PyStr.len g + PyStr.len b) -
                       Z.min (PyStr.len a + PyStr.len g)
                         (PyStr.len a + (PyStr.len g + PyStr.len b))))
      with (String.length b) by (unfold PyStr.len in *; lia).
    rewrite <- append_assoc. apply substring_suffix.
Qed.

(** One iteration splices the text of its run into [d]. *)
Lemma shift_run_text (xs ys ol : Z) (m : Match) (st st' : sp_state) :
  shift_run xs ys ol m st = Ok st' ->
  exists t,
    run_text xs ys (m_group m) = Ok t /\
    sp_d st' = splice (sp_d st) (m_start m + pos_shift st)
                 (m_end m + pos_shift st) t /\
    pos_shift st' = PyStr.len (sp_d st') - ol.
Proof.
  unfold shift_run, run_text. destruct (m_group m) as [|c p]; [discriminate|].
  destruct (Ascii.eqb c "M").
  { intros H. apply bind_ok in H as (parts & -> & H). cbn [bind].
    destruct parts as [|sx [|sy [|]]]; try discriminate.
    apply bind_ok in H as (u & -> & H). apply bind_ok in H as (v & -> & H).
    injection H as <-. cbn [bind sp_d pos_shift]. eauto. }
  destruct (Ascii.eqb c "C").
  { intros H. apply bind_ok in H as (parts & -> & H). cbn [bind].
    destruct (negb _); [discriminate|].
    apply bind_ok in H as (t & -> & H). injection H as <-.
    cbn [sp_d pos_shift]. eauto. }
  destruct (Ascii.eqb c "S").
  { intros H. apply bind_ok in H as (parts & -> & H). cbn [bind].
    destruct (negb _); [discriminate|].
    apply bind_ok in H as (t & -> & H). injection H as <-.
    cbn [sp_d pos_shift]. eauto. }
  discriminate.
Qed.

Lemma run_text_shift_run (xs ys ol : Z) (m : Match) (st : sp_state) (t : string) :
  run_text xs ys (m_group m) = Ok t ->
  exists st', shift_run xs ys ol m st = Ok st'.
Proof.
  unfold shift_run, run_text. destruct (m_group m) as [|c p]; [discriminate|].
  destruct (Ascii.eqb c "M").
  { intros H. apply bind_ok in H as (parts & -> & H). cbn [bind].
    destruct parts as [|sx [|sy [|]]]; try discriminate.
    apply bind_ok in H as (u & -> & H). apply bind_ok in H as (v & -> & H).
    cbn [bind]. eauto. }
  destruct (Ascii.eqb c "C").
  { intros H. apply bind_ok in H as (parts & -> & H). cbn [bind].
    destruct (negb _); [discriminate|]. rewrite H. cbn [bind]. eauto. }
  destruct (Ascii.eqb c "S").
  { intros H. apply bind_ok in H as (parts & -> & H). cbn [bind].
    destruct (negb _); [discriminate|]. rewrite H. cbn [bind]. eauto. }
  discriminate.
Qed.

(** The loop of [shift_path] on the rest [s] of the path, when [out] has
    been written for the text before it: [pos_shift] makes the positions
    of the matches, taken in the path as it was, positions in [d] as it
    is. *)
Lemma shift_runs_rewrite (xs ys ol : Z) (s : string) :
  forall pos skip out st st',
    ol = pos + PyStr.len s ->
    sp_d st = out ++ string_drop skip s ->
    pos_shift st = PyStr.len out - (pos + Z.of_nat skip) ->
    for_each (finditer_from pos skip s) (shift_run xs ys ol) st = Ok st' ->
    exists rest, rewrite_from xs ys skip s = Ok rest /\ sp_d st' = out ++ rest.
Proof.
  induction s as [|c r IH]; intros pos skip out st st' Hol Hd Hps Hrun.
  - simpl in Hrun. injection Hrun as <-. exists "". split; [reflexivity|].
    rewrite Hd. destruct skip; reflexivity.
  - assert (Hlen : PyStr.len (String c r) = 1 + PyStr.len r)
      by (unfold PyStr.len; cbn [String.length]; lia).
    cbn [finditer_from rewrite_from] in *. destruct skip as [|k].
    + destruct (PyStr.is_upper c) eqn:Hup.
      * cbn [for_each] in Hrun. apply bind_ok in Hrun as (st1 & H1 & Hrun).
        apply shift_run_text in H1 as (t & Ht & Hd1 & Hps1).
        cbn [m_group m_start m_end] in Ht, Hd1.
        pose proof (span_append is_payload r) as Hr.
        destruct (PyStr.span is_payload r) as [p r2]. cbn [fst snd] in *.
        subst r. rewrite Ht. cbn [bind].
        assert (Hd1' : sp_d st1 = (out ++ t) ++ string_drop (String.length p) (p ++ r2)).
        { rewrite Hd1, Hd, Hps. cbn [string_drop].
          change (out ++ String c (p ++ r2)) with (out ++ String c p ++ r2).
          replace (pos + (PyStr.len out - (pos + Z.of_nat 0))) with (PyStr.len out)
            by lia.
          replace (pos + 1 + PyStr.len p + (PyStr.len out - (pos + Z.of_nat 0)))
            with (PyStr.len out + PyStr.len (String c p))
            by (unfold PyStr.len; cbn [String.length]; lia).
          rewrite splice_middle, append_assoc, string_drop_append. reflexivity. }
        destruct (IH (pos + 1) (String.length p) (out ++ t) st1 st')
          as (rest & Hrest & Hfin); [lia | exact Hd1' | | exact Hrun |].
        { rewrite Hps1, Hd1', string_drop_append, Hol, Hlen, !len_append.
          unfold PyStr.len. lia. }
        rewrite Hrest. cbn [bind]. exists (t ++ rest). split; [reflexivity|].
        rewrite Hfin, append_assoc. reflexivity.
      * destruct (IH (pos + 1) O (out ++ String c "") st st')
          as (rest & Hrest & Hfin); [lia | | | exact Hrun |].
        { rewrite Hd, append_assoc. reflexivity. }
        { rewrite Hps, len_append. unfold PyStr.len. cbn [String.length]. lia. }
        rewrite Hrest. cbn [bind]. exists (String c rest). split; [reflexivity|].
        rewrite Hfin, append_assoc. reflexivity.
    + destruct (IH (pos + 1) k out st st')
        as (rest & Hrest & Hfin); [lia | exact Hd | | exact Hrun |].
      { rewrite Hps. lia. }
      exists rest. split; [exact Hrest | exact Hfin].
Qed.

Lemma rewrite_from_runs (xs ys : Z) (s : string) :
  forall pos skip rest m,
    rewrite_from xs ys skip s = Ok rest ->
    In m (finditer_from pos skip s) ->
    exists t, run_text xs ys (m_group m) = Ok t.
Proof.
  induction s as [|c r IH]; intros pos skip rest m Hrw Hin; [contradiction|].
  cbn [finditer_from rewrite_from] in *. destruct skip as [|k].
  - destruct (PyStr.is_upper c).
    + apply bind_ok in Hrw as (t & Ht & Hrw).
      apply bind_ok in Hrw as (rest' & Hrest & _).
      destruct Hin as [<-|Hin]; [eauto | eapply IH; eauto].
    + apply bind_ok in Hrw as (rest' & Hrest & _). eapply IH; eauto.
  - eapply IH; eauto.
Qed.

(** X1: the position bookkeeping of [shift_path] is right. The string it
    returns is the path rewritten in one pass from left to right: every
    run replaced by its translated text, in order, and every character
    outside the runs copied as it is. *)
Theorem shift_path_left_to_right (d : string) (row col : Z) (d' : string) :
  (exists x y, shift_path d row col = Ok (d', x, y)) <->
  rewrite_path d row col = Ok d'.
Proof.
  unfold shift_path, rewrite_path.
  set (xs := col * kanjivg_width). set (ys := row * kanjivg_height).
  set (st0 := Build_sp_state d None None 0).
  assert (Hinv : forall st',
            for_each (caps_finditer d) (shift_run xs ys (PyStr.len d)) st0 = Ok st' ->
            exists rest, rewrite_from xs ys O d = Ok rest /\ sp_d st' = rest).
  { intros st' Hrun.
    apply (shift_runs_rewrite xs ys (PyStr.len d) d 0 O "" st0 st'); auto. }
  split.
  - intros (x & y & H). apply bind_ok in H as (st & Hrun & H).
    injection H as <- _ _. destruct (Hinv st Hrun) as (rest & -> & ->). reflexivity.
  - intros Hrw.
    destruct (for_each_ok (caps_finditer d) (shift_run xs ys (PyStr.len d)))
      with (s := st0) as [st Hrun].
    { intros m s Hm.
      destruct (rewrite_from_runs xs ys d 0 O d' m Hrw Hm) as [t Ht].
      eapply run_text_shift_run. exact Ht. }
    rewrite Hrun. cbn [bind].
    destruct (Hinv st Hrun) as (rest & Hrest & ->).
    rewrite Hrw in Hrest. injection Hrest as <-. eauto.
Qed.

Example rewrite_path_example :
  rewrite_path "M0010.00,0020.0c1,2,3,4,5,6C1,2,3,4,5,6 z" 1 2
  = Ok "M228.0,129.0c1,2,3,4,5,6C219.00,111.00,221.00,113.00,223.00,115.00 z".
Proof. vm_compute. reflexivity. Qed.

(** *** Exceptions of shift_path *)

Lemma add_int_raise_class (x : PyFloat.float) (n : Z) (e : exn) :
  add_int x n = Raise e -> e = OverflowError.
Proof. unfold add_int. destruct (PyFloat.of_int n); congruence. Qed.

Lemma shift_cubic_raise (xs ys : Z) (n : nat) :
  forall parts tmp e, (List.length parts <= n)%nat ->
    shift_cubic xs ys parts tmp = Raise e -> e = OverflowError.
Proof.
  induction n as [|n IH]; intros parts tmp e Hn H.
  - destruct parts; simpl in *; [discriminate | lia].
  - destruct parts as [|p0 [|p1 [|p2 [|p3 [|p4 [|p5 rest]]]]]]; try discriminate.
    cbn [shift_cubic] in H.
    repeat (apply bind_raise in H as [H|(? & _ & H)];
            [eapply add_int_raise_class; exact H|]).
    eapply IH; [|exact H]. simpl in Hn. lia.
Qed.

Lemma shift_smooth_raise (xs ys : Z) (n : nat) :
  forall parts tmp e, (List.length parts <= n)%nat ->
    shift_smooth xs ys parts tmp = Raise e -> e = OverflowError.
Proof.
  induction n as [|n IH]; intros parts tmp e Hn H.
  - destruct parts; simpl in *; [discriminate | lia].
  - destruct parts as [|p0 [|p1 [|p2 [|p3 rest]]]]; try discriminate.
    cbn [shift_smooth] in H.
    repeat (apply bind_raise in H as [H|(? & _ & H)];
            [eapply add_int_raise_class; exact H|]).
    eapply IH; [|exact H]. simpl in Hn. lia.
Qed.

Lemma shift_run_raise_class (xs ys ol : Z) (m : Match) (st : sp_state) (e : exn) :
  m_group m <> EmptyString ->
  shift_run xs ys ol m st = Raise e -> e = ValueError \/ e = OverflowError.
Proof.
  unfold shift_run. destruct (m_group m) as [|c p]; [congruence|]. intros _.
  destruct (Ascii.eqb c "M").
  { intros H. apply bind_raise in H as [H|(parts & _ & H)];
      [left; eapply floats_of_raise; exact H|].
    destruct parts as [|sx [|sy [|]]]; try (left; congruence).
    apply bind_raise in H as [H|(a & _ & H)];
      [right; eapply add_int_raise_class; exact H|].
    apply bind_raise in H as [H|(b & _ & H)];
      [right; eapply add_int_raise_class; exact H | discriminate]. }
  destruct (Ascii.eqb c "C").
  { intros H. apply bind_raise in H as [H|(parts & _ & H)];
      [left; eapply floats_of_raise; exact H|].
    destruct (negb _); [left; congruence|].
    apply bind_raise in H as [H|(t & _ & H)]; [|discriminate].
    right. eapply shift_cubic_raise; [apply Nat.le_refl | exact H]. }
  destruct (Ascii.eqb c "S").
  { intros H. apply bind_raise in H as [H|(parts & _ & H)];
      [left; eapply floats_of_raise; exact H|].
    destruct (negb _); [left; congruence|].
    apply bind_raise in H as [H|(t & _ & H)]; [|discriminate].
    right. eapply shift_smooth_raise; [apply Nat.le_refl | exact H]. }
  left. congruence.
Qed.

Lemma fits_float_dec (n : Z) : fits_float n \/ PyFloat.of_int n = None.
Proof.
  unfold fits_float. destruct (PyFloat.of_int n); [left; discriminate | right; reflexivity].
Qed.

(** X2: [shift_path] raises nothing but a ValueError, which [gen_strokes]
    catches, or an OverflowError; the latter only when an offset is too
    large for a float. It never raises an IndexError or a KeyError. *)
Theorem shift_path_exceptions (d : string) (row col : Z) (e : exn) :
  shift_path d row col = Raise e ->
  e = ValueError \/ (e = OverflowError /\ ~ offsets_fit row col).
Proof.
  intros H.
  destruct (fits_float_dec (col * kanjivg_width)) as [Hx|Hx];
    [destruct (fits_float_dec (row * kanjivg_height)) as [Hy|Hy]|].
  - left. exact (shift_path_raise d row col e (conj Hx Hy) H).
  - assert (Hno : ~ offsets_fit row col) by (intros [_ Hf]; apply Hf; exact Hy).
    unfold shift_path in H. apply bind_raise in H as [H|(st & _ & H)]; [|discriminate].
    apply (for_each_raise_class (fun e0 => e0 = ValueError \/ e0 = OverflowError) _ _) in H.
    + destruct H as [->| ->]; auto.
    + intros m st e' Hm He'. eapply shift_run_raise_class; [|exact He'].
      eapply finditer_group_nonempty. exact Hm.
  - assert (Hno : ~ offsets_fit row col) by (intros [Hf _]; apply Hf; exact Hx).
    unfold shift_path in H. apply bind_raise in H as [H|(st & _ & H)]; [|discriminate].
    apply (for_each_raise_class (fun e0 => e0 = ValueError \/ e0 = OverflowError) _ _) in H.
    + destruct H as [->| ->]; auto.
    + intros m st e' Hm He'. eapply shift_run_raise_class; [|exact He'].
      eapply finditer_group_nonempty. exact Hm.
Qed.

Lemma shift_path_exceptions_witness :
  ValueError = ValueError \/ (ValueError = OverflowError /\ ~ offsets_fit 0 0).
Proof.
  apply (shift_path_exceptions "M1,2,3" 0 0 ValueError). vm_compute. reflexivity.
Defined.

Example shift_path_overflow :
  shift_path "M1,2" 0 (10 ^ 400) = Raise OverflowError.
Proof. vm_compute. reflexivity. Qed.

(** X3: a path [shift_path] accepts in one cell is accepted in every cell
    whose offsets a float can hold: whether a path is accepted does not
    depend on where it is drawn. *)
Theorem shift_path_accepted_everywhere (d : string) (row col row' col' : Z)
  (r : string * option PyFloat.float * option PyFloat.float) :
  shift_path d row col = Ok r ->
  offsets_fit row' col' ->
  exists r', shift_path d row' col' = Ok r'.
Proof.
  intros H Hfit. apply shift_path_accepts; [exact Hfit|].
  eapply shift_path_ok_runs. exact H.
Qed.

Lemma shift_path_accepted_everywhere_witness :
  exists r', shift_path "M10,20C1,2,3,4,5,6" 3 5 = Ok r'.
Proof.
  apply (shift_path_accepted_everywhere "M10,20C1,2,3,4,5,6" 0 0 3 5
           ("M10.0,20.0C1.00,2.00,3.00,4.00,5.00,6.00",
            PyFloat.of_string "10", PyFloat.of_string "20")).
  - vm_compute. reflexivity.
  - split; unfold fits_float; vm_compute; discriminate.
Defined.

(** X4: the paths [shift_path] accepts are those whose runs are all well
    formed: an M run with two numbers, a C run with a multiple of six
    numbers, an S run with a multiple of four, and no other run. *)
Theorem shift_path_accepts_well_formed (d : string) (row col : Z) :
  offsets_fit row col ->
  ((exists r, shift_path d row col = Ok r) <->
   Forall (fun s => run_ok s = true) (runs d)).
Proof.
  intros Hfit. split.
  - intros [r Hr]. eapply shift_path_ok_runs. exact Hr.
  - apply shift_path_accepts. exact Hfit.
Qed.

Lemma shift_path_accepts_well_formed_witness :
  (exists r, shift_path "M10,20C1,2,3,4,5,6S1,2,3,4z" 1 2 = Ok r) <->
  Forall (fun s => run_ok s = true) (runs "M10,20C1,2,3,4,5,6S1,2,3,4z").
Proof.
  apply (shift_path_accepts_well_formed "M10,20C1,2,3,4,5,6S1,2,3,4z" 1 2).
  split; unfold fits_float; vm_compute; discriminate.
Defined.

(** X5: an M run that does not hold exactly two numbers makes
    [shift_path] raise ValueError. *)
Theorem shift_path_rejects_move_count (d : string) (row col : Z)
  (payload : string) :
  offsets_fit row col ->
  In (String "M" payload) (runs d) ->
  numeric_count "," payload <> 2%nat ->
  shift_path d row col = Raise ValueError.
Proof.
  intros Hfit Hin Hcount.
  apply (shift_path_rejects_run d row col _ Hfit Hin).
  intros m st Hg. unfold shift_run. rewrite Hg. simpl.
  destruct (floats_of payload) as [parts|e] eqn:Hparts; simpl.
  - destruct (numeric_count_ok _ _ Hparts) as [Hn _]. rewrite Hn in Hcount.
    destruct parts as [|sx [|sy [|]]]; try reflexivity. simpl in Hcount. lia.
  - f_equal. eapply floats_of_raise. exact Hparts.
Qed.

Lemma shift_path_rejects_move_count_witness :
  shift_path "M10,20,30c1,2" 0 0 = Raise ValueError.
Proof.
  apply (shift_path_rejects_move_count "M10,20,30c1,2" 0 0 "10,20,30").
  - exact offsets_fit_0.
  - vm_compute. left. reflexivity.
  - vm_compute. discriminate.
Defined.

Lemma finditer_no_upper (s : string) :
  forall pos,
    (forall c, occurs c s -> PyStr.is_upper c = false) ->
    finditer_from pos O s = [].
Proof.
  induction s as [|c r IH]; intros pos H; [reflexivity|].
  cbn [finditer_from]. rewrite (H c) by (left; reflexivity).
  apply IH. intros c' Hc'. apply H. right. exact Hc'.
Qed.

(** X6: a path without uppercase letter, as one made of relative commands
    only, is returned as it is, with no start point, whatever the
    offsets. *)
Theorem shift_path_no_upper (d : string) (row col : Z) :
  (forall c, occurs c d -> PyStr.is_upper c = false) ->
  shift_path d row col = Ok (d, None, None).
Proof.
  intros H. unfold shift_path, caps_finditer.
  rewrite (finditer_no_upper d 0 H). reflexivity.
Qed.

Lemma shift_path_no_upper_witness :
  shift_path "m1,2c3,4,5,6,7,8 z" 7 (10 ^ 400)
  = Ok ("m1,2c3,4,5,6,7,8 z", None, None).
Proof.
  apply (shift_path_no_upper "m1,2c3,4,5,6,7,8 z" 7 (10 ^ 400)).
  intros c Hc. unfold occurs in Hc. simpl in Hc.
  repeat (destruct Hc as [<-|Hc]; [reflexivity|]). contradiction.
Defined.

Lemma shift_run_first (xs ys ol : Z) (m : Match) (st st' : sp_state) :
  shift_run xs ys ol m st = Ok st' ->
  (first_x st = None <-> first_y st = None) ->
  (first_x st' = None <-> first_y st' = None) /\
  (first_x st' = None <-> first_x st = None /\ is_move (m_group m) = false).
Proof.
  intros H Hxy. destruct (is_move (m_group m)) eqn:Hmove.
  - unfold shift_run in H. unfold is_move in Hmove.
    destruct (m_group m) as [|c p]; [discriminate|]. rewrite Hmove in H.
    apply bind_ok in H as (parts & _ & H).
    destruct parts as [|sx [|sy [|]]]; try discriminate.
    apply bind_ok in H as (u & _ & H). apply bind_ok in H as (v & _ & H).
    injection H as <-. cbn [first_x first_y].
    destruct (first_x st) as [a|].
    + split; [exact Hxy|]. split; [discriminate | intros [_ ?]; discriminate].
    + split; split; try discriminate. intros [_ ?]; discriminate.
  - destruct (shift_run_no_move _ _ _ _ _ _ Hmove H) as [-> ->].
    split; [exact Hxy | tauto].
Qed.

(** X7: a path [shift_path] accepts has a start point exactly when it has
    an M run; the two coordinates are present or absent together. *)
Theorem shift_path_start_iff_move (d : string) (row col : Z) (d' : string)
  (x y : option PyFloat.float) :
  shift_path d row col = Ok (d', x, y) ->
  (x = None <-> Forall (fun s => is_move s = false) (runs d)) /\
  (x = None <-> y = None).
Proof.
  unfold shift_path, runs. intros H. apply bind_ok in H as (st & Hrun & H).
  injection H as _ <- <-.
  set (st0 := Build_sp_state d None None 0) in Hrun.
  assert (Hgen : forall l s s',
            for_each l (shift_run (col * kanjivg_width) (row * kanjivg_height)
                          (PyStr.len d)) s = Ok s' ->
            (first_x s = None <-> first_y s = None) ->
            (first_x s' = None <-> first_y s' = None) /\
            (first_x s' = None <->
             first_x s = None /\ Forall (fun t => is_move t = false) (map m_group l))).
  { induction l as [|m l IH]; intros s s' Hl Hxy.
    - simpl in Hl. injection Hl as <-. split; [exact Hxy|].
      split; [intros ?; split; [assumption | constructor] | intros [? _]; assumption].
    - cbn [for_each] in Hl. apply bind_ok in Hl as (s1 & H1 & Hl).
      destruct (shift_run_first _ _ _ _ _ _ H1 Hxy) as [Hxy1 Hm].
      destruct (IH _ _ Hl Hxy1) as [Hxy' Hl'].
      split; [exact Hxy'|]. rewrite Hl', Hm. cbn [map]. split.
      + intros [[? ?] ?]. split; [assumption | constructor; assumption].
      + intros [? Hall]. inversion Hall; subst. auto. }
  destruct (Hgen _ _ _ Hrun) as [Hxy Hx]; [simpl; tauto|].
  split; [|exact Hxy]. rewrite Hx. simpl. tauto.
Qed.

Lemma shift_path_start_iff_move_witness :
  (PyFloat.of_string "119" = None <->
   Forall (fun s => is_move s = false) (runs "C1,2,3,4,5,6M10,20")) /\
  (PyFloat.of_string "119" = None <-> PyFloat.of_string "20" = None).
Proof.
  apply (shift_path_start_iff_move "C1,2,3,4,5,6M10,20" 0 1
           "C110.00,2.00,112.00,4.00,114.00,6.00M119.0,20.0").
  vm_compute. reflexivity.
Defined.

(** *** shift_transform *)

Lemma shift_transform_tokens (mat : string) (row col : Z) :
  shift_transform mat row col =
  (p4 <- index (transform_tokens mat) 4 ;;
   x4 <- float_of_str p4 ;;
   e <- add_int x4 (col * kanjivg_width) ;;
   p5 <- index (transform_tokens mat) 5 ;;
   x5 <- float_of_str p5 ;;
   f <- add_int x5 (row * kanjivg_width) ;;
   Ok ("matrix(1 0 0 1 " ++ fmt2 e ++ " " ++ fmt2 f ++ ")")).
Proof. reflexivity. Qed.

Lemma shift_transform_ok_iff (mat : string) (row col : Z) :
  offsets_fit row col ->
  ((exists s, shift_transform mat row col = Ok s) <->
   malformed_tokens (transform_tokens mat) = false).
Proof.
  intros [Hfx Hfy]. rewrite shift_transform_tokens.
  unfold malformed_tokens, token_numeric, index.
  set (tokens := transform_tokens mat).
  destruct (nth_error tokens 4) as [t4|] eqn:H4; cbn [bind].
  2:{ rewrite orb_true_r. simpl. split; [intros [s H]; discriminate | discriminate]. }
  destruct (numeric t4) eqn:Hn4.
  2:{ rewrite (numeric_false _ Hn4). cbn [bind]. rewrite orb_true_r. simpl.
      split; [intros [s H]; discriminate | discriminate]. }
  destruct (numeric_true _ Hn4) as (x4 & _ & ->). cbn [bind].
  destruct (add_int_ok x4 _ Hfx) as (ce & _ & ->). cbn [bind].
  destruct (nth_error tokens 5) as [t5|] eqn:H5; cbn [bind].
  2:{ rewrite orb_true_r. split; [intros [s H]; discriminate | discriminate]. }
  destruct (numeric t5) eqn:Hn5.
  2:{ rewrite (numeric_false _ Hn5). cbn [bind]. rewrite orb_true_r.
      split; [intros [s H]; discriminate | discriminate]. }
  destruct (numeric_true _ Hn5) as (x5 & _ & ->). cbn [bind].
  change (row * kanjivg_width) with (row * kanjivg_height).
  destruct (add_int_ok x5 _ Hfy) as (cf & _ & ->). cbn [bind].
  split; [intros _ | eauto].
  simpl. rewrite !orb_false_r. apply Nat.ltb_ge.
  assert (5 < List.length tokens)%nat by (apply nth_error_Some; congruence). lia.
Qed.

(** X8: [shift_transform] returns exactly when the payload has six tokens
    at least and the fifth and the sixth are numbers. *)
Theorem shift_transform_accepts (mat : string) (row col : Z) :
  offsets_fit row col ->
  ((exists s, shift_transform mat row col = Ok s) <->
   malformed_tokens (transform_tokens mat) = false).
Proof.
  exact (shift_transform_ok_iff mat row col).
Qed.

Lemma shift_transform_accepts_witness :
  (exists s, shift_transform "matrix(x y 1 1 30 40 50)" 2 3 = Ok s) <->
  malformed_tokens (transform_tokens "matrix(x y 1 1 30 40 50)") = false.
Proof.
  apply (shift_transform_accepts "matrix(x y 1 1 30 40 50)" 2 3).
  split; unfold fits_float; vm_compute; discriminate.
Defined.

(** X9: [shift_transform] raises an IndexError, which [gen_strokes] does
    not catch, exactly when the fifth token is missing, or the fifth is a
    number and the sixth is missing. *)
Theorem shift_transform_index_error (mat : string) (row col : Z) :
  offsets_fit row col ->
  (shift_transform mat row col = Raise IndexError <->
   (List.length (transform_tokens mat) <= 4)%nat \/
   (List.length (transform_tokens mat) = 5%nat /\
    token_numeric (transform_tokens mat) 4 = true)).
Proof.
  intros [Hfx Hfy]. rewrite shift_transform_tokens.
  unfold token_numeric, index. set (tokens := transform_tokens mat).
  destruct (nth_error tokens 4) as [t4|] eqn:H4; cbn [bind].
  2:{ apply nth_error_None in H4. split; [intros _; left; exact H4 | reflexivity]. }
  assert (Hl4 : (4 < List.length tokens)%nat) by (apply nth_error_Some; congruence).
  destruct (numeric t4) eqn:Hn4.
  2:{ rewrite (numeric_false _ Hn4). cbn [bind].
      split; [discriminate | intros [?|[_ ?]]; [lia | discriminate]]. }
  destruct (numeric_true _ Hn4) as (x4 & _ & ->). cbn [bind].
  destruct (add_int_ok x4 _ Hfx) as (ce & _ & ->). cbn [bind].
  destruct (nth_error tokens 5) as [t5|] eqn:H5; cbn [bind].
  2:{ apply nth_error_None in H5. split; [intros _; right; split; [lia | reflexivity] | reflexivity]. }
  assert (Hl5 : (5 < List.length tokens)%nat) by (apply nth_error_Some; congruence).
  destruct (float_of_str t5) as [x5|e5] eqn:Hx5; cbn [bind].
  - change (row * kanjivg_width) with (row * kanjivg_height).
    destruct (add_int_ok x5 _ Hfy) as (cf & _ & ->). cbn [bind].
    split; [discriminate | intros [?|[? _]]; lia].
  - apply float_of_str_raise in Hx5 as ->.
    split; [discriminate | intros [?|[? _]]; lia].
Qed.

Lemma shift_transform_index_error_witness :
  shift_transform "matrix(1 0 0 1 5)" 0 0 = Raise IndexError <->
  (List.length (transform_tokens "matrix(1 0 0 1 5)") <= 4)%nat \/
  (List.length (transform_tokens "matrix(1 0 0 1 5)") = 5%nat /\
   token_numeric (transform_tokens "matrix(1 0 0 1 5)") 4 = true).
Proof.
  apply (shift_transform_index_error "matrix(1 0 0 1 5)" 0 0). exact offsets_fit_0.
Defined.

Lemma substring_skip (pre s : string) (n : nat) :
  substring (String.length pre) n (pre ++ s) = substring 0 n s.
Proof. induction pre as [|a pre IH]; simpl; [reflexivity | exact IH]. Qed.

Lemma slice_payload (pre p : string) (c : ascii) :
  String.length pre = 7%nat ->
  PyStr.slice (pre ++ p ++ String c "") (Some 7) (Some (-1)) = p.
Proof.
  intros Hpre. unfold PyStr.slice, PyStr.len, PyStr.norm_index.
  rewrite !length_append, Hpre. cbn [String.length].
  change (7 <? 0) with false. change (-1 <? 0) with true. cbv iota.
  replace (Z.to_nat (Z.min 7 (Z.of_nat (7 + (String.length p + 1)))))
    with (String.length pre) by lia.
  replace (Z.to_nat (Z.max (-1 + Z.of_nat (7 + (String.length p + 1))) 0 -
                     Z.min 7 (Z.of_nat (7 + (String.length p + 1)))))
    with (String.length p) by lia.
  rewrite substring_skip. apply substring_prefix.
Qed.

(** X10: [shift_transform] does not look at the seven characters before the
    payload nor at the last one: it never checks that the transform is a
    [matrix(...)]. *)
Theorem shift_transform_unchecked_name (pre payload : string) (c : ascii)
  (row col : Z) :
  String.length pre = 7%nat ->
  shift_transform (pre ++ payload ++ String c "") row col
  = shift_transform ("matrix(" ++ payload ++ ")") row col.
Proof.
  intros Hpre. rewrite !shift_transform_tokens. unfold transform_tokens.
  rewrite (slice_payload pre payload c Hpre), slice_matrix. reflexivity.
Qed.

Lemma shift_transform_unchecked_name_witness :
  shift_transform ("rotate[" ++ "1 2 3 4 5 6" ++ String "]" "") 1 1
  = shift_transform ("matrix(" ++ "1 2 3 4 5 6" ++ ")") 1 1.
Proof.
  apply (shift_transform_unchecked_name "rotate[" "1 2 3 4 5 6" "]" 1 1).
  reflexivity.
Defined.

(** *** Reading back what is written *)

Lemma forallb_append (f : ascii -> bool) (a b : string) :
  PyStr.forallb f (a ++ b) = PyStr.forallb f a && PyStr.forallb f b.
Proof.
  induction a as [|c a IH]; simpl; [reflexivity|]. rewrite IH, andb_assoc. reflexivity.
Qed.

Lemma forallb_impl (f g : ascii -> bool) (s : string) :
  (forall c, f c = true -> g c = true) ->
  PyStr.forallb f s = true -> PyStr.forallb g s = true.
Proof.
  intros Hfg. induction s as [|c s IH]; simpl; [reflexivity|].
  rewrite !andb_true_iff. intros [Hc Hs]. auto.
Qed.

Lemma digit_plain (c : ascii) : PyStr.is_digit c = true -> plain_char c = true.
Proof. destruct c as [[] [] [] [] [] [] [] []]; vm_compute; congruence. Qed.

Lemma strip_underscores_plain (s : string) :
  forall prev, Ascii.eqb prev "_" = false ->
    PyStr.forallb plain_char s = true ->
    PyFloat.strip_underscores prev s = Some s.
Proof.
  induction s as [|c s IH]; intros prev Hprev Hs; simpl.
  - rewrite Hprev. reflexivity.
  - simpl in Hs. apply andb_true_iff in Hs as [Hc Hs].
    unfold plain_char in Hc. apply andb_true_iff in Hc as [_ Hc].
    apply negb_true_iff in Hc. rewrite Hc, Hprev. simpl.
    rewrite (IH c Hc Hs). reflexivity.
Qed.

Lemma lstrip_plain (s : string) :
  PyStr.forallb plain_char s = true -> PyStr.lstrip s = s.
Proof.
  destruct s as [|c s]; simpl; [reflexivity|].
  intros H. apply andb_true_iff in H as [Hc _].
  unfold plain_char in Hc. apply andb_true_iff in Hc as [Hc _].
  apply negb_true_iff in Hc. rewrite Hc. reflexivity.
Qed.

Lemma rstrip_plain (s : string) :
  PyStr.forallb plain_char s = true -> PyStr.rstrip s = s.
Proof.
  induction s as [|c s IH]; simpl; [reflexivity|].
  intros H. apply andb_true_iff in H as [Hc Hs]. rewrite (IH Hs).
  unfold plain_char in Hc. apply andb_true_iff in Hc as [Hc _].
  apply negb_true_iff in Hc. rewrite Hc. destruct s; reflexivity.
Qed.

Lemma of_string_plain (s : string) :
  s <> "" -> PyStr.forallb plain_char s = true ->
  PyFloat.of_string s = PyFloat.parse_number s.
Proof.
  intros Hne Hs. unfold PyFloat.of_string.
  rewrite (strip_underscores_plain s "000" eq_refl Hs).
  rewrite (lstrip_plain s Hs), (rstrip_plain s Hs).
  destruct s; [congruence | reflexivity].
Qed.

Lemma span_digits (ip rest : string) :
  PyStr.forallb PyStr.is_digit ip = true ->
  (match rest with
   | EmptyString => true
   | String c _ => negb (PyStr.is_digit c)
   end) = true ->
  PyStr.span PyStr.is_digit (ip ++ rest) = (ip, rest).
Proof.
  intros Hip Hrest. induction ip as [|c ip IH]; simpl.
  - destruct rest as [|c r]; [reflexivity|]. simpl.
    apply negb_true_iff in Hrest. rewrite Hrest. reflexivity.
  - simpl in Hip. apply andb_true_iff in Hip as [Hc Hip].
    rewrite Hc, (IH Hip). reflexivity.
Qed.

Lemma append_empty (s : string) : s ++ "" = s.
Proof. induction s as [|c s IH]; simpl; [reflexivity | rewrite IH; reflexivity]. Qed.

Lemma digit_first_not_word (c : ascii) (r : string) :
  PyStr.is_digit c = true ->
  PyFloat.split_sign (String c r) = (false, String c r) /\
  String.eqb (PyStr.lower (String c r)) "inf" = false /\
  String.eqb (PyStr.lower (String c r)) "infinity" = false /\
  String.eqb (PyStr.lower (String c r)) "nan" = false.
Proof.
  destruct c as [[] [] [] [] [] [] [] []]; intros H; try (vm_compute in H; discriminate H);
    repeat split; reflexivity.
Qed.

(** A run of digits, a point and a run of digits is read as a number. *)
Lemma parse_unsigned_decimal (neg : bool) (ip fp : string) :
  ip <> "" ->
  PyStr.forallb PyStr.is_digit ip = true ->
  PyStr.forallb PyStr.is_digit fp = true ->
  (let '(ip', s2) := PyStr.span PyStr.is_digit (ip ++ "." ++ fp) in
   let '(fp', s3) :=
     match s2 with
     | String "." r => PyStr.span PyStr.is_digit r
     | _ => (EmptyString, s2)
     end in
   match ip' ++ fp' with
   | EmptyString => None
   | ds =>
       match PyFloat.parse_exponent s3 with
       | Some e =>
           Some (PyFloat.of_decimal neg (PyFloat.digits_to_N 0 ds)
                   (e - Z.of_nat (String.length fp')))
       | None => None
       end
   end) <> None.
Proof.
  intros Hne Hip Hfp.
  rewrite (span_digits ip ("." ++ fp) Hip eq_refl). cbn [append].
  pose proof (span_digits fp "" Hfp eq_refl) as Hs. rewrite append_empty in Hs.
  rewrite Hs. destruct ip as [|c ip]; [congruence|]. cbn [append].
  simpl PyFloat.parse_exponent. discriminate.
Qed.

Lemma parse_number_decimal (sign ip fp : string) :
  sign = "" \/ sign = "-" ->
  ip <> "" ->
  PyStr.forallb PyStr.is_digit ip = true ->
  PyStr.forallb PyStr.is_digit fp = true ->
  PyFloat.parse_number (sign ++ ip ++ "." ++ fp) <> None.
Proof.
  intros Hsign Hne Hip Hfp.
  destruct ip as [|c ip]; [congruence|].
  pose proof Hip as Hc. simpl in Hc. apply andb_true_iff in Hc as [Hc _].
  destruct (digit_first_not_word c (ip ++ "." ++ fp) Hc) as (Hs & H1 & H2 & H3).
  destruct Hsign as [-> | ->].
  - change (PyFloat.parse_number (String c (ip ++ "." ++ fp)) <> None).
    unfold PyFloat.parse_number. rewrite Hs, H1, H2, H3. cbn [orb].
    exact (parse_unsigned_decimal false (String c ip) fp Hne Hip Hfp).
  - change (PyFloat.parse_number (String "-" (String c (ip ++ "." ++ fp))) <> None).
    unfold PyFloat.parse_number. cbn [PyFloat.split_sign].
    rewrite H1, H2, H3. cbn [orb].
    exact (parse_unsigned_decimal true (String c ip) fp Hne Hip Hfp).
Qed.

Lemma decimals_plain (p : nat) (s : string) :
  decimals p s -> s <> "" /\ PyStr.forallb plain_char s = true /\ numeric s = true.
Proof.
  intros (sign & ip & fp & -> & Hsign & Hne & Hip & Hfp & _).
  assert (Hplain : PyStr.forallb plain_char (sign ++ ip ++ "." ++ fp) = true).
  { rewrite !forallb_append.
    rewrite (forallb_impl _ _ ip digit_plain Hip), (forallb_impl _ _ fp digit_plain Hfp).
    destruct Hsign as [-> | ->]; reflexivity. }
  assert (Hnonempty : sign ++ ip ++ "." ++ fp <> "").
  { destruct Hsign as [-> | ->]; [|discriminate].
    destruct ip; [congruence | discriminate]. }
  split; [exact Hnonempty|]. split; [exact Hplain|].
  unfold numeric. rewrite (of_string_plain _ Hnonempty Hplain).
  destruct (PyFloat.parse_number (sign ++ ip ++ "." ++ fp)) eqn:E; [reflexivity|].
  exfalso. exact (parse_number_decimal sign ip fp Hsign Hne Hip Hfp E).
Qed.

(** What ['{:.2f}'] writes, [float] reads, for every float: a number with
    two decimals, [inf], [-inf] or [nan]; and it holds no space. *)
Lemma fmt2_numeric (x : PyFloat.float) :
  numeric (fmt2 x) = true /\ no_space (fmt2 x) = true.
Proof.
  destruct (PyFloat.is_finite x) eqn:Hfin.
  - destruct (decimals_plain 2 (fmt2 x)) as (_ & Hplain & Hnum).
    { apply format_f_decimals; [exact Hfin | lia]. }
    split; [exact Hnum|]. unfold no_space.
    eapply forallb_impl; [|exact Hplain].
    intros c. destruct c as [[] [] [] [] [] [] [] []]; vm_compute; congruence.
  - destruct x as [s|[]| |s m e]; try discriminate; split; reflexivity.
Qed.

(** X11: what [shift_transform] returns is a transform it accepts, in every
    cell whose offsets a float can hold: the two numbers it writes are
    numbers it reads. *)
Theorem shift_transform_output_accepted (mat : string) (row col : Z) (s : string)
  (row' col' : Z) :
  shift_transform mat row col = Ok s ->
  offsets_fit row' col' ->
  exists s', shift_transform s row' col' = Ok s'.
Proof.
  intros H Hfit. rewrite shift_transform_tokens in H.
  apply bind_ok in H as (p4 & _ & H). apply bind_ok in H as (x4 & _ & H).
  apply bind_ok in H as (e & _ & H). apply bind_ok in H as (p5 & _ & H).
  apply bind_ok in H as (x5 & _ & H). apply bind_ok in H as (f & _ & H).
  injection H as <-.
  destruct (fmt2_numeric e) as [Hne Hse]. destruct (fmt2_numeric f) as [Hnf Hsf].
  apply (shift_transform_ok_iff _ row' col' Hfit).
  assert (Ht : transform_tokens ("matrix(1 0 0 1 " ++ fmt2 e ++ " " ++ fmt2 f ++ ")")
               = ["1"; "0"; "0"; "1"; fmt2 e; fmt2 f])
    by exact (transform_tokens_matrix "1" "0" "0" "1" (fmt2 e) (fmt2 f)
                eq_refl eq_refl eq_refl eq_refl Hse Hsf).
  change (malformed_tokens
            (transform_tokens ("matrix(1 0 0 1 " ++ fmt2 e ++ " " ++ fmt2 f ++ ")"))
          = false).
  rewrite Ht.
  unfold malformed_tokens, token_numeric. cbn [nth_error List.length].
  rewrite Hne, Hnf. reflexivity.
Qed.

Lemma shift_transform_output_accepted_witness :
  exists s', shift_transform "matrix(1 0 0 1 222.25 117.50)" 1 0 = Ok s'.
Proof.
  apply (shift_transform_output_accepted "matrix(0.5 2 -2 0.5 4.25 8.5)" 1 2
           "matrix(1 0 0 1 222.25 117.50)" 1 0).
  - vm_compute. reflexivity.
  - split; unfold fits_float; vm_compute; discriminate.
Defined.

(** *** make_diagram *)

(** X12: the canvas [make_diagram] sets for a glyph of [n] strokes: one cell
    more than the strokes when they are fewer than six, six cells
    otherwise, and one row more than the full rows of six strokes. *)
Theorem make_diagram_canvas_by_count (k : Kanji) (out : Diagram) :
  make_diagram k = Ok out ->
  let n := Z.of_nat (List.length (paths k)) in
  let w := if n <? 6 then kanjivg_width * (n + 1) else kanjivg_width * 6 in
  let h := kanjivg_height * (n / 6 + 1) in
  lookup "width" (d_attrib out) = Some (PyStr.str_of_int w) /\
  lookup "height" (d_attrib out) = Some (PyStr.str_of_int h) /\
  lookup "viewBox" (d_attrib out)
  = Some ("0 0 " ++ PyStr.str_of_int w ++ " " ++ PyStr.str_of_int h).
Proof.
  intros H. destruct (make_diagram_canvas k out H) as (Hw & Hh & Hv).
  destruct (canvas_by_count (List.length (paths k))) as [Ew Eh].
  cbv zeta. rewrite <- Ew, <- Eh. auto.
Qed.

Lemma make_diagram_canvas_by_count_witness :
  let n := Z.of_nat (List.length (paths three_strokes)) in
  let w := if n <? 6 then kanjivg_width * (n + 1) else kanjivg_width * 6 in
  let h := kanjivg_height * (n / 6 + 1) in
  lookup "width" (d_attrib (diagram_of three_strokes)) = Some (PyStr.str_of_int w) /\
  lookup "height" (d_attrib (diagram_of three_strokes)) = Some (PyStr.str_of_int h) /\
  lookup "viewBox" (d_attrib (diagram_of three_strokes))
  = Some ("0 0 " ++ PyStr.str_of_int w ++ " " ++ PyStr.str_of_int h).
Proof.
  apply (make_diagram_canvas_by_count three_strokes (diagram_of three_strokes)).
  vm_compute. reflexivity.
Defined.

Lemma count_labels (k : Kanji) (n : nat) :
  forall a labels,
    Forall2 (is_frame_labels k) (seq a n) labels ->
    (2 * List.length (List.concat labels) = n * (2 * a + n + 1))%nat.
Proof.
  induction n as [|n IH]; intros a labels H; cbn [seq] in H.
  - inversion H. reflexivity.
  - inversion H as [|? ls ? labels' Hls Hrest]; subst.
    pose proof (Forall2_length Hls) as Hlen. rewrite length_seq in Hlen.
    cbn [List.concat]. rewrite length_app, <- Hlen.
    specialize (IH _ _ Hrest). nia.
Qed.

(** X13: the stroke numbers: [make_diagram] writes, frame after frame, one
    text element for each stroke of the frame, N * (N + 1) / 2 in all; the
    element for the stroke [j] carries the translated transform of the
    label [j] and the text [j], counted from zero. *)
Theorem make_diagram_labels (k : Kanji) (out : Diagram) :
  make_diagram k = Ok out ->
  exists labels,
    d_numbers out = List.concat labels /\
    Forall2 (is_frame_labels k) (seq 0 (List.length (paths k))) labels /\
    List.length (d_numbers out)
    = (List.length (paths k) * (List.length (paths k) + 1) / 2)%nat /\
    (forall i j ls e, nth_error labels i = Some ls -> nth_error ls j = Some e ->
       tag e = "text" /\ text e = Some (PyStr.str_of_int (Z.of_nat j))).
Proof.
  intros H. apply make_diagram_ok in H as (id_base & frames & labels & _ & _ & Hl & ->).
  exists labels. cbn [d_numbers]. split; [reflexivity|]. split; [exact Hl|]. split.
  - pose proof (count_labels k _ _ _ Hl) as Hc.
    apply Nat.div_unique_exact; [lia|]. rewrite Hc. lia.
  - intros i j ls e Hi Hj.
    destruct (Forall2_nth_error _ _ _ Hl _ _ Hi) as (i' & _ & Hls).
    destruct (Forall2_nth_error _ _ _ Hls _ _ Hj) as (j' & Hj' & (n & t & mat & _ & _ & _ & ->)).
    apply nth_error_seq_some in Hj' as [-> _]. split; reflexivity.
Qed.

Lemma make_diagram_labels_witness :
  exists labels,
    d_numbers (diagram_of three_strokes) = List.concat labels /\
    Forall2 (is_frame_labels three_strokes)
      (seq 0 (List.length (paths three_strokes))) labels /\
    List.length (d_numbers (diagram_of three_strokes))
    = (List.length (paths three_strokes) *
       (List.length (paths three_strokes) + 1) / 2)%nat /\
    (forall i j ls e, nth_error labels i = Some ls -> nth_error ls j = Some e ->
       tag e = "text" /\ text e = Some (PyStr.str_of_int (Z.of_nat j))).
Proof.
  apply (make_diagram_labels three_strokes (diagram_of three_strokes)).
  vm_compute. reflexivity.
Defined.

Lemma shift_transform_ok_tokens (mat : string) (row col : Z) (s : string) :
  shift_transform mat row col = Ok s ->
  malformed_tokens (transform_tokens mat) = false.
Proof.
  rewrite shift_transform_tokens. unfold malformed_tokens, token_numeric, index.
  set (tokens := transform_tokens mat). intros H.
  destruct (nth_error tokens 4) as [t4|] eqn:H4; [|discriminate]. cbn [bind] in H.
  apply bind_ok in H as (x4 & Hx4 & H). apply bind_ok in H as (e & _ & H).
  destruct (nth_error tokens 5) as [t5|] eqn:H5; [|discriminate]. cbn [bind] in H.
  apply bind_ok in H as (x5 & Hx5 & _).
  rewrite (proj2 (float_of_str_numeric t4) (ex_intro _ x4 Hx4)).
  rewrite (proj2 (float_of_str_numeric t5) (ex_intro _ x5 Hx5)).
  simpl. rewrite !orb_false_r. apply Nat.ltb_ge.
  assert (5 < List.length tokens)%nat by (apply nth_error_Some; congruence). lia.
Qed.

(** X14: all or nothing. [make_diagram] returns a diagram only when there
    is a label for every stroke, every stroke has a [d] whose runs are
    all well formed, and the transform of each of these labels has six
    tokens at least with a fifth and a sixth that are numbers. *)
Theorem make_diagram_all_or_nothing (k : Kanji) (out : Diagram) :
  make_diagram k = Ok out ->
  (List.length (paths k) <= List.length (numbers k))%nat /\
  (forall j p, nth_error (paths k) j = Some p ->
     exists d, attrib_get p "d" = Ok d /\
               Forall (fun s => run_ok s = true) (runs d)) /\
  (forall j, (j < List.length (paths k))%nat ->
     exists n t, nth_error (numbers k) j = Some n /\
                 attrib_get n "transform" = Ok t /\
                 malformed_tokens (transform_tokens t) = false).
Proof.
  intros H. apply make_diagram_ok in H as (id_base & frames & labels & _ & Hf & Hl & _).
  assert (Hstroke : forall j, (j < List.length (paths k))%nat ->
            (exists e, is_stroke_copy k id_base (frame_row j) (frame_col j) j e) /\
            (exists e, is_label k (frame_row j) (frame_col j) j e)).
  { intros j Hj. split.
    - destruct (Forall2_nth_error_l _ _ _ Hf j j (nth_error_seq 0 _ j Hj))
        as (els & _ & (copies & marker & _ & Hc & _)).
      destruct (Forall2_nth_error_l _ _ _ Hc j j) as (e & _ & He); [|eauto].
      rewrite nth_error_seq by lia. reflexivity.
    - destruct (Forall2_nth_error_l _ _ _ Hl j j (nth_error_seq 0 _ j Hj))
        as (ls & _ & Hls).
      destruct (Forall2_nth_error_l _ _ _ Hls j j) as (e & _ & He); [|eauto].
      rewrite nth_error_seq by lia. reflexivity. }
  assert (Hlabel : forall j, (j < List.length (paths k))%nat ->
            exists n t, nth_error (numbers k) j = Some n /\
                        attrib_get n "transform" = Ok t /\
                        malformed_tokens (transform_tokens t) = false).
  { intros j Hj. destruct (Hstroke j Hj) as [_ (e & n & t & mat & Hn & Ht & Hm & _)].
    exists n, t. split; [exact Hn|]. split; [exact Ht|].
    eapply shift_transform_ok_tokens. exact Hm. }
  split; [|split; [|exact Hlabel]].
  - destruct (List.length (paths k)) as [|n] eqn:En; [lia|].
    destruct (Hlabel n) as (e & t & Hn & _); [lia|].
    assert (n < List.length (numbers k))%nat by (apply nth_error_Some; congruence). lia.
  - intros j p Hp.
    assert (Hj : (j < List.length (paths k))%nat) by (apply nth_error_Some; congruence).
    destruct (Hstroke j Hj) as [(e & p' & d & new_d & x & y & Hp' & Hd & Hs & _) _].
    rewrite Hp in Hp'. injection Hp' as <-.
    exists d. split; [exact Hd|]. eapply shift_path_ok_runs. exact Hs.
Qed.

Lemma make_diagram_all_or_nothing_witness :
  (List.length (paths three_strokes) <= List.length (numbers three_strokes))%nat /\
  (forall j p, nth_error (paths three_strokes) j = Some p ->
     exists d, attrib_get p "d" = Ok d /\
               Forall (fun s => run_ok s = true) (runs d)) /\
  (forall j, (j < List.length (paths three_strokes))%nat ->
     exists n t, nth_error (numbers three_strokes) j = Some n /\
                 attrib_get n "transform" = Ok t /\
                 malformed_tokens (transform_tokens t) = false).
Proof.
  apply (make_diagram_all_or_nothing three_strokes (diagram_of three_strokes)).
  vm_compute. reflexivity.
Defined.

(** X15: [make_diagram] sets [width], [height] and [viewBox] on the root and
    leaves every other attribute of the root as it was. *)
Theorem make_diagram_keeps_attributes (k : Kanji) (out : Diagram) (key : string) :
  make_diagram k = Ok out ->
  key <> "width" -> key <> "height" -> key <> "viewBox" ->
  lookup key (d_attrib out) = lookup key (root_attrib k).
Proof.
  intros H Hw Hh Hv.
  apply make_diagram_ok in H as (id_base & frames & labels & _ & _ & _ & ->).
  cbn [d_attrib]. unfold canvas_attribs.
  rewrite !lookup_set_other by assumption. reflexivity.
Qed.

Lemma make_diagram_keeps_attributes_witness :
  lookup "version" (d_attrib (diagram_of versioned_glyph))
  = lookup "version" (root_attrib versioned_glyph).
Proof.
  apply (make_diagram_keeps_attributes versioned_glyph (diagram_of versioned_glyph)
           "version").
  - vm_compute. reflexivity.
  - discriminate.
  - discriminate.
  - discriminate.
Defined.

(** The attribute is there before and after. *)
Example versioned_glyph_version :
  lookup "version" (d_attrib (diagram_of versioned_glyph)) = Some "1.1".
Proof. vm_compute. reflexivity. Qed.

(** The marker of the frame [i] is the circle at the start point
    [shift_path] returns for the stroke [i] in the cell of the frame. *)
Lemma make_diagram_marker (k : Kanji) (out : Diagram) (i : nat)
  (p : Element) (d : string) :
  make_diagram k = Ok out ->
  nth_error (paths k) i = Some p ->
  attrib_get p "d" = Ok d ->
  exists new_d x y,
    shift_path d (frame_row i) (frame_col i) = Ok (new_d, x, y) /\
    nth_error (d_base out) (marker_index i) = Some (circle x y).
Proof.
  intros Hout Hp Hd.
  apply make_diagram_ok in Hout as (id_base & frames & labels & _ & Hf & _ & ->).
  cbn [d_base].
  assert (Hi : (i < List.length (paths k))%nat)
    by (apply nth_error_Some; congruence).
  destruct (Forall2_nth_error_l _ _ _ Hf i i (nth_error_seq 0 _ i Hi))
    as (els & Hels & Hfr).
  pose proof Hfr as (copies & marker & -> & Hcopies &
                     (p' & d' & new_d & x & y & Hp' & Hd' & Hs & ->)).
  rewrite Hp in Hp'. injection Hp' as <-.
  rewrite Hd in Hd'. injection Hd' as <-.
  exists new_d, x, y. split; [exact Hs|].
  assert (Hlen : List.length copies = (i + 1)%nat).
  { rewrite <- (Forall2_length Hcopies), length_seq. reflexivity. }
  destruct (nth_error_frames k id_base _ 0 frames i
              (copies ++ [circle x y])%list (i + 1) Hf Hels)
    as (off & Hoff & Hnth).
  { rewrite length_app, Hlen. simpl. lia. }
  rewrite nth_error_app2, Hlen, Nat.sub_diag in Hnth by lia.
  simpl in Hnth. rewrite <- Hnth. f_equal. unfold marker_index.
  replace (i * (i + 3) / 2)%nat with off; [lia|].
  apply Nat.div_unique_exact; lia.
Qed.

Lemma shift_path_ok_start (d : string) (row col : Z) (payload : string)
  (rest : list string) (tx ty : string) (x y : PyFloat.float) (d' : string)
  (fx fy : option PyFloat.float) :
  runs d = String "M" payload :: rest ->
  PyStr.split "," payload = [tx; ty] ->
  PyFloat.of_string tx = Some x ->
  PyFloat.of_string ty = Some y ->
  shift_path d row col = Ok (d', fx, fy) ->
  exists cx cy,
    PyFloat.of_int (col * kanjivg_width) = Some cx /\
    PyFloat.of_int (row * kanjivg_height) = Some cy /\
    fx = Some (PyFloat.add x cx) /\ fy = Some (PyFloat.add y cy).
Proof.
  intros Hruns Hsplit Hx Hy H. unfold runs in Hruns. unfold shift_path in H.
  destruct (caps_finditer d) as [|m ms]; [discriminate|].
  simpl in Hruns. injection Hruns as Hg _.
  apply bind_ok in H as (st & Hrun & H). injection H as _ <- <-.
  cbn [for_each] in Hrun. apply bind_ok in Hrun as (st1 & H1 & Hrun).
  destruct (shift_run_move _ _ _ m (Build_sp_state d None None 0) st1 payload tx ty
              x y Hg Hsplit Hx Hy eq_refl H1)
    as (cx & cy & Hcx & Hcy & Hx1 & Hy1).
  exists cx, cy. split; [exact Hcx|]. split; [exact Hcy|].
  apply (for_each_invariant
           (fun s => first_x s = Some (PyFloat.add x cx) /\
                     first_y s = Some (PyFloat.add y cy)) ms
           (shift_run (col * kanjivg_width) (row * kanjivg_height) (PyStr.len d)))
    with (s := st1); [|split; assumption | exact Hrun].
  intros a s s' _ [Ha Hb] Hs. eapply shift_run_keeps; eauto.
Qed.

(** X16: the marker of the frame [i] is at the start of the stroke the
    frame adds: when the path of the stroke [i] begins with the run
    [M x,y], the circle has [cx = x + col * kanjivg_width] and [cy = y +
    row * kanjivg_height], for the row and column of the frame. *)
Theorem make_diagram_marker_start (k : Kanji) (out : Diagram) (i : nat)
  (p : Element) (d payload : string) (rest : list string) (tx ty : string)
  (x y : PyFloat.float) :
  make_diagram k = Ok out ->
  nth_error (paths k) i = Some p ->
  attrib_get p "d" = Ok d ->
  runs d = String "M" payload :: rest ->
  PyStr.split "," payload = [tx; ty] ->
  PyFloat.of_string tx = Some x ->
  PyFloat.of_string ty = Some y ->
  exists cx cy,
    PyFloat.of_int (frame_col i * kanjivg_width) = Some cx /\
    PyFloat.of_int (frame_row i * kanjivg_height) = Some cy /\
    nth_error (d_base out) (marker_index i)
    = Some (circle (Some (PyFloat.add x cx)) (Some (PyFloat.add y cy))).
Proof.
  intros Hout Hp Hd Hruns Hsplit Hx Hy.
  destruct (make_diagram_marker k out i p d Hout Hp Hd) as (new_d & fx & fy & Hs & Hnth).
  destruct (shift_path_ok_start _ _ _ _ _ _ _ _ _ _ _ _ Hruns Hsplit Hx Hy Hs)
    as (cx & cy & Hcx & Hcy & -> & ->).
  eauto.
Qed.

Lemma make_diagram_marker_start_witness :
  exists cx cy,
    PyFloat.of_int (frame_col 7 * kanjivg_width) = Some cx /\
    PyFloat.of_int (frame_row 7 * kanjivg_height) = Some cy /\
    nth_error (d_base (diagram_of eight_strokes)) (marker_index 7)
    = Some (circle (Some (PyFloat.add (PyFloat.of_decimal false 21 0) cx))
                   (Some (PyFloat.add (PyFloat.of_decimal false 92 0) cy))).
Proof.
  apply (make_diagram_marker_start eight_strokes (diagram_of eight_strokes) 7
           (kvg_path "kvg:056fd-s8" "M21,92C40,91,75,90,88,90")
           "M21,92C40,91,75,90,88,90" "21,92" ["C40,91,75,90,88,90"] "21" "92").
  - vm_compute. reflexivity.
  - reflexivity.
  - reflexivity.
  - vm_compute. reflexivity.
  - reflexivity.
  - vm_compute. reflexivity.
  - vm_compute. reflexivity.
Defined.

Example eight_strokes_last_marker :
  nth_error (d_base (diagram_of eight_strokes)) (marker_index 7)
  = Some {| tag := "circle";
            attrib := [("cx", "130.0"); ("cy", "201.0"); ("r", "3");
                       ("stroke-width", "0"); ("fill", "red")];
            text := None |}.
Proof. vm_compute. reflexivity. Qed.

(** *** Identifiers *)

Lemma str_of_int_inj (a b : Z) : PyStr.str_of_int a = PyStr.str_of_int b -> a = b.
Proof.
  unfold PyStr.str_of_int. intros H.
  assert (Hn : forall z, Z.to_int z <> Pos Nil /\ Z.to_int z <> Neg Nil).
  { intros z. destruct z as [|p|p]; simpl; split; try discriminate;
      intros E; injection E as E; exact (Unsigned.to_uint_nonnil p E). }
  assert (Hi : forall z, NilZero.int_of_string (NilZero.string_of_int (Z.to_int z))
                         = Some (Z.to_int z)).
  { intros z. apply NilZero.isi; apply Hn. }
  pose proof (Hi a) as Ha. rewrite H, Hi in Ha. injection Ha as Ha.
  rewrite <- (DecimalZ.of_to a), <- (DecimalZ.of_to b), Ha. reflexivity.
Qed.

Lemma str_of_int_digits (n : Z) :
  0 <= n -> PyStr.forallb PyStr.is_digit (PyStr.str_of_int n) = true.
Proof.
  intros Hn. unfold PyStr.str_of_int.
  destruct n as [|p|p]; [reflexivity | | lia].
  simpl. unfold NilZero.string_of_uint.
  destruct (Pos.to_uint p); try reflexivity; apply string_of_uint_digits.
Qed.

Lemma append_inj_l (a x y : string) : a ++ x = a ++ y -> x = y.
Proof. induction a as [|c a IH]; simpl; [auto | intros H; injection H as H; auto]. Qed.

(** Two runs of digits, each followed by a minus sign. *)
Lemma digits_sep (a : string) :
  forall a' x x',
    PyStr.forallb PyStr.is_digit a = true ->
    PyStr.forallb PyStr.is_digit a' = true ->
    a ++ String "-" x = a' ++ String "-" x' ->
    a = a' /\ x = x'.
Proof.
  induction a as [|c a IH]; intros a' x x' Ha Ha' H; destruct a' as [|c' a'].
  - simpl in H. injection H as ->. auto.
  - simpl in H. injection H as <- _. simpl in Ha'. discriminate.
  - simpl in H. injection H as -> _. simpl in Ha. discriminate.
  - simpl in H. injection H as -> H. simpl in Ha, Ha'.
    apply andb_true_iff in Ha as [_ Ha]. apply andb_true_iff in Ha' as [_ Ha'].
    destruct (IH a' x x' Ha Ha' H) as [-> ->]. auto.
Qed.

Lemma path_id_inj (b : string) (j j' : nat) (r r' c c' : Z) :
  0 <= r -> 0 <= r' ->
  path_id b j r c = path_id b j' r' c' ->
  j = j' /\ r = r' /\ c = c'.
Proof.
  unfold path_id. intros Hr Hr' H.
  apply append_inj_l in H. injection H as H.
  apply digits_sep in H as [Hj H]; try (apply str_of_int_digits; lia).
  apply digits_sep in H as [Hrr Hc]; try (apply str_of_int_digits; lia).
  apply str_of_int_inj in Hj, Hrr, Hc. repeat split; lia.
Qed.

Lemma frame_cell_inj (i i' : nat) :
  frame_row i = frame_row i' -> frame_col i = frame_col i' -> i = i'.
Proof.
  unfold frame_row, frame_col, boxes_per_line. intros Hr Hc.
  pose proof (Z.div_mod (Z.of_nat i) 6). pose proof (Z.div_mod (Z.of_nat i') 6). lia.
Qed.

Lemma frame_row_nonneg (i : nat) : 0 <= frame_row i.
Proof. unfold frame_row, boxes_per_line. apply Z.div_pos; lia. Qed.

Lemma path_ids_app (a b : list Element) :
  path_ids (a ++ b) = (path_ids a ++ path_ids b)%list.
Proof. unfold path_ids. apply flat_map_app. Qed.

Lemma path_ids_copies (k : Kanji) (b : string) (r c : Z) (l : list nat)
  (es : list Element) :
  Forall2 (is_stroke_copy k b r c) l es ->
  path_ids es = map (fun j => path_id b j r c) l.
Proof.
  induction 1 as [|j e l es (p & d & new_d & x & y & _ & _ & _ & ->) _ IH].
  - reflexivity.
  - change (path_ids (path_element (path_id b j r c) new_d :: es))
      with (path_id b j r c :: path_ids es).
    rewrite IH. reflexivity.
Qed.

Lemma path_ids_frame (k : Kanji) (b : string) (r c : Z) (i : nat)
  (els : list Element) :
  is_frame_at k b r c i els ->
  path_ids els = map (fun j => path_id b j r c) (seq 0 (i + 1)).
Proof.
  intros (copies & marker & -> & Hc & (p & d & new_d & x & y & _ & _ & _ & ->)).
  rewrite path_ids_app, (path_ids_copies _ _ _ _ _ _ Hc).
  change (path_ids [circle x y]) with (@nil string). apply app_nil_r.
Qed.

Lemma path_ids_frames (k : Kanji) (b : string) (n : nat) :
  forall a frames,
    Forall2 (is_frame k b) (seq a n) frames ->
    NoDup (path_ids (List.concat frames)) /\
    (forall id, In id (path_ids (List.concat frames)) ->
       exists i j, (a <= i)%nat /\
                   id = path_id b j (frame_row i) (frame_col i)).
Proof.
  induction n as [|n IH]; intros a frames H; cbn [seq] in H.
  - inversion H. split; [constructor | intros id []].
  - inversion H as [|? els ? frames' Hels Hrest]; subst.
    destruct (IH _ _ Hrest) as [Hnd Hin].
    cbn [List.concat]. rewrite path_ids_app, (path_ids_frame _ _ _ _ _ _ Hels).
    split.
    + apply NoDup_app; [| exact Hnd |].
      * apply NoDup_map_NoDup_ForallPairs; [|apply seq_NoDup].
        intros j j' _ _ E.
        apply path_id_inj in E as [E _]; [exact E | | ]; apply frame_row_nonneg.
      * intros id Hid Hid'. apply in_map_iff in Hid as (j & <- & _).
        destruct (Hin _ Hid') as (i & j' & Hi & E).
        apply path_id_inj in E as (_ & Er & Ec); try apply frame_row_nonneg.
        pose proof (frame_cell_inj _ _ Er Ec). lia.
    + intros id Hid. apply in_app_or in Hid as [Hid|Hid].
      * apply in_map_iff in Hid as (j & <- & _). exists a, j. split; [lia | reflexivity].
      * destruct (Hin _ Hid) as (i & j & Hi & E). exists i, j. split; [lia | exact E].
Qed.

(** X17: the ids [make_diagram] gives to the stroke paths it draws are
    pairwise different. *)
Theorem make_diagram_unique_ids (k : Kanji) (out : Diagram) :
  make_diagram k = Ok out ->
  NoDup (path_ids (d_base out)) /\
  List.length (path_ids (d_base out)) = count_tag "path" (d_base out).
Proof.
  intros H. apply make_diagram_ok in H as (id_base & frames & labels & _ & Hf & _ & ->).
  cbn [d_base]. split; [apply (path_ids_frames k id_base _ 0 frames Hf)|].
  clear labels. revert Hf. generalize 0%nat. generalize (List.length (paths k)).
  intros n. revert frames. induction n as [|n IH]; intros frames a Hf; cbn [seq] in Hf.
  - inversion Hf. reflexivity.
  - inversion Hf as [|? els ? frames' Hels Hrest]; subst.
    cbn [List.concat]. rewrite path_ids_app, length_app, count_tag_app.
    rewrite (IH _ _ Hrest), (path_ids_frame _ _ _ _ _ _ Hels), length_map, length_seq.
    destruct (count_frame _ _ _ _ _ _ Hels) as (-> & _ & _). reflexivity.
Qed.

Lemma make_diagram_unique_ids_witness :
  NoDup (path_ids (d_base (diagram_of eight_strokes))) /\
  List.length (path_ids (d_base (diagram_of eight_strokes)))
  = count_tag "path" (d_base (diagram_of eight_strokes)).
Proof.
  apply (make_diagram_unique_ids eight_strokes (diagram_of eight_strokes)).
  vm_compute. reflexivity.
Defined.

(** *** The loop of [gen_strokes] *)

Lemma substring_split (s : string) :
  forall a : nat,
    (a <= String.length s)%nat ->
    substring 0 a s ++ substring a (String.length s - a) s = s.
Proof.
  induction s as [|c s IH]; intros a Ha.
  - destruct a; reflexivity.
  - destruct a as [|a].
    + cbn [substring append String.length Nat.sub]. f_equal. apply substring_all.
    + cbn [substring append String.length Nat.sub]. f_equal. apply IH.
      cbn [String.length] in Ha. lia.
Qed.

(** [f[:-4] + f[-4:] == f]. *)
Lemma slice_tail_split (f : string) :
  PyStr.slice f None (Some (-4)) ++ PyStr.slice f (Some (-4)) None = f.
Proof.
  unfold PyStr.slice, PyStr.norm_index, PyStr.len.
  change (-4 <? 0) with true. cbv iota.
  set (n := String.length f).
  replace (Z.to_nat (Z.max (-4 + Z.of_nat n) 0 - 0)) with (Z.to_nat (Z.max (-4 + Z.of_nat n) 0)) by lia.
  replace (Z.to_nat (Z.of_nat n - Z.max (-4 + Z.of_nat n) 0))
    with (n - Z.to_nat (Z.max (-4 + Z.of_nat n) 0))%nat by lia.
  change (Z.to_nat 0) with O.
  apply substring_split. lia.
Qed.

Lemma slice_svg_suffix (stem : string) :
  PyStr.slice (stem ++ ".svg") (Some (-4)) None = ".svg".
Proof.
  unfold PyStr.slice, PyStr.norm_index, PyStr.len.
  change (-4 <? 0) with true. cbv iota.
  rewrite length_append. change (String.length ".svg") with 4%nat.
  replace (Z.to_nat (Z.max (-4 + Z.of_nat (String.length stem + 4)) 0))
    with (String.length stem) by lia.
  replace (Z.to_nat (Z.of_nat (String.length stem + 4)
                     - Z.max (-4 + Z.of_nat (String.length stem + 4)) 0))
    with (String.length ".svg") by (change (String.length ".svg") with 4%nat; lia).
  apply substring_suffix.
Qed.

Lemma slice_svg_stem (stem : string) :
  PyStr.slice (stem ++ ".svg") None (Some (-4)) = stem.
Proof.
  pose proof (slice_tail_split (stem ++ ".svg")) as H.
  rewrite slice_svg_suffix in H.
  revert H. generalize (PyStr.slice (stem ++ ".svg") None (Some (-4))).
  intros s. revert stem. induction s as [|c s IH]; intros stem H; destruct stem as [|c' stem].
  - reflexivity.
  - exfalso. apply (f_equal String.length) in H. cbn [String.length append] in H.
    rewrite length_append in H. cbn [String.length] in H. lia.
  - exfalso. apply (f_equal String.length) in H. cbn [String.length append] in H.
    rewrite length_append in H. cbn [String.length] in H. lia.
  - cbn [append] in H. injection H as -> H. f_equal. apply IH. exact H.
Qed.

Lemma is_svg_iff (f : string) :
  is_svg f = true <-> exists stem, f = stem ++ ".svg".
Proof.
  unfold is_svg. split.
  - intros H. apply String.eqb_eq in H.
    exists (PyStr.slice f None (Some (-4))).
    pose proof (slice_tail_split f) as E. rewrite H in E. symmetry. exact E.
  - intros [stem ->]. rewrite slice_svg_suffix. reflexivity.
Qed.

Lemma gen_strokes_file_cases (k : Kanji) :
  (exists doc, make_diagram k = Ok doc /\ gen_strokes_file k = Written doc) \/
  (make_diagram k = Raise ValueError /\ gen_strokes_file k = Skipped) \/
  (exists e, make_diagram k = Raise e /\ e <> ValueError /\
             gen_strokes_file k = Uncaught e).
Proof.
  unfold gen_strokes_file. destruct (make_diagram k) as [doc|e].
  - left. eauto.
  - right. destruct e; simpl.
    + left. auto.
    + right. eexists. repeat split. discriminate.
    + right. eexists. repeat split. discriminate.
    + right. eexists. repeat split. discriminate.
Qed.

Lemma stored_app (a b : list event) : stored (a ++ b) = (stored a ++ stored b)%list.
Proof. unfold stored. apply flat_map_app. Qed.

Lemma gen_strokes_entry_cur (st : gs_state) (entry : string * Kanji) :
  cur (fst (gen_strokes_entry st entry)) = cur st + 1.
Proof.
  destruct entry as [f k]. unfold gen_strokes_entry.
  destruct (is_svg f); [destruct (gen_strokes_file k)|]; reflexivity.
Qed.

Lemma stored_progress (st : gs_state) (c : Z) :
  stored (if c mod 200 =? 0
          then (events st ++ [Printed ("Processed " ++ PyStr.str_of_int c ++ "...")])%list
          else events st)
  = stored (events st).
Proof.
  destruct (c mod 200 =? 0); [|reflexivity].
  rewrite stored_app. apply app_nil_r.
Qed.

Lemma gen_strokes_entry_stored (st : gs_state) (entry : string * Kanji) :
  stored (events (fst (gen_strokes_entry st entry)))
  = (stored (events st) ++ written entry)%list.
Proof.
  destruct entry as [f k]. unfold gen_strokes_entry, written. cbn [fst snd].
  destruct (is_svg f).
  - destruct (gen_strokes_file_cases k)
      as [(doc & -> & ->) | [(-> & ->) | (e & -> & _ & ->)]]; cbn [fst events].
    + rewrite stored_app, stored_progress. reflexivity.
    + rewrite stored_app, stored_progress. reflexivity.
    + rewrite stored_progress, app_nil_r. reflexivity.
  - cbn [fst events]. rewrite stored_progress, app_nil_r. reflexivity.
Qed.

Lemma gen_strokes_entry_passes (st : gs_state) (entry : string * Kanji) :
  snd (gen_strokes_entry st entry) = None <-> passes entry.
Proof.
  destruct entry as [f k]. unfold gen_strokes_entry, passes. cbn [fst snd].
  destruct (is_svg f).
  - destruct (gen_strokes_file_cases k)
      as [(doc & Hm & ->) | [(Hm & ->) | (e & Hm & He & ->)]]; cbn [snd].
    + split; [intros _ _ e He; congruence | reflexivity].
    + split; [intros _ _ e He; congruence | reflexivity].
    + split; [discriminate | intros H; exfalso; apply He, H; auto].
  - cbn [snd]. split; [intros _ H; discriminate | reflexivity].
Qed.

Lemma gen_strokes_entry_raises (st : gs_state) (f : string) (k : Kanji) (e : exn) :
  is_svg f = true -> make_diagram k = Raise e -> e <> ValueError ->
  snd (gen_strokes_entry st (f, k)) = Some e /\
  stored (events (fst (gen_strokes_entry st (f, k)))) = stored (events st).
Proof.
  intros Hs Hm He. split.
  - unfold gen_strokes_entry. rewrite Hs.
    destruct (gen_strokes_file_cases k)
      as [(doc & Hm' & _) | [(Hm' & _) | (e' & Hm' & _ & ->)]]; try congruence.
    cbn [snd]. congruence.
  - rewrite gen_strokes_entry_stored. unfold written. cbn [fst snd].
    rewrite Hs, Hm. apply app_nil_r.
Qed.

(** The loop over a listing with no entry that leaves it. *)
Lemma gen_strokes_loop_passes (entries : list (string * Kanji)) :
  forall st,
    Forall passes entries ->
    exists st',
      gen_strokes_loop entries st = (st', None) /\
      cur st' = cur st + Z.of_nat (List.length entries) /\
      stored (events st') = (stored (events st) ++ flat_map written entries)%list.
Proof.
  induction entries as [|entry rest IH]; intros st H.
  - exists st. cbn [gen_strokes_loop List.length flat_map].
    rewrite app_nil_r. repeat split. simpl. lia.
  - inversion H as [|? ? Hp Hrest]; subst.
    pose proof (gen_strokes_entry_cur st entry) as Hc.
    pose proof (gen_strokes_entry_stored st entry) as Hs.
    apply (gen_strokes_entry_passes st) in Hp.
    cbn [gen_strokes_loop].
    destruct (gen_strokes_entry st entry) as [st1 o]. cbn [fst snd] in *. subst o.
    destruct (IH st1 Hrest) as (st' & Hl & Hc' & Hs').
    exists st'. split; [exact Hl|]. split.
    + rewrite Hc', Hc. cbn [List.length]. lia.
    + rewrite Hs', Hs. cbn [flat_map]. rewrite app_assoc. reflexivity.
Qed.

Lemma gen_strokes_loop_completes (entries : list (string * Kanji)) :
  forall st,
    snd (gen_strokes_loop entries st) = None <-> Forall passes entries.
Proof.
  induction entries as [|entry rest IH]; intros st.
  - cbn [gen_strokes_loop snd]. split; [constructor | reflexivity].
  - cbn [gen_strokes_loop].
    pose proof (gen_strokes_entry_passes st entry) as Hp.
    destruct (gen_strokes_entry st entry) as [st1 [e|]]; cbn [snd] in *.
    + split; [discriminate|]. intros H. inversion H as [|? ? H1 _]; subst.
      apply Hp in H1. discriminate.
    + rewrite IH. split.
      * intros H. constructor; [apply Hp; reflexivity | exact H].
      * intros H. inversion H; assumption.
Qed.

Lemma gen_strokes_loop_app (pre post : list (string * Kanji)) :
  forall st,
    gen_strokes_loop (pre ++ post) st
    = match gen_strokes_loop pre st with
      | (st', None) => gen_strokes_loop post st'
      | (st', Some e) => (st', Some e)
      end.
Proof.
  induction pre as [|entry pre IH]; intros st.
  - reflexivity.
  - rewrite <- app_comm_cons. cbn [gen_strokes_loop].
    destruct (gen_strokes_entry st entry) as [st1 [e|]]; [reflexivity | apply IH].
Qed.

Lemma gen_strokes_completed (entries : list (string * Kanji)) (evs : list event) :
  gen_strokes entries = (evs, None) ->
  exists st,
    gen_strokes_loop entries {| cur := 0; events := [] |} = (st, None) /\
    evs = (events st
           ++ [Printed ("Generated " ++ PyStr.str_of_int (cur st)
                        ++ " stroke documents.")])%list /\
    Forall passes entries.
Proof.
  unfold gen_strokes. intros H.
  pose proof (gen_strokes_loop_completes entries {| cur := 0; events := [] |}) as Hc.
  destruct (gen_strokes_loop entries {| cur := 0; events := [] |}) as [st [e|]];
    [discriminate|].
  injection H as <-. exists st. repeat split. apply Hc. reflexivity.
Qed.

Lemma length_written (entries : list (string * Kanji)) :
  (List.length (flat_map written entries) <= List.length entries)%nat.
Proof.
  induction entries as [|entry rest IH]; cbn [flat_map List.length]; [lia|].
  rewrite length_app. unfold written at 1.
  destruct (is_svg (fst entry)); [destruct (make_diagram (snd entry))|];
    cbn [List.length]; lia.
Qed.

(** X18: when [gen_strokes] completes, the files it has stored are, in the
    order of the listing, those of the entries whose name ends in [.svg]
    and on which [make_diagram] returns. *)
Theorem gen_strokes_stored_files (entries : list (string * Kanji))
  (evs : list event) :
  gen_strokes entries = (evs, None) ->
  stored evs = flat_map written entries.
Proof.
  intros H. apply gen_strokes_completed in H as (st & Hl & -> & Hp).
  destruct (gen_strokes_loop_passes entries {| cur := 0; events := [] |} Hp)
    as (st' & Hl' & _ & Hs).
  rewrite Hl in Hl'. injection Hl' as <-.
  rewrite stored_app, Hs. cbn [events stored flat_map app]. apply app_nil_r.
Qed.

Lemma gen_strokes_stored_files_witness :
  stored (fst (gen_strokes sample_listing)) = flat_map written sample_listing.
Proof.
  apply (gen_strokes_stored_files sample_listing (fst (gen_strokes sample_listing))).
  vm_compute. reflexivity.
Defined.

(** X19: the number in the last line [gen_strokes] prints is the number of
    entries of the listing, whatever their names and whether or not they
    were drawn; the number of files stored is at most that. *)
Theorem gen_strokes_reports_entries (entries : list (string * Kanji))
  (evs : list event) :
  gen_strokes entries = (evs, None) ->
  last evs (Printed "")
  = Printed ("Generated " ++ PyStr.str_of_int (Z.of_nat (List.length entries))
             ++ " stroke documents.") /\
  (List.length (stored evs) <= List.length entries)%nat.
Proof.
  intros H.
  apply gen_strokes_completed in H as (st & Hl & -> & Hp).
  destruct (gen_strokes_loop_passes entries {| cur := 0; events := [] |} Hp)
    as (st' & Hl' & Hc & Hs).
  rewrite Hl in Hl'. injection Hl' as <-. split.
  - rewrite last_last, Hc. reflexivity.
  - rewrite stored_app, Hs. cbn [events stored flat_map app]. rewrite app_nil_r.
    apply length_written.
Qed.

Lemma gen_strokes_reports_entries_witness :
  last (fst (gen_strokes sample_listing)) (Printed "")
  = Printed "Generated 3 stroke documents." /\
  (List.length (stored (fst (gen_strokes sample_listing))) <= 3)%nat.
Proof.
  apply (gen_strokes_reports_entries sample_listing (fst (gen_strokes sample_listing))).
  vm_compute. reflexivity.
Defined.

(** One file is stored for the three entries the last line counts. *)
Example gen_strokes_sample_stored :
  List.length (stored (fst (gen_strokes sample_listing))) = 1%nat.
Proof. vm_compute. reflexivity. Qed.

(** X20: [gen_strokes] runs to its last line exactly when [make_diagram]
    raises nothing but [ValueError] on the entries whose name ends in
    [.svg]. *)
Theorem gen_strokes_completes_iff (entries : list (string * Kanji)) :
  snd (gen_strokes entries) = None <-> Forall passes entries.
Proof.
  rewrite <- (gen_strokes_loop_completes entries {| cur := 0; events := [] |}).
  unfold gen_strokes.
  destruct (gen_strokes_loop entries {| cur := 0; events := [] |}) as [st [e|]];
    cbn [snd]; reflexivity.
Qed.

(** X21: an exception of [make_diagram] other than [ValueError] ends
    [gen_strokes] with that exception at that entry: the files stored are
    those of the entries before it, and the entries after it have no
    effect. *)
Theorem gen_strokes_stops_at_uncaught (pre post : list (string * Kanji))
  (f : string) (k : Kanji) (e : exn) :
  Forall passes pre ->
  is_svg f = true ->
  make_diagram k = Raise e ->
  e <> ValueError ->
  snd (gen_strokes (pre ++ (f, k) :: post)) = Some e /\
  stored (fst (gen_strokes (pre ++ (f, k) :: post))) = flat_map written pre /\
  gen_strokes (pre ++ (f, k) :: post) = gen_strokes (pre ++ [(f, k)]).
Proof.
  intros Hp Hs Hm He.
  destruct (gen_strokes_loop_passes pre {| cur := 0; events := [] |} Hp)
    as (st & Hl & _ & Hst).
  destruct (gen_strokes_entry_raises st f k e Hs Hm He) as [Hr Hk].
  assert (Hg : forall rest,
             gen_strokes (pre ++ (f, k) :: rest)
             = (events (fst (gen_strokes_entry st (f, k))), Some e)).
  { intros rest. unfold gen_strokes. rewrite gen_strokes_loop_app, Hl.
    cbn [gen_strokes_loop].
    destruct (gen_strokes_entry st (f, k)) as [st1 o]. cbn [fst snd] in *.
    subst o. reflexivity. }
  rewrite !Hg. cbn [fst snd]. repeat split.
  rewrite Hk, Hst. reflexivity.
Qed.

Lemma gen_strokes_stops_at_uncaught_witness :
  snd (gen_strokes (sample_listing ++ ("04e00.svg", short_label_glyph)
                    :: [("04e8c.svg", no_move_glyph)])) = Some IndexError /\
  stored (fst (gen_strokes (sample_listing ++ ("04e00.svg", short_label_glyph)
                            :: [("04e8c.svg", no_move_glyph)])))
  = flat_map written sample_listing /\
  gen_strokes (sample_listing ++ ("04e00.svg", short_label_glyph)
               :: [("04e8c.svg", no_move_glyph)])
  = gen_strokes (sample_listing ++ [("04e00.svg", short_label_glyph)]).
Proof.
  apply (gen_strokes_stops_at_uncaught sample_listing [("04e8c.svg", no_move_glyph)]
           "04e00.svg" short_label_glyph IndexError).
  - repeat constructor; intros _ e He; vm_compute in He; congruence.
  - reflexivity.
  - vm_compute. reflexivity.
  - discriminate.
Defined.

(** X22: the file stored for an entry [stem.svg] on which [make_diagram]
    returns is [strokes/stem-strokes.svg]. *)
Theorem gen_strokes_file_name (st : gs_state) (f : string) (k : Kanji)
  (doc : Diagram) :
  is_absolute f = false ->
  is_svg f = true ->
  make_diagram k = Ok doc ->
  exists stem,
    f = stem ++ ".svg" /\
    stored (events (fst (gen_strokes_entry st (f, k))))
    = (stored (events st) ++ [(("strokes/" ++ stem ++ "-strokes.svg")%string, doc)])%list.
Proof.
  intros Ha Hs Hm. pose proof Hs as Hs'.
  apply is_svg_iff in Hs' as [stem ->]. exists stem. split; [reflexivity|].
  rewrite gen_strokes_entry_stored. f_equal.
  unfold written. cbn [fst snd]. rewrite Hs, Hm.
  unfold strokes_name. rewrite slice_svg_stem.
  unfold path_join.
  assert (Hn : is_absolute (stem ++ "-strokes.svg") = false).
  { destruct stem as [|c stem]; [reflexivity | exact Ha]. }
  rewrite Hn. reflexivity.
Qed.

Lemma gen_strokes_file_name_witness :
  exists stem,
    "04e09.svg" = stem ++ ".svg" /\
    stored (events (fst (gen_strokes_entry {| cur := 0; events := [] |}
                           ("04e09.svg", three_strokes))))
    = (stored []
       ++ [(("strokes/" ++ stem ++ "-strokes.svg")%string, diagram_of three_strokes)])%list.
Proof.
  apply (gen_strokes_file_name {| cur := 0; events := [] |} "04e09.svg" three_strokes
           (diagram_of three_strokes)).
  - reflexivity.
  - reflexivity.
  - vm_compute. reflexivity.
Defined.

(** A file named [.svg] is a drawing with an empty stem. *)
Example written_empty_stem :
  map fst (written (".svg", three_strokes)) = ["strokes/-strokes.svg"].
Proof. vm_compute. reflexivity. Qed.

(** A name of fewer than four characters is no drawing. *)
Example is_svg_short : is_svg "svg" = false.
Proof. reflexivity. Qed.

(** *** Progress lines *)







(** The two progress lines of a listing of 401 entries. *)
Example gen_strokes_progress_sample :
  filter is_progress
    (fst (gen_strokes (repeat ("README", bad_path_glyph) 199
                       ++ sample_listing
                       ++ repeat ("README", bad_path_glyph) 199)))
  = [Printed "Processed 200..."; Printed "Processed 400..."].
Proof. vm_compute. reflexivity. Qed.

(** ** Whitespace around a number *)

(** [float] strips a space from both ends of its argument. *)
Example of_string_spaces : numeric " 5 " = true.
Proof. vm_compute. reflexivity. Qed.

Lemma rstrip_keeps_first (c : ascii) (t : string) :
  PyStr.is_space c = false ->
  exists t', PyStr.rstrip (String c t) = String c t'.
Proof.
  intros Hc. cbn [PyStr.rstrip]. rewrite Hc.
  destruct (PyStr.rstrip t); eauto.
Qed.

(** A token that begins with one of the separators of codes 28 to 31 is
    no number: [float] does not strip them. *)
Lemma of_string_separator (c : ascii) (t : string) :
  PyStr.in_range 28 31 c = true ->
  PyFloat.of_string (String c t) = None.
Proof.
  intros Hc.
  assert (Hs : PyStr.is_space c = false /\ PyStr.is_digit c = false /\
               Ascii.eqb c "_" = false /\ Ascii.eqb c "-" = false /\
               Ascii.eqb c "+" = false /\ Ascii.eqb c "." = false /\
               Ascii.eqb (PyStr.to_lower c) "i" = false /\
               Ascii.eqb (PyStr.to_lower c) "n" = false).
  { destruct c as [[] [] [] [] [] [] [] []]; vm_compute in Hc; try discriminate;
      vm_compute; repeat split. }
  destruct Hs as (Hsp & Hd & Hu & Hm & Hp & Hdot & Hi & Hn).
  assert (E : PyFloat.strip_underscores "000" (String c t)
              = option_map (String c) (PyFloat.strip_underscores c t)).
  { cbn [PyFloat.strip_underscores]. rewrite Hu. reflexivity. }
  unfold PyFloat.of_string. rewrite E.
  destruct (PyFloat.strip_underscores c t) as [t1|]; [|reflexivity].
  cbn [option_map]. cbn [PyStr.lstrip]. rewrite Hsp.
  destruct (rstrip_keeps_first c t1 Hsp) as [t2 ->].
  unfold PyFloat.parse_number.
  assert (Hsign : PyFloat.split_sign (String c t2) = (false, String c t2)).
  { unfold PyFloat.split_sign.
    destruct c as [[] [] [] [] [] [] [] []]; try reflexivity; vm_compute in Hm, Hp;
      discriminate. }
  rewrite Hsign. cbn [PyStr.lower].
  assert (Hw : forall w, String.eqb (String (PyStr.to_lower c) w) "inf" = false /\
                         String.eqb (String (PyStr.to_lower c) w) "infinity" = false /\
                         String.eqb (String (PyStr.to_lower c) w) "nan" = false).
  { intros w. cbn [String.eqb]. rewrite Hi, Hn. auto. }
  destruct (Hw (PyStr.lower t2)) as (-> & -> & ->). cbn [orb].
  cbn [PyStr.span]. rewrite Hd.
  destruct c as [[] [] [] [] [] [] [] []]; try reflexivity; vm_compute in Hdot;
    discriminate.
Qed.

(** [shift_transform] rejects a fifth token that begins with such a
    separator, with the ValueError of [float]. *)
Lemma shift_transform_separator_token (mat : string) (row col : Z)
  (c : ascii) (t : string) :
  nth_error (transform_tokens mat) 4 = Some (String c t) ->
  PyStr.in_range 28 31 c = true ->
  shift_transform mat row col = Raise ValueError.
Proof.
  intros H4 Hc. rewrite shift_transform_tokens. unfold index. rewrite H4.
  cbn [bind]. unfold float_of_str. rewrite (of_string_separator c t Hc).
  reflexivity.
Qed.

(** The same on two transforms, with and without a sixth token: the
    ValueError comes before the sixth token is read. *)
Example shift_transform_separator :
  shift_transform ("matrix(1 0 0 1 " ++ String (ascii_of_nat 28) "5 6)") 0 0
  = Raise ValueError /\
  shift_transform ("matrix(1 0 0 1 " ++ String (ascii_of_nat 28) "5)") 0 0
  = Raise ValueError.
Proof. split; vm_compute; reflexivity. Qed.
